(** * pbipandas: the Power BI client and its bulk aggregation layer

    A shallow embedding of [pbipandas/client.py] ([PowerBIClient]),
    [pbipandas/gateway/gateway_client.py] ([GatewayClient]) and
    [pbipandas/bulks/bulk_client.py] ([BulkClient], whose method bodies are
    textually those of the [get_all_*] methods of [PowerBIClient]).

    Python values are an inductive type, exceptions are data, and every
    method is a computation in a writer-and-exception monad: it yields a
    value or raises, and leaves a trace of the HTTP requests issued, the
    lines printed and the writes to [self.access_token].  The remote
    service, and the few library behaviours that are not spelled out, are
    fields of an environment record. *)

From Stdlib Require Import Ascii.
From stdpp Require Import base option list strings gmap fin_maps pretty.

Set Warnings "-register-all".

Open Scope string_scope.
Open Scope list_scope.
Open Scope Z_scope.

(** ** Python values *)

(** What a decoded JSON payload or a DataFrame cell can hold.  [VNaN] is
    pandas' missing-value marker; [VFloat] keeps a float by its text;
    [VOpaque] stands for any other Python object ([tuple], [set], [bytes],
    ...), which only [ast.literal_eval] can produce here. *)
Inductive value : Type :=
  | VNone
  | VNaN
  | VBool (b : bool)
  | VInt (z : Z)
  | VFloat (text : string)
  | VStr (s : string)
  | VArr (items : list value)
  | VObj (entries : list (string * value))
  | VOpaque (repr : string).

(** Every exception below is a subclass of Python's [Exception], so
    [except Exception] catches each of them. *)
Inductive exn : Type :=
  | KeyError (key : string)
  | TypeError (msg : string)
  | AttributeError (msg : string)
  | ValueError (msg : string)
  | IndexError (msg : string)
  | JSONDecodeError
  | RequestException (msg : string)
  | PandasError (msg : string).

Inductive res (A : Type) : Type :=
  | Ok (a : A)
  | Raise (e : exn).
Arguments Ok {A} a.
Arguments Raise {A} e.

Definition is_scalar (v : value) : bool :=
  match v with
  | VArr _ | VObj _ | VOpaque _ => false
  | _ => true
  end.

(** [isinstance(x, str)] and [isinstance(x, dict)]. *)
Definition is_str (v : value) : bool :=
  match v with VStr _ => true | _ => false end.

(** [d.get(key)] on a [dict]: the entry, or [None]. *)
Fixpoint dict_get (d : list (string * value)) (key : string) : option value :=
  match d with
  | [] => None
  | (k, v) :: d' => if bool_decide (k = key) then Some v else dict_get d' key
  end.

(** ** HTTP *)

Inductive http_method : Type := GET | POST.

Record request : Type := mk_request {
  req_method : http_method;
  req_url : string;
  req_headers : list (string * string);
  req_body : option value
}.

(** [payload = None] is a body that is not JSON: [result.json()] raises. *)
Record response : Type := mk_response {
  status_code : Z;
  payload : option value
}.

Inductive http_outcome : Type :=
  | Fault (e : exn)
  | Reply (r : response).

(** ** DataFrames *)

(** A frame is its ordered column labels and its rows; a row maps every
    column label to a cell.  Row labels (the index) are left out: no method
    reads them ([for _, row in df.iterrows()] drops them, and the boolean
    masks are computed from the frame they select from). *)
Record DataFrame : Type := mk_df {
  columns : list string;
  rows : list (gmap string value)
}.

(** ** Effects *)

(** [EvSetToken] is the assignment [self.access_token = ...] in
    [get_token]; no method reads the attribute back. *)
Inductive event : Type :=
  | EvRequest (r : request)
  | EvPrint (line : string)
  | EvSetToken (v : value).

Definition M (A : Type) : Type := (res A * list event)%type.

Definition ret {A} (a : A) : M A := (Ok a, []).

Definition raise {A} (e : exn) : M A := (Raise e, []).

Definition bind {A B} (m : M A) (k : A → M B) : M B :=
  match m with
  | (Ok a, tr) => let '(r, tr') := k a in (r, tr ++ tr')
  | (Raise e, tr) => (Raise e, tr)
  end.

Notation "x <~ m ;; k" := (bind m (λ x, k))
  (at level 100, m at next level, k at level 200, right associativity,
   format "'[v' x  <~  m  ;;  '/' k ']'").
Notation "m ;;; k" := (bind m (λ _, k))
  (at level 100, k at level 200, right associativity,
   format "'[v' m  ;;;  '/' k ']'").

(** [try: body  except Exception as e: handler]. *)
Definition try_except {A} (body : M A) (handler : exn → M A) : M A :=
  match body with
  | (Ok a, tr) => (Ok a, tr)
  | (Raise e, tr) => let '(r, tr') := handler e in (r, tr ++ tr')
  end.

Definition lift {A} (r : res A) : M A := (r, []).

Definition emit (ev : event) : M unit := (Ok tt, [ev]).

Definition print (line : string) : M unit := emit (EvPrint line).

(** ** The environment *)

(** [http] is the remote side: what [requests.get] / [requests.post] meet
    for a given request, the same answer for the same request throughout
    one call.  The other fields are library behaviour taken as given:
    [str_other] is [str()] on a value that is not a [str]; [str_exn] is
    [str(e)]; [DataFrame_other] is the [pd.DataFrame] constructor on a
    payload that is neither [None] nor a list of JSON objects;
    [setitem_other] is [df[c] = v] for a [v] that is not a scalar, given
    by the cells the column [c] receives, top to bottom (pandas aligns a
    list-like [v] with the rows, or raises); [literal_eval] is
    [ast.literal_eval].  Three fields are what differs between versions of
    pandas, or is not spelled out, in the dtype a new Series or column is
    given: [float_text z] is the text of [float(z)]; [null_as_nan vals]
    tells whether a [None] among the entries [vals], not all numbers,
    is stored as NaN (pandas 3 does so among strings, pandas 2 keeps
    [None]); [store_other] is what is stored for an entry next to an
    integer outside the 64-bit range.  [astype_missing] is what
    [astype(str)] makes of a missing cell (its [str()] in pandas 2, the
    cell itself in pandas 3). *)
Record Env : Type := mk_env {
  http : request → http_outcome;
  str_other : value → string;
  str_exn : exn → string;
  DataFrame_other : value → res DataFrame;
  setitem_other : DataFrame → string → value → res (list value);
  literal_eval : string → res value;
  float_text : Z → string;
  null_as_nan : list value → bool;
  store_other : list value → value → value;
  astype_missing : value → value;
  tenant_id : string;
  client_id : string;
  client_secret : string
}.

(** ** Strings *)

(** [s.replace(c, '')] for a one-character [c]. *)
Fixpoint delete_char (c : Ascii.ascii) (s : string) : string :=
  match s with
  | EmptyString => EmptyString
  | String a s' =>
      if bool_decide (a = c) then delete_char c s'
      else String a (delete_char c s')
  end.

(** [c in s] for a one-character [c]. *)
Fixpoint has_char (c : Ascii.ascii) (s : string) : bool :=
  match s with
  | EmptyString => false
  | String a s' => bool_decide (a = c) || has_char c s'
  end.

(** [pat in s]. *)
Fixpoint contains (pat s : string) : bool :=
  String.prefix pat s ||
  match s with
  | EmptyString => false
  | String _ s' => contains pat s'
  end.

(** ** pandas *)

(** [pd.DataFrame()]. *)
Definition no_frame : DataFrame := mk_df [] [].

(** [df.empty]: some axis has length zero. *)
Definition DataFrame_empty (df : DataFrame) : bool :=
  bool_decide (columns df = []) || bool_decide (rows df = []).

(** *** Dtype inference *)

(** pandas gives a new Series, and each column of a new frame, a dtype
    inferred from its entries, and stores the entries in it. *)
Definition is_None (v : value) : bool :=
  match v with VNone => true | _ => false end.

Definition is_missing (v : value) : bool :=
  match v with VNone | VNaN => true | _ => false end.

Definition numeric_or_missing (v : value) : bool :=
  match v with VInt _ | VFloat _ | VNaN | VNone => true | _ => false end.

(** An entry that an integer dtype cannot hold. *)
Definition forces_float (v : value) : bool :=
  match v with VFloat _ | VNaN | VNone => true | _ => false end.

Definition in_int64 (v : value) : bool :=
  match v with
  | VInt z => bool_decide (-9223372036854775808 ≤ z < 9223372036854775808)
  | _ => true
  end.

(** An entry of a float64 array. *)
Definition as_float (E : Env) (v : value) : value :=
  match v with
  | VInt z => VFloat (float_text E z)
  | VNone => VNaN
  | _ => v
  end.

Definition null_marker (E : Env) (vals : list value) : value :=
  if null_as_nan E vals then VNaN else VNone.

(** [stored E vals v]: the entry [v] as it reads back from a Series, or a
    column, built from the entries [vals].
    - Entries that are all [None] make an object array, which keeps them.
    - Numbers with a float or a missing entry among them make a float64
      array: an integer becomes a float and [None] becomes NaN.
    - Integers alone, and anything else without a [None], are kept as
      they are (an int64 array, an object array, in pandas 3 a string
      array), NaN included.
    - Otherwise the entries are kept but for [None], which is kept or
      turned into NaN as the version of pandas has it.
    NaN reads back as NaN throughout. *)
Definition stored (E : Env) (vals : list value) (v : value) : value :=
  if forallb is_None vals then v
  else if forallb numeric_or_missing vals && existsb forces_float vals then
    if forallb in_int64 vals then as_float E v
    else match v with
         | VNone => null_marker E vals
         | VNaN => VNaN
         | _ => store_other E vals v
         end
  else if is_None v then null_marker E vals
  else v.

(** Labels in order of first appearance. *)
Definition merge_labels (acc new : list string) : list string :=
  foldl (λ a c, if bool_decide (c ∈ a) then a else a ++ [c]) acc new.

Definition record_labels (recs : list (list (string * value))) : list string :=
  foldl (λ acc rec, merge_labels acc rec.*1) [] recs.

(** The cell of a row under a label; a label it lacks reads [NaN]. *)
Definition cell (r : gmap string value) (c : string) : value :=
  default VNaN (r !! c).

(** A row laid out on the labels [cols]. *)
Definition reindex (cols : list string) (r : gmap string value)
  : gmap string value :=
  foldr (λ c m, <[c := cell r c]> m) ∅ cols.

(** A list of dictionaries laid out on the labels of its keys, every
    cell as decoded: [pd.DataFrame(records)] before the dtypes of its
    columns are inferred, and a frame given by its cells. *)
Definition from_records (recs : list (list (string * value))) : DataFrame :=
  let cols := record_labels recs in
  mk_df cols ((λ rec, reindex cols (list_to_map rec)) <$> recs).

Definition as_record (v : value) : option (list (string * value)) :=
  match v with VObj o => Some o | _ => None end.

(** The cells of a column, top to bottom, and the frame with every column
    stored in its inferred dtype. *)
Definition column_cells (df : DataFrame) (c : string) : list value :=
  (λ r, cell r c) <$> rows df.

Definition infer_dtypes (E : Env) (df : DataFrame) : DataFrame :=
  mk_df (columns df)
        ((λ r, foldr (λ c m, <[c := stored E (column_cells df c) (cell r c)]> m)
                     ∅ (columns df)) <$> rows df).

(** [pd.DataFrame(data)]. *)
Definition pd_DataFrame (E : Env) (data : value) : M DataFrame :=
  match data with
  | VNone => ret no_frame
  | VArr items =>
      match mapM as_record items with
      | Some recs => ret (infer_dtypes E (from_records recs))
      | None => lift (DataFrame_other E data)
      end
  | _ => lift (DataFrame_other E data)
  end.

(** [df[c] = ...] writes an existing column, or adds a last one. *)
Definition add_label (cols : list string) (c : string) : list string :=
  if bool_decide (c ∈ cols) then cols else cols ++ [c].

(** [df[c] = v] for a scalar [v], broadcast to every row. *)
Definition assign_scalar (df : DataFrame) (c : string) (v : value) : DataFrame :=
  mk_df (add_label (columns df) c) (<[c := v]> <$> rows df).

(** The column [c] written cell by cell. *)
Fixpoint set_cells (c : string) (rs : list (gmap string value))
    (new : list value) : list (gmap string value) :=
  match rs with
  | [] => []
  | r :: rs' => <[c := default VNaN (head new)]> r :: set_cells c rs' (tail new)
  end.

Definition assign_cells (df : DataFrame) (c : string) (new : list value)
  : DataFrame :=
  mk_df (add_label (columns df) c) (set_cells c (rows df) new).

Definition setitem (E : Env) (df : DataFrame) (c : string) (v : value)
  : M DataFrame :=
  if is_scalar v then ret (assign_scalar df c v)
  else new <~ lift (setitem_other E df c v) ;; ret (assign_cells df c new).

(** [pd.concat([a, b])]: rows of [a] then rows of [b], on the union of the
    columns. *)
Definition pd_concat (a b : DataFrame) : DataFrame :=
  let cols := merge_labels (columns a) (columns b) in
  mk_df cols (reindex cols <$> (rows a ++ rows b)).

(** A row as [iterrows] yields it: a Series indexed by the column labels. *)
Record Series : Type := mk_series {
  index : list string;
  cells : gmap string value
}.

Definition iterrows (df : DataFrame) : list Series :=
  mk_series (columns df) <$> rows df.

(** [row[c]]. *)
Definition series_getitem (s : Series) (c : string) : M value :=
  if bool_decide (c ∈ index s) then ret (cell (cells s) c)
  else raise (KeyError c).

(** [df[c]], the column as a list of cells. *)
Definition getitem (df : DataFrame) (c : string) : M (list value) :=
  if bool_decide (c ∈ columns df)
  then ret ((λ r, cell r c) <$> rows df)
  else raise (KeyError c).

(** [col == s], elementwise. *)
Definition eq_str (s : string) (v : value) : bool :=
  match v with VStr s' => bool_decide (s' = s) | _ => false end.

(** [~col.str.contains(pat)].  With a cell that is not a string pandas
    raises, from [.str] or from [~] depending on the column's dtype. *)
Definition not_str_contains (col : list value) (pat : string) : M (list bool) :=
  if forallb is_str col
  then ret ((λ v, match v with VStr s => negb (contains pat s) | _ => false end) <$> col)
  else raise (PandasError "name column holds a value that is not a string").

(** [df[mask]]. *)
Fixpoint select {A} (mask : list bool) (l : list A) : list A :=
  match mask, l with
  | b :: mask', x :: l' => if b then x :: select mask' l' else select mask' l'
  | _, _ => []
  end.

Definition boolean_index (df : DataFrame) (mask : list bool) : DataFrame :=
  mk_df (columns df) (select mask (rows df)).

(** [df.columns = [f(col) for col in df.columns]].  Should two labels
    coincide after renaming, pandas keeps both columns under the one
    label; a row here keeps the cell of the first. *)
Definition rename_columns (f : string → string) (df : DataFrame) : DataFrame :=
  mk_df (f <$> columns df)
        ((λ r, foldr (λ c m, <[f c := cell r c]> m) ∅ (columns df)) <$> rows df).

(** ** Python subscripting and calls *)

(** [v[key]] for a string key. *)
Definition subscript (v : value) (key : string) : M value :=
  match v with
  | VObj d =>
      match dict_get d key with
      | Some x => ret x
      | None => raise (KeyError key)
      end
  | _ => raise (TypeError "object is not subscriptable by a string key")
  end.

(** [v[0]].  A JSON payload holds no [VOpaque]. *)
Definition subscript0 (v : value) : M value :=
  match v with
  | VArr (x :: _) => ret x
  | VArr [] => raise (IndexError "list index out of range")
  | VStr (String a _) => ret (VStr (String a EmptyString))
  | VStr EmptyString => raise (IndexError "string index out of range")
  | VObj _ => raise (KeyError "0")
  | _ => raise (TypeError "object is not subscriptable")
  end.

(** [d.get(key, default)] as an attribute access: only a [dict] has it. *)
Definition get_or (v : value) (key : string) (dflt : value) : M value :=
  match v with
  | VObj d => ret (default dflt (dict_get d key))
  | _ => raise (AttributeError "object has no attribute 'get'")
  end.

(** A call [self.f(...)] of a method [f(self, a, b)] with two required
    positional parameters, the second named [second], on the positional
    arguments [args]. *)
Definition call2 {A} (fname second : string) (f : value → value → M A)
    (args : list value) : M A :=
  match args with
  | [a; b] => f a b
  | [_] => raise (TypeError ("PowerBIClient." +:+ fname +:+
             "() missing 1 required positional argument: '" +:+ second +:+ "'"))
  | _ => raise (TypeError ("PowerBIClient." +:+ fname +:+
             "() called with a wrong number of positional arguments"))
  end.

(** A loop over a list inside the monad. *)
Fixpoint for_each {A B} (f : A → M B) (l : list A) : M (list B) :=
  match l with
  | [] => ret []
  | x :: l' => y <~ f x ;; ys <~ for_each f l' ;; ret (y :: ys)
  end.

(** The [pd.Series] of five entries that [extract_connection_details]
    returns. *)
Record connection_details : Type := mk_details {
  server : value;
  database : value;
  connectionString : value;
  url : value;
  path : value
}.

(** [query_body] of the schema fetchers. *)
Definition info_body (query : string) : value :=
  VObj [("queries", VArr [VObj [("query", VStr query)]]);
        ("serializerSettings", VObj [("includeNulls", VBool true)])].

Section Client.
Context (E : Env).

(** An f-string field [{v}]. *)
Definition fmt (v : value) : string :=
  match v with VStr s => s | _ => str_other E v end.

(** A request goes out and meets a reply, or a fault that is raised. *)
Definition send (req : request) : M response :=
  emit (EvRequest req) ;;;
  match http E req with
  | Fault e => raise e
  | Reply r => ret r
  end.

Definition requests_get (url : string) (headers : list (string * string))
  : M response :=
  send (mk_request GET url headers None).

Definition requests_post (url : string) (headers : list (string * string))
    (body : option value) : M response :=
  send (mk_request POST url headers body).

(** [result.json()]. *)
Definition json (result : response) : M value :=
  match payload result with
  | Some v => ret v
  | None => raise JSONDecodeError
  end.

(** *** client.py: authentication *)

Definition base_url : string := "https://api.powerbi.com/v1.0/myorg/groups/".

Definition get_token : M value :=
  let header := [("Content-Type", "application/x-www-form-urlencoded");
                 ("Host", "login.microsoftonline.com:443")] in
  let data := VObj [("grant_type", VStr "client_credentials");
                    ("scope", VStr "https://analysis.windows.net/powerbi/api/.default");
                    ("client_id", VStr (client_id E));
                    ("client_secret", VStr (client_secret E))] in
  result <~ requests_post
    ("https://login.microsoftonline.com/" +:+ tenant_id E +:+ "/oauth2/v2.0/token")
    header (Some data) ;;
  token_data <~ json result ;;
  token <~ subscript token_data "access_token" ;;
  emit (EvSetToken token) ;;;
  ret token.

Definition get_header : M (list (string * string)) :=
  token <~ get_token ;;
  ret [("Content-Type", "application/json");
       ("Authorization", "Bearer " +:+ fmt token)].

(** *** client.py: extract_connection_details *)

Definition no_details : connection_details :=
  mk_details VNone VNone VNone VNone VNone.

(** [details.get(...)] five times, and the Series built from them,
    which stores them in the dtype it infers. *)
Definition lookups (d : list (string * value)) : list value :=
  [default VNone (dict_get d "server");
   default VNone (dict_get d "database");
   default VNone (dict_get d "connectionString");
   default VNone (dict_get d "url");
   default VNone (dict_get d "path")].

Definition details_of (d : list (string * value)) : connection_details :=
  let held := stored E (lookups d) in
  mk_details (held (default VNone (dict_get d "server")))
             (held (default VNone (dict_get d "database")))
             (held (default VNone (dict_get d "connectionString")))
             (held (default VNone (dict_get d "url")))
             (held (default VNone (dict_get d "path"))).

Definition extract_connection_details (x : value) : M connection_details :=
  try_except
    (match x with
     | VStr s =>
         details <~ lift (literal_eval E s) ;;
         match details with
         | VObj d => ret (details_of d)
         | _ => raise (AttributeError "object has no attribute 'get'")
         end
     | VObj d => ret (details_of d)
     | _ => ret no_details
     end)
    (λ e, print ("Error parsing connectionDetails: " +:+ str_exn E e) ;;;
          ret no_details).

(** *** client.py: point queries *)

(** The metadata fetchers share one body:
    [result = requests.get(url=..., headers=self.get_header())];
    [if result.status_code == 200: return pd.DataFrame([result.json()])];
    [return pd.DataFrame()]. *)
Definition object_frame (result : response) : M DataFrame :=
  j <~ json result ;;
  pd_DataFrame E (VArr [j]).

Definition get_object (url : string) : M DataFrame :=
  headers <~ get_header ;;
  result <~ requests_get url headers ;;
  if bool_decide (status_code result = 200) then object_frame result
  else ret no_frame.

(** The listing fetchers of client.py: on 200,
    [return pd.DataFrame(result.json()["value"])]. *)
Definition listing_frame (result : response) : M DataFrame :=
  j <~ json result ;;
  v <~ subscript j "value" ;;
  pd_DataFrame E v.

Definition get_listing (url : string) : M DataFrame :=
  headers <~ get_header ;;
  result <~ requests_get url headers ;;
  if bool_decide (status_code result = 200) then listing_frame result
  else ret no_frame.

(** [df[[...five labels...]] = df["connectionDetails"].apply(
      self.extract_connection_details)]. *)
Definition set_details (r : gmap string value) (d : connection_details)
  : gmap string value :=
  <["path" := path d]> (<["url" := url d]> (<["connectionString" := connectionString d]>
    (<["database" := database d]> (<["server" := server d]> r)))).

(** [Series.apply] stacks the Series it got into a frame, whose five
    columns are stored in the dtypes inferred from them. *)
Definition frame_details (ds : list connection_details) : list connection_details :=
  (λ d, mk_details (stored E (server <$> ds) (server d))
                   (stored E (database <$> ds) (database d))
                   (stored E (connectionString <$> ds) (connectionString d))
                   (stored E (url <$> ds) (url d))
                   (stored E (path <$> ds) (path d))) <$> ds.

Definition apply_connection_details (df : DataFrame) : M DataFrame :=
  col <~ getitem df "connectionDetails" ;;
  details <~ for_each extract_connection_details col ;;
  ret (mk_df (merge_labels (columns df)
                ["server"; "database"; "connectionString"; "url"; "path"])
             (zip_with set_details (rows df) (frame_details details))).

(** The data-source fetchers: a listing, then the connection details
    spread over five columns when the frame is not empty. *)
Definition sources_frame (result : response) : M DataFrame :=
  j <~ json result ;;
  v <~ subscript j "value" ;;
  df <~ pd_DataFrame E v ;;
  if negb (DataFrame_empty df) then apply_connection_details df
  else ret df.

Definition get_sources (url : string) : M DataFrame :=
  headers <~ get_header ;;
  result <~ requests_get url headers ;;
  if bool_decide (status_code result = 200) then sources_frame result
  else ret no_frame.

(** [col.replace('[', '').replace(']', '')]. *)
Definition strip_brackets (col : string) : string :=
  delete_char "]"%char (delete_char "["%char col).

Definition info_url (workspace_id dataset_id : value) : string :=
  "https://api.powerbi.com/v1.0/myorg/groups/" +:+ fmt workspace_id
  +:+ "/datasets/" +:+ fmt dataset_id +:+ "/executeQueries".

(** [result.json()["results"][0]["tables"][0]["rows"]], framed, its
    columns renamed when the frame is not empty. *)
Definition info_rows (j : value) : M value :=
  results <~ subscript j "results" ;;
  first <~ subscript0 results ;;
  tables <~ subscript first "tables" ;;
  table <~ subscript0 tables ;;
  subscript table "rows".

Definition info_frame (result : response) : M DataFrame :=
  j <~ json result ;;
  rows <~ info_rows j ;;
  df <~ pd_DataFrame E rows ;;
  if negb (DataFrame_empty df) then ret (rename_columns strip_brackets df)
  else ret df.

(** The schema fetchers: a DAX [INFO] query posted to [executeQueries]. *)
Definition get_info (workspace_id dataset_id : value) (query : string)
  : M DataFrame :=
  let url := info_url workspace_id dataset_id in
  let query_body := info_body query in
  headers <~ get_header ;;
  result <~ requests_post url headers (Some query_body) ;;
  if bool_decide (status_code result = 200) then info_frame result
  else ret no_frame.

Definition get_workspace_by_id (workspace_id : value) : M DataFrame :=
  get_object (base_url +:+ "/" +:+ fmt workspace_id).

Definition get_dataset_by_id (workspace_id dataset_id : value) : M DataFrame :=
  get_object (base_url +:+ "/" +:+ fmt workspace_id +:+ "/datasets/" +:+ fmt dataset_id).

Definition get_report_by_id (workspace_id report_id : value) : M DataFrame :=
  get_object (base_url +:+ "/" +:+ fmt workspace_id +:+ "/reports/" +:+ fmt report_id).

Definition get_dataflow_by_id (workspace_id dataflow_id : value) : M DataFrame :=
  get_object (base_url +:+ "/" +:+ fmt workspace_id +:+ "/dataflows/" +:+ fmt dataflow_id).

Definition get_dataset_refresh_history_by_id (workspace_id dataset_id : value)
    (top_n : Z) : M DataFrame :=
  get_listing (base_url +:+ "/" +:+ fmt workspace_id +:+ "/datasets/" +:+ fmt dataset_id
               +:+ "/refreshes?$top=" +:+ pretty top_n).

Definition get_dataflow_refresh_history_by_id (workspace_id dataflow_id : value)
  : M DataFrame :=
  get_listing (base_url +:+ "/" +:+ fmt workspace_id +:+ "/dataflows/" +:+ fmt dataflow_id
               +:+ "/transactions").

Definition get_dataset_sources_by_id (workspace_id dataset_id : value) : M DataFrame :=
  get_sources (base_url +:+ "/" +:+ fmt workspace_id +:+ "/datasets/" +:+ fmt dataset_id
               +:+ "/datasources").

Definition get_dataflow_sources_by_id (workspace_id dataflow_id : value) : M DataFrame :=
  get_sources (base_url +:+ "/" +:+ fmt workspace_id +:+ "/dataflows/" +:+ fmt dataflow_id
               +:+ "/datasources").

Definition get_report_sources_by_id (workspace_id report_id : value) : M DataFrame :=
  get_sources (base_url +:+ "/" +:+ fmt workspace_id +:+ "/reports/" +:+ fmt report_id
               +:+ "/datasources").

Definition get_workspace_users_by_id (workspace_id : value) : M DataFrame :=
  get_listing (base_url +:+ "/" +:+ fmt workspace_id +:+ "/users").

Definition get_dataset_users_by_id (workspace_id dataset_id : value) : M DataFrame :=
  get_listing (base_url +:+ "/" +:+ fmt workspace_id +:+ "/datasets/" +:+ fmt dataset_id
               +:+ "/users").

Definition get_dataset_tables_by_id (workspace_id dataset_id : value) : M DataFrame :=
  get_info workspace_id dataset_id "EVALUATE INFO.VIEW.TABLES()".

Definition get_dataset_columns_by_id (workspace_id dataset_id : value) : M DataFrame :=
  get_info workspace_id dataset_id "EVALUATE INFO.VIEW.COLUMNS()".

Definition get_dataset_measures_by_id (workspace_id dataset_id : value) : M DataFrame :=
  get_info workspace_id dataset_id "EVALUATE INFO.VIEW.MEASURES()".

Definition get_dataset_calc_dependencies_by_id (workspace_id dataset_id : value)
  : M DataFrame :=
  get_info workspace_id dataset_id "EVALUATE INFO.CALCDEPENDENCY()".

(** [col.astype(str)], cell by cell. *)
Definition astype_str (v : value) : value :=
  match v with
  | VStr s => VStr s
  | VNone | VNaN => astype_missing E v
  | _ => VStr (str_other E v)
  end.

(** [df['id'] = df['id'].astype(str)]. *)
Definition ids_as_str (df : DataFrame) : M DataFrame :=
  ids <~ getitem df "id" ;;
  ret (assign_cells df "id" (astype_str <$> ids)).

Definition workspaces_frame (result : response) : M DataFrame :=
  j <~ json result ;;
  v <~ subscript j "value" ;;
  df <~ pd_DataFrame E v ;;
  if negb (DataFrame_empty df) then ids_as_str df
  else ret df.

Definition get_all_workspaces : M DataFrame :=
  let url := base_url in
  headers <~ get_header ;;
  result <~ requests_get url headers ;;
  if bool_decide (status_code result = 200) then workspaces_frame result
  else ret no_frame.

(** *** gateway/gateway_client.py *)

Definition gateway_base_url : string := "https://api.powerbi.com/v1.0/myorg/gateways".

(** Modelled from the spec: [BaseClient.get_header] of [pbipandas/auth],
    the base class of [GatewayClient], is not under src/.  Section 4.3
    has the authenticator perform one token request per call and hand
    back the [Content-Type] and [Authorization] headers, which is what
    [PowerBIClient.get_header] of client.py does. *)
Definition base_get_header : M (list (string * string)) := get_header.

(** The gateway listing fetchers: on 200,
    [return pd.DataFrame(result.json().get("value", []))]. *)
Definition gateway_listing_frame (result : response) : M DataFrame :=
  j <~ json result ;;
  v <~ get_or j "value" (VArr []) ;;
  pd_DataFrame E v.

Definition gateway_listing (result : response) : M DataFrame :=
  if bool_decide (status_code result = 200) then gateway_listing_frame result
  else ret no_frame.

Definition gateway_object (result : response) : M DataFrame :=
  if bool_decide (status_code result = 200) then object_frame result
  else ret no_frame.

Definition get_all_gateways : M DataFrame :=
  let url := gateway_base_url in
  headers <~ base_get_header ;;
  result <~ requests_get url headers ;;
  gateway_listing result.

Definition get_gateway_by_id (gateway_id : value) : M DataFrame :=
  let url := gateway_base_url +:+ "/" +:+ fmt gateway_id in
  headers <~ base_get_header ;;
  result <~ requests_get url headers ;;
  gateway_object result.

Definition get_gateway_datasources (gateway_id : value) : M DataFrame :=
  let url := gateway_base_url +:+ "/" +:+ fmt gateway_id +:+ "/datasources" in
  headers <~ base_get_header ;;
  result <~ requests_get url headers ;;
  gateway_listing result.

Definition get_gateway_datasource (gateway_id datasource_id : value) : M DataFrame :=
  let url := gateway_base_url +:+ "/" +:+ fmt gateway_id +:+ "/datasources/"
             +:+ fmt datasource_id in
  headers <~ base_get_header ;;
  result <~ requests_get url headers ;;
  gateway_object result.

Definition get_gateway_datasource_users (gateway_id datasource_id : value)
  : M DataFrame :=
  let url := gateway_base_url +:+ "/" +:+ fmt gateway_id +:+ "/datasources/"
             +:+ fmt datasource_id +:+ "/users" in
  headers <~ base_get_header ;;
  result <~ requests_get url headers ;;
  gateway_listing result.

Definition discover_gateways (dataset_id : value) : M DataFrame :=
  let url := "https://api.powerbi.com/v1.0/myorg/datasets/" +:+ fmt dataset_id
             +:+ "/Default.DiscoverGateways" in
  headers <~ base_get_header ;;
  result <~ requests_post url headers None ;;
  gateway_listing result.

(** *** The bulk methods ([get_all_*] of client.py and bulk_client.py) *)

(** The context assignments of a loop body, in source order:
    [df[col] = parent[key]] for each [(col, key)]. *)
Fixpoint inject (context : list (string * string)) (parent : Series)
    (df : DataFrame) : M DataFrame :=
  match context with
  | [] => ret df
  | (col, key) :: rest =>
      v <~ series_getitem parent key ;;
      df' <~ setitem E df col v ;;
      inject rest parent df'
  end.

(** [for _, parent in parents.iterrows(): ...], threading the
    accumulated frame. *)
Fixpoint for_rows (body : Series → DataFrame → M DataFrame)
    (parents : list Series) (df_all : DataFrame) : M DataFrame :=
  match parents with
  | [] => ret df_all
  | parent :: rest =>
      df_all' <~ body parent df_all ;;
      for_rows body rest df_all'
  end.

(** One pass of the loop every bulk method is written around:
<<
    try:
        df = fetch(parent)
        if not df.empty:
            df[col] = parent[key]   # for each context pair
            df_all = pd.concat([df_all, df])
    except Exception as e:
        print(f"Error processing {what} {parent[id_key]}: {e}")
        continue
>> *)
(** [f"Error processing {what} {i}: {e}"]. *)
Definition diagnostic (what : string) (i : value) (e : exn) : string :=
  "Error processing " +:+ what +:+ " " +:+ fmt i +:+ ": " +:+ str_exn E e.

Definition fan_out_step (fetch : Series → M DataFrame)
    (context : list (string * string)) (what id_key : string)
    (parent : Series) (df_all : DataFrame) : M DataFrame :=
  try_except
    (df <~ fetch parent ;;
     if negb (DataFrame_empty df) then
       df <~ inject context parent df ;;
       ret (pd_concat df_all df)
     else ret df_all)
    (λ e,
       i <~ series_getitem parent id_key ;;
       print (diagnostic what i e) ;;;
       ret df_all).

Definition fan_out (parents : DataFrame) (fetch : Series → M DataFrame)
    (context : list (string * string)) (what id_key : string) : M DataFrame :=
  for_rows (fan_out_step fetch context what id_key) (iterrows parents) no_frame.

Definition workspace_context : list (string * string) :=
  [("workspaceId", "id"); ("workspaceName", "name")].

Definition dataset_context : list (string * string) :=
  [("datasetId", "id"); ("datasetName", "name");
   ("workspaceId", "workspaceId"); ("workspaceName", "workspaceName")].

Definition dataflow_context : list (string * string) :=
  [("dataflowId", "objectId"); ("dataflowName", "name");
   ("workspaceId", "workspaceId"); ("workspaceName", "workspaceName")].

Definition report_context : list (string * string) :=
  [("reportId", "id"); ("reportName", "name");
   ("workspaceId", "workspaceId"); ("workspaceName", "workspaceName")].

(** [self.get_X_by_id(workspace['id'])]: one positional argument. *)
Definition per_workspace {A} (fname second : string) (f : value → value → M A)
    (workspace : Series) : M A :=
  a <~ series_getitem workspace "id" ;;
  call2 fname second f [a].

(** [self.get_X_by_id(parent['workspaceId'], parent[id_key])]. *)
Definition per_child {A} (fname second id_key : string) (f : value → value → M A)
    (parent : Series) : M A :=
  a <~ series_getitem parent "workspaceId" ;;
  b <~ series_getitem parent id_key ;;
  call2 fname second f [a; b].

Definition get_all_datasets_of (df_workspaces : DataFrame) : M DataFrame :=
  fan_out df_workspaces
    (per_workspace "get_dataset_by_id" "dataset_id" get_dataset_by_id)
    workspace_context "workspace" "id".

Definition get_all_datasets : M DataFrame :=
  df_workspaces <~ get_all_workspaces ;;
  get_all_datasets_of df_workspaces.

Definition get_all_dataflows_of (df_workspaces : DataFrame) : M DataFrame :=
  fan_out df_workspaces
    (per_workspace "get_dataflow_by_id" "dataflow_id" get_dataflow_by_id)
    workspace_context "workspace" "id".

Definition get_all_dataflows : M DataFrame :=
  df_workspaces <~ get_all_workspaces ;;
  get_all_dataflows_of df_workspaces.

Definition get_all_reports_of (df_workspaces : DataFrame) : M DataFrame :=
  fan_out df_workspaces
    (per_workspace "get_report_by_id" "report_id" get_report_by_id)
    workspace_context "workspace" "id".

Definition get_all_reports : M DataFrame :=
  df_workspaces <~ get_all_workspaces ;;
  get_all_reports_of df_workspaces.

(** [top_n] is left at its default, 10. *)
Definition get_all_dataset_refresh_history_of (df_datasets : DataFrame)
  : M DataFrame :=
  flags <~ getitem df_datasets "isRefreshable" ;;
  let refreshable_datasets := boolean_index df_datasets (eq_str "True" <$> flags) in
  fan_out refreshable_datasets
    (per_child "get_dataset_refresh_history_by_id" "dataset_id" "id"
       (λ a b, get_dataset_refresh_history_by_id a b 10))
    dataset_context "dataset refresh history" "id".

Definition get_all_dataset_refresh_history : M DataFrame :=
  df_datasets <~ get_all_datasets ;;
  get_all_dataset_refresh_history_of df_datasets.

Definition get_all_dataflow_refresh_history_of (df_dataflows : DataFrame)
  : M DataFrame :=
  fan_out df_dataflows
    (per_child "get_dataflow_refresh_history_by_id" "dataflow_id" "objectId"
       get_dataflow_refresh_history_by_id)
    dataflow_context "dataflow refresh history" "objectId".

Definition get_all_dataflow_refresh_history : M DataFrame :=
  df_dataflows <~ get_all_dataflows ;;
  get_all_dataflow_refresh_history_of df_dataflows.

(** [df_datasets[~df_datasets['name'].str.contains("Usage Metrics")]]. *)
Definition drop_usage_metrics (df_datasets : DataFrame) : M DataFrame :=
  names <~ getitem df_datasets "name" ;;
  mask <~ not_str_contains names "Usage Metrics" ;;
  ret (boolean_index df_datasets mask).

Definition get_all_dataset_users_of (df_datasets : DataFrame) : M DataFrame :=
  df_datasets <~ drop_usage_metrics df_datasets ;;
  fan_out df_datasets
    (per_child "get_dataset_users_by_id" "dataset_id" "id" get_dataset_users_by_id)
    dataset_context "dataset users" "id".

Definition get_all_dataset_users : M DataFrame :=
  df_datasets <~ get_all_datasets ;;
  get_all_dataset_users_of df_datasets.

Definition get_all_dataset_sources_of (df_datasets : DataFrame) : M DataFrame :=
  df_datasets <~ drop_usage_metrics df_datasets ;;
  fan_out df_datasets
    (per_child "get_dataset_sources_by_id" "dataset_id" "id" get_dataset_sources_by_id)
    dataset_context "dataset sources" "id".

Definition get_all_dataset_sources : M DataFrame :=
  df_datasets <~ get_all_datasets ;;
  get_all_dataset_sources_of df_datasets.

Definition get_all_dataflow_sources_of (df_dataflows : DataFrame) : M DataFrame :=
  fan_out df_dataflows
    (per_child "get_dataflow_sources_by_id" "dataflow_id" "objectId"
       get_dataflow_sources_by_id)
    dataflow_context "dataflow sources" "objectId".

Definition get_all_dataflow_sources : M DataFrame :=
  df_dataflows <~ get_all_dataflows ;;
  get_all_dataflow_sources_of df_dataflows.

Definition get_all_report_sources_of (df_reports : DataFrame) : M DataFrame :=
  fan_out df_reports
    (per_child "get_report_sources_by_id" "report_id" "id" get_report_sources_by_id)
    report_context "report sources" "id".

Definition get_all_report_sources : M DataFrame :=
  df_reports <~ get_all_reports ;;
  get_all_report_sources_of df_reports.

Definition get_all_dataset_tables_of (df_datasets : DataFrame) : M DataFrame :=
  fan_out df_datasets
    (per_child "get_dataset_tables_by_id" "dataset_id" "id" get_dataset_tables_by_id)
    dataset_context "dataset tables" "id".

Definition get_all_dataset_tables : M DataFrame :=
  df_datasets <~ get_all_datasets ;;
  get_all_dataset_tables_of df_datasets.

Definition get_all_dataset_columns_of (df_datasets : DataFrame) : M DataFrame :=
  fan_out df_datasets
    (per_child "get_dataset_columns_by_id" "dataset_id" "id" get_dataset_columns_by_id)
    dataset_context "dataset columns" "id".

Definition get_all_dataset_columns : M DataFrame :=
  df_datasets <~ get_all_datasets ;;
  get_all_dataset_columns_of df_datasets.

Definition get_all_dataset_measures_of (df_datasets : DataFrame) : M DataFrame :=
  fan_out df_datasets
    (per_child "get_dataset_measures_by_id" "dataset_id" "id" get_dataset_measures_by_id)
    dataset_context "dataset measures" "id".

Definition get_all_dataset_measures : M DataFrame :=
  df_datasets <~ get_all_datasets ;;
  get_all_dataset_measures_of df_datasets.

Definition get_all_dataset_calc_dependencies_of (df_datasets : DataFrame)
  : M DataFrame :=
  fan_out df_datasets
    (per_child "get_dataset_calc_dependencies_by_id" "dataset_id" "id"
       get_dataset_calc_dependencies_by_id)
    dataset_context "dataset calc dependencies" "id".

Definition get_all_dataset_calc_dependencies : M DataFrame :=
  df_datasets <~ get_all_datasets ;;
  get_all_dataset_calc_dependencies_of df_datasets.

End Client.

(** ** The methods as data *)

(** The table-returning point queries of client.py and of
    gateway_client.py, with their arguments. *)
Inductive point_query : Type :=
  | Workspace_by_id (workspace_id : value)
  | Dataset_by_id (workspace_id dataset_id : value)
  | Report_by_id (workspace_id report_id : value)
  | Dataflow_by_id (workspace_id dataflow_id : value)
  | Dataset_refresh_history_by_id (workspace_id dataset_id : value) (top_n : Z)
  | Dataflow_refresh_history_by_id (workspace_id dataflow_id : value)
  | Dataset_sources_by_id (workspace_id dataset_id : value)
  | Dataflow_sources_by_id (workspace_id dataflow_id : value)
  | Report_sources_by_id (workspace_id report_id : value)
  | Workspace_users_by_id (workspace_id : value)
  | Dataset_users_by_id (workspace_id dataset_id : value)
  | Dataset_tables_by_id (workspace_id dataset_id : value)
  | Dataset_columns_by_id (workspace_id dataset_id : value)
  | Dataset_measures_by_id (workspace_id dataset_id : value)
  | Dataset_calc_dependencies_by_id (workspace_id dataset_id : value)
  | All_workspaces
  | All_gateways
  | Gateway_by_id (gateway_id : value)
  | Gateway_datasources (gateway_id : value)
  | Gateway_datasource (gateway_id datasource_id : value)
  | Gateway_datasource_users (gateway_id datasource_id : value)
  | Discover_gateways (dataset_id : value).

Definition run_query (E : Env) (q : point_query) : M DataFrame :=
  match q with
  | Workspace_by_id w => get_workspace_by_id E w
  | Dataset_by_id w d => get_dataset_by_id E w d
  | Report_by_id w r => get_report_by_id E w r
  | Dataflow_by_id w d => get_dataflow_by_id E w d
  | Dataset_refresh_history_by_id w d n => get_dataset_refresh_history_by_id E w d n
  | Dataflow_refresh_history_by_id w d => get_dataflow_refresh_history_by_id E w d
  | Dataset_sources_by_id w d => get_dataset_sources_by_id E w d
  | Dataflow_sources_by_id w d => get_dataflow_sources_by_id E w d
  | Report_sources_by_id w r => get_report_sources_by_id E w r
  | Workspace_users_by_id w => get_workspace_users_by_id E w
  | Dataset_users_by_id w d => get_dataset_users_by_id E w d
  | Dataset_tables_by_id w d => get_dataset_tables_by_id E w d
  | Dataset_columns_by_id w d => get_dataset_columns_by_id E w d
  | Dataset_measures_by_id w d => get_dataset_measures_by_id E w d
  | Dataset_calc_dependencies_by_id w d => get_dataset_calc_dependencies_by_id E w d
  | All_workspaces => get_all_workspaces E
  | All_gateways => get_all_gateways E
  | Gateway_by_id g => get_gateway_by_id E g
  | Gateway_datasources g => get_gateway_datasources E g
  | Gateway_datasource g d => get_gateway_datasource E g d
  | Gateway_datasource_users g d => get_gateway_datasource_users E g d
  | Discover_gateways d => discover_gateways E d
  end.

(** The one request a point query sends once it holds its headers. *)
Definition query_request (E : Env) (q : point_query)
    (headers : list (string * string)) : request :=
  let get u := mk_request GET u headers None in
  let info w d query := mk_request POST (info_url E w d) headers (Some (info_body query)) in
  match q with
  | Workspace_by_id w => get (base_url +:+ "/" +:+ fmt E w)
  | Dataset_by_id w d =>
      get (base_url +:+ "/" +:+ fmt E w +:+ "/datasets/" +:+ fmt E d)
  | Report_by_id w r =>
      get (base_url +:+ "/" +:+ fmt E w +:+ "/reports/" +:+ fmt E r)
  | Dataflow_by_id w d =>
      get (base_url +:+ "/" +:+ fmt E w +:+ "/dataflows/" +:+ fmt E d)
  | Dataset_refresh_history_by_id w d n =>
      get (base_url +:+ "/" +:+ fmt E w +:+ "/datasets/" +:+ fmt E d
           +:+ "/refreshes?$top=" +:+ pretty n)
  | Dataflow_refresh_history_by_id w d =>
      get (base_url +:+ "/" +:+ fmt E w +:+ "/dataflows/" +:+ fmt E d +:+ "/transactions")
  | Dataset_sources_by_id w d =>
      get (base_url +:+ "/" +:+ fmt E w +:+ "/datasets/" +:+ fmt E d +:+ "/datasources")
  | Dataflow_sources_by_id w d =>
      get (base_url +:+ "/" +:+ fmt E w +:+ "/dataflows/" +:+ fmt E d +:+ "/datasources")
  | Report_sources_by_id w r =>
      get (base_url +:+ "/" +:+ fmt E w +:+ "/reports/" +:+ fmt E r +:+ "/datasources")
  | Workspace_users_by_id w => get (base_url +:+ "/" +:+ fmt E w +:+ "/users")
  | Dataset_users_by_id w d =>
      get (base_url +:+ "/" +:+ fmt E w +:+ "/datasets/" +:+ fmt E d +:+ "/users")
  | Dataset_tables_by_id w d => info w d "EVALUATE INFO.VIEW.TABLES()"
  | Dataset_columns_by_id w d => info w d "EVALUATE INFO.VIEW.COLUMNS()"
  | Dataset_measures_by_id w d => info w d "EVALUATE INFO.VIEW.MEASURES()"
  | Dataset_calc_dependencies_by_id w d => info w d "EVALUATE INFO.CALCDEPENDENCY()"
  | All_workspaces => get base_url
  | All_gateways => get gateway_base_url
  | Gateway_by_id g => get (gateway_base_url +:+ "/" +:+ fmt E g)
  | Gateway_datasources g => get (gateway_base_url +:+ "/" +:+ fmt E g +:+ "/datasources")
  | Gateway_datasource g d =>
      get (gateway_base_url +:+ "/" +:+ fmt E g +:+ "/datasources/" +:+ fmt E d)
  | Gateway_datasource_users g d =>
      get (gateway_base_url +:+ "/" +:+ fmt E g +:+ "/datasources/" +:+ fmt E d +:+ "/users")
  | Discover_gateways d =>
      mk_request POST ("https://api.powerbi.com/v1.0/myorg/datasets/" +:+ fmt E d
                       +:+ "/Default.DiscoverGateways") headers None
  end.

(** The listing fetchers of client.py, which read [result.json()["value"]]. *)
Definition client_listing (q : point_query) : bool :=
  match q with
  | Dataset_refresh_history_by_id _ _ _ | Dataflow_refresh_history_by_id _ _
  | Dataset_sources_by_id _ _ | Dataflow_sources_by_id _ _ | Report_sources_by_id _ _
  | Workspace_users_by_id _ | Dataset_users_by_id _ _ | All_workspaces => true
  | _ => false
  end.

(** The listing fetchers of gateway_client.py, which read
    [result.json().get("value", [])]. *)
Definition gateway_listing_query (q : point_query) : bool :=
  match q with
  | All_gateways | Gateway_datasources _ | Gateway_datasource_users _ _
  | Discover_gateways _ => true
  | _ => false
  end.

(** The schema-introspection fetchers. *)
Definition schema_query (q : point_query) : bool :=
  match q with
  | Dataset_tables_by_id _ _ | Dataset_columns_by_id _ _
  | Dataset_measures_by_id _ _ | Dataset_calc_dependencies_by_id _ _ => true
  | _ => false
  end.

(** What a point query makes of a reply with status 200. *)
Definition on_200 (E : Env) (q : point_query) : response → M DataFrame :=
  match q with
  | Workspace_by_id _ | Dataset_by_id _ _ | Report_by_id _ _ | Dataflow_by_id _ _
  | Gateway_by_id _ | Gateway_datasource _ _ => object_frame E
  | Dataset_refresh_history_by_id _ _ _ | Dataflow_refresh_history_by_id _ _
  | Workspace_users_by_id _ | Dataset_users_by_id _ _ => listing_frame E
  | Dataset_sources_by_id _ _ | Dataflow_sources_by_id _ _
  | Report_sources_by_id _ _ => sources_frame E
  | Dataset_tables_by_id _ _ | Dataset_columns_by_id _ _
  | Dataset_measures_by_id _ _ | Dataset_calc_dependencies_by_id _ _ => info_frame E
  | All_workspaces => workspaces_frame E
  | All_gateways | Gateway_datasources _ | Gateway_datasource_users _ _
  | Discover_gateways _ => gateway_listing_frame E
  end.

(** The thirteen bulk methods. *)
Inductive bulk_op : Type :=
  | All_datasets | All_dataflows | All_reports
  | All_dataset_refresh_history | All_dataflow_refresh_history
  | All_dataset_users | All_dataset_sources | All_dataflow_sources
  | All_report_sources | All_dataset_tables | All_dataset_columns
  | All_dataset_measures | All_dataset_calc_dependencies.

(** A bulk method from the parent table on, and as a whole. *)
Definition bulk_of (E : Env) (op : bulk_op) : DataFrame → M DataFrame :=
  match op with
  | All_datasets => get_all_datasets_of E
  | All_dataflows => get_all_dataflows_of E
  | All_reports => get_all_reports_of E
  | All_dataset_refresh_history => get_all_dataset_refresh_history_of E
  | All_dataflow_refresh_history => get_all_dataflow_refresh_history_of E
  | All_dataset_users => get_all_dataset_users_of E
  | All_dataset_sources => get_all_dataset_sources_of E
  | All_dataflow_sources => get_all_dataflow_sources_of E
  | All_report_sources => get_all_report_sources_of E
  | All_dataset_tables => get_all_dataset_tables_of E
  | All_dataset_columns => get_all_dataset_columns_of E
  | All_dataset_measures => get_all_dataset_measures_of E
  | All_dataset_calc_dependencies => get_all_dataset_calc_dependencies_of E
  end.

Definition bulk (E : Env) (op : bulk_op) : M DataFrame :=
  match op with
  | All_datasets => get_all_datasets E
  | All_dataflows => get_all_dataflows E
  | All_reports => get_all_reports E
  | All_dataset_refresh_history => get_all_dataset_refresh_history E
  | All_dataflow_refresh_history => get_all_dataflow_refresh_history E
  | All_dataset_users => get_all_dataset_users E
  | All_dataset_sources => get_all_dataset_sources E
  | All_dataflow_sources => get_all_dataflow_sources E
  | All_report_sources => get_all_report_sources E
  | All_dataset_tables => get_all_dataset_tables E
  | All_dataset_columns => get_all_dataset_columns E
  | All_dataset_measures => get_all_dataset_measures E
  | All_dataset_calc_dependencies => get_all_dataset_calc_dependencies E
  end.

(** What differs between the loops: the filtering pre-pass, the per-parent
    call, the context pairs and the two words of the diagnostic. *)
Definition prefilter (op : bulk_op) (parents : DataFrame) : M DataFrame :=
  match op with
  | All_dataset_refresh_history =>
      flags <~ getitem parents "isRefreshable" ;;
      ret (boolean_index parents (eq_str "True" <$> flags))
  | All_dataset_users | All_dataset_sources => drop_usage_metrics parents
  | _ => ret parents
  end.

Definition fetch_of (E : Env) (op : bulk_op) : Series → M DataFrame :=
  match op with
  | All_datasets => per_workspace "get_dataset_by_id" "dataset_id" (get_dataset_by_id E)
  | All_dataflows => per_workspace "get_dataflow_by_id" "dataflow_id" (get_dataflow_by_id E)
  | All_reports => per_workspace "get_report_by_id" "report_id" (get_report_by_id E)
  | All_dataset_refresh_history =>
      per_child "get_dataset_refresh_history_by_id" "dataset_id" "id"
        (λ a b, get_dataset_refresh_history_by_id E a b 10)
  | All_dataflow_refresh_history =>
      per_child "get_dataflow_refresh_history_by_id" "dataflow_id" "objectId"
        (get_dataflow_refresh_history_by_id E)
  | All_dataset_users =>
      per_child "get_dataset_users_by_id" "dataset_id" "id" (get_dataset_users_by_id E)
  | All_dataset_sources =>
      per_child "get_dataset_sources_by_id" "dataset_id" "id" (get_dataset_sources_by_id E)
  | All_dataflow_sources =>
      per_child "get_dataflow_sources_by_id" "dataflow_id" "objectId"
        (get_dataflow_sources_by_id E)
  | All_report_sources =>
      per_child "get_report_sources_by_id" "report_id" "id" (get_report_sources_by_id E)
  | All_dataset_tables =>
      per_child "get_dataset_tables_by_id" "dataset_id" "id" (get_dataset_tables_by_id E)
  | All_dataset_columns =>
      per_child "get_dataset_columns_by_id" "dataset_id" "id" (get_dataset_columns_by_id E)
  | All_dataset_measures =>
      per_child "get_dataset_measures_by_id" "dataset_id" "id" (get_dataset_measures_by_id E)
  | All_dataset_calc_dependencies =>
      per_child "get_dataset_calc_dependencies_by_id" "dataset_id" "id"
        (get_dataset_calc_dependencies_by_id E)
  end.

Definition context_of (op : bulk_op) : list (string * string) :=
  match op with
  | All_datasets | All_dataflows | All_reports => workspace_context
  | All_dataflow_refresh_history | All_dataflow_sources => dataflow_context
  | All_report_sources => report_context
  | _ => dataset_context
  end.

Definition what_of (op : bulk_op) : string :=
  match op with
  | All_datasets | All_dataflows | All_reports => "workspace"
  | All_dataset_refresh_history => "dataset refresh history"
  | All_dataflow_refresh_history => "dataflow refresh history"
  | All_dataset_users => "dataset users"
  | All_dataset_sources => "dataset sources"
  | All_dataflow_sources => "dataflow sources"
  | All_report_sources => "report sources"
  | All_dataset_tables => "dataset tables"
  | All_dataset_columns => "dataset columns"
  | All_dataset_measures => "dataset measures"
  | All_dataset_calc_dependencies => "dataset calc dependencies"
  end.

Definition id_key_of (op : bulk_op) : string :=
  match op with
  | All_dataflow_refresh_history | All_dataflow_sources => "objectId"
  | _ => "id"
  end.

(** ** Reading the claims *)

(** The request [get_token] posts. *)
Definition token_request (E : Env) : request :=
  mk_request POST
    ("https://login.microsoftonline.com/" +:+ tenant_id E +:+ "/oauth2/v2.0/token")
    [("Content-Type", "application/x-www-form-urlencoded");
     ("Host", "login.microsoftonline.com:443")]
    (Some (VObj [("grant_type", VStr "client_credentials");
                 ("scope", VStr "https://analysis.windows.net/powerbi/api/.default");
                 ("client_id", VStr (client_id E));
                 ("client_secret", VStr (client_secret E))])).

(** The dictionary [extract_connection_details] ends up reading, if any:
    its argument when that is a [dict], what [ast.literal_eval] makes of
    its argument when that is a [str] parsing to a [dict]. *)
Definition parsed_dict (E : Env) (x : value) : option (list (string * value)) :=
  match x with
  | VObj d => Some d
  | VStr s => match literal_eval E s with Ok (VObj d) => Some d | _ => None end
  | _ => None
  end.

(** The entry of that dictionary under [key] if present, [None] otherwise. *)
Definition entry_or_None (E : Env) (x : value) (key : string) : value :=
  match parsed_dict E x with
  | Some d => default VNone (dict_get d key)
  | None => VNone
  end.

(** A field of the returned Series by its label. *)
Definition field (d : connection_details) (key : string) : value :=
  if bool_decide (key = "server") then server d
  else if bool_decide (key = "database") then database d
  else if bool_decide (key = "connectionString") then connectionString d
  else if bool_decide (key = "url") then url d
  else if bool_decide (key = "path") then path d
  else VNone.

(** The five lookups [extract_connection_details] makes on [x], all
    [None] when it reads no dictionary, and the lookup under [key] as
    the Series built from them stores it. *)
Definition details (E : Env) (x : value) : connection_details :=
  match parsed_dict E x with
  | Some d => details_of E d
  | None => no_details
  end.

Definition lookups_of (E : Env) (x : value) : list value :=
  match parsed_dict E x with
  | Some d => lookups d
  | None => [VNone; VNone; VNone; VNone; VNone]
  end.

Definition held_entry (E : Env) (x : value) (key : string) : value :=
  stored E (lookups_of E x) (entry_or_None E x key).

(** The column [c] of a list of records as decoded, NaN where a record
    has no such key; the cell of a record under [c] in the frame
    [pd.DataFrame] makes of the records; and the cell under the detail
    column [key] once the connection details are spread. *)
Definition decoded_column (recs : list (list (string * value))) (c : string)
  : list value :=
  (λ rec, default VNaN (dict_get rec c)) <$> recs.

Definition listing_cell (E : Env) (recs : list (list (string * value)))
    (rec : list (string * value)) (c : string) : value :=
  stored E (decoded_column recs c) (default VNaN (dict_get rec c)).

Definition detail_cell (E : Env) (recs : list (list (string * value)))
    (rec : list (string * value)) (key : string) : value :=
  stored E ((λ rec', held_entry E (listing_cell E recs rec' "connectionDetails") key)
              <$> recs)
           (held_entry E (listing_cell E recs rec "connectionDetails") key).

(** ** Reading the loop *)

(** A parent holds a scalar under every column the context assignments
    read: its identifiers and names are there, and are not list-like. *)
Definition well_typed (context : list (string * string)) (parent : Series) : Prop :=
  Forall (λ ck, ck.2 ∈ index parent ∧ is_scalar (cell (cells parent) ck.2) = true)
         context.

(** The rows a returned frame hands to the loop body, which skips a frame
    that is [empty]. *)
Definition child_rows (t : DataFrame) : list (gmap string value) :=
  if DataFrame_empty t then [] else rows t.

(** Row [r] of an aggregated frame carries its source: the identifiers of
    the parent under the context columns, the cells of the returned row
    under the columns of the returned frame. *)
Definition carries (context : list (string * string))
    (src : Series * DataFrame * gmap string value) (r : gmap string value) : Prop :=
  (∀ col key, (col, key) ∈ context → cell r col = cell (cells src.1.1) key) ∧
  (∀ c, c ∈ columns src.1.2 → c ∉ context.*1 → cell r c = cell src.2 c).

Section Passes.
Context (E : Env) (fetch : Series → M DataFrame)
        (context : list (string * string)) (what id_key : string).

(** The annotated frame a parent adds to the accumulated one, if any. *)
Definition contribution (parent : Series) : option DataFrame :=
  match fetch parent with
  | (Ok df, _) =>
      if DataFrame_empty df then None
      else match inject E context parent df with
           | (Ok df', _) => Some df'
           | (Raise _, _) => None
           end
  | (Raise _, _) => None
  end.

Definition add (df_all : DataFrame) (parent : Series) : DataFrame :=
  match contribution parent with
  | Some df => pd_concat df_all df
  | None => df_all
  end.

(** What one pass leaves in the trace, and the exception that leaves
    it, if any (the handler itself raising). *)
Definition step_trace (parent : Series) : list event :=
  snd (fan_out_step E fetch context what id_key parent no_frame).

Definition step_escape (parent : Series) : option exn :=
  match fst (fan_out_step E fetch context what id_key parent no_frame) with
  | Raise e => Some e
  | Ok _ => None
  end.

(** The rows the parents contribute, each with the parent and the
    annotated frame it comes from. *)
Definition contributed (parents : list Series)
  : list (Series * DataFrame * gmap string value) :=
  parents ≫= (λ p, match contribution p with
                   | Some df => (λ r, (p, df, r)) <$> rows df
                   | None => []
                   end).

Definition kept_in (df_all : DataFrame)
    (src : Series * DataFrame * gmap string value) (r : gmap string value) : Prop :=
  ∀ c, c ∈ columns src.1.2 → c ∈ columns df_all ∧ cell r c = cell src.2 c.

(** What a pass over a well-typed parent leaves in the trace: the
    trace of the call, and one printed line if the call raised. *)
Definition pass_trace (parent : Series) : list event :=
  snd (fetch parent) ++
  match fst (fetch parent) with
  | Raise e => [EvPrint (diagnostic E what (cell (cells parent) id_key) e)]
  | Ok _ => []
  end.

(** The rows the calls that went through returned, each with its parent
    and the frame it is a row of. *)
Definition returned_rows (parents : list Series)
  : list (Series * DataFrame * gmap string value) :=
  parents ≫= (λ p, match fst (fetch p) with
                   | Ok t => (λ r0, (p, t, r0)) <$> child_rows t
                   | Raise _ => []
                   end).

Definition annotates (src0 src1 : Series * DataFrame * gmap string value) : Prop :=
  (∀ c, c ∈ columns src0.1.2 → c ∈ columns src1.1.2) ∧
  (∀ col, col ∈ context.*1 → col ∈ columns src1.1.2) ∧
  (∀ c, c ∉ context.*1 → cell src1.2 c = cell src0.2 c) ∧
  (∀ col key, (col, key) ∈ context → cell src1.2 col = cell (cells src0.1.1) key).

End Passes.

(** The context assignments as writes into one row, and as labels added
    to the columns. *)
Definition writes (context : list (string * string)) (parent : Series)
    (r : gmap string value) : gmap string value :=
  foldl (λ m ck, <[ck.1 := cell (cells parent) ck.2]> m) r context.

Definition labelled (context : list (string * string)) (cols : list string)
  : list string :=
  foldl (λ cs ck, add_label cs ck.1) cols context.

Fixpoint last_write (context : list (string * string)) (parent : Series)
    (c : string) : option value :=
  match context with
  | [] => None
  | ck :: rest =>
      match last_write rest parent c with
      | Some v => Some v
      | None => if bool_decide (ck.1 = c) then Some (cell (cells parent) ck.2) else None
      end
  end.

(** ** Concrete services *)

(** A service given by a table from URL to answer; any other URL is
    answered 404 without a body. *)
Definition not_found : http_outcome := Reply (mk_response 404 None).

Fixpoint route (table : list (string * http_outcome)) (u : string) : http_outcome :=
  match table with
  | [] => not_found
  | (u', o) :: table' => if bool_decide (u' = u) then o else route table' u
  end.

Definition ok_json (v : value) : http_outcome := Reply (mk_response 200 (Some v)).

(** An environment around a routing table.  Its [setitem_other] is what
    pandas does with a list-like of the wrong length; its [literal_eval]
    knows one literal; its pandas is a pandas 2, which keeps a [None]
    among strings and turns a missing cell into its [str()]. *)
Definition service (table : list (string * http_outcome)) : Env :=
  mk_env (λ r, route table (req_url r))
         (λ v, match v with
               | VInt z => pretty z
               | VFloat text => text
               | VBool true => "True"
               | VBool false => "False"
               | VNone => "None"
               | VNaN => "nan"
               | _ => "?"
               end)
         (λ e, match e with KeyError k => "'" +:+ k +:+ "'" | _ => "error" end)
         (λ _, Raise (ValueError "DataFrame constructor not properly called!"))
         (λ _ _ _, Raise (ValueError "Length of values does not match length of index"))
         (λ s, if bool_decide (s = "{'server': 'sql01'}")
               then Ok (VObj [("server", VStr "sql01")])
               else Raise (ValueError "malformed node or string"))
         (λ z, pretty z +:+ ".0")
         (λ _, false)
         (λ _ v, v)
         (λ v, VStr (match v with VNone => "None" | _ => "nan" end))
         "tenant" "app" "secret".

Definition token_url : string :=
  "https://login.microsoftonline.com/tenant/oauth2/v2.0/token".

Definition token_ok : string * http_outcome :=
  (token_url, ok_json (VObj [("access_token", VStr "t0")])).

(** A token endpoint that turns the client down. *)
Definition token_denied : string * http_outcome :=
  (token_url, Reply (mk_response 401 (Some (VObj [("error", VStr "invalid_client")])))).

Definition users_url : string :=
  "https://api.powerbi.com/v1.0/myorg/groups//W1/datasets/D1/users".

Definition tables_url : string :=
  "https://api.powerbi.com/v1.0/myorg/groups/W1/datasets/D1/executeQueries".

Definition bearer_t0 : list (string * string) :=
  [("Content-Type", "application/json"); ("Authorization", "Bearer t0")].

(** The payload of an [executeQueries] reply holding [rows]. *)
Definition query_reply (rows : value) : value :=
  VObj [("results", VArr [VObj [("tables", VArr [VObj [("rows", rows)]])]])].

(** ** Concrete tables and runs *)

Definition dataset_record (id name : string) (refreshable : value)
  : list (string * value) :=
  [("id", VStr id); ("name", VStr name); ("isRefreshable", refreshable);
   ("workspaceId", VStr "W1"); ("workspaceName", VStr "Finance")].

(** Three datasets of one workspace: one refreshable, one of the
    service's own usage reports, one whose flag is a boolean. *)
Definition demo_datasets : DataFrame :=
  from_records [dataset_record "D1" "Sales" (VStr "True");
                dataset_record "D2" "Usage Metrics Report" (VStr "True");
                dataset_record "D3" "Costs" (VBool true)].

Definition demo_series (id name : string) (refreshable : value) : Series :=
  mk_series ["id"; "name"; "isRefreshable"; "workspaceId"; "workspaceName"]
            (list_to_map (dataset_record id name refreshable)).

Definition history_url (d : string) : string :=
  "https://api.powerbi.com/v1.0/myorg/groups//W1/datasets/" +:+ d +:+ "/refreshes?$top=10".

Definition dataset_users_url (d : string) : string :=
  "https://api.powerbi.com/v1.0/myorg/groups//W1/datasets/" +:+ d +:+ "/users".

Definition listing (records : list value) : http_outcome :=
  ok_json (VObj [("value", VArr records)]).

(** D1 has two refreshes and one user, D2 one refresh; the users of D3
    cannot be reached. *)
Definition demo : Env :=
  service [token_ok;
           (history_url "D1", listing [VObj [("status", VStr "Completed")];
                                       VObj [("status", VStr "Failed")]]);
           (history_url "D2", listing [VObj [("status", VStr "Completed")]]);
           (dataset_users_url "D1", listing [VObj [("identifier", VStr "ann")]]);
           (dataset_users_url "D3", Fault (RequestException "connection refused"));
           (history_url "D3", Fault (RequestException "connection refused"));
           (tables_url, ok_json (query_reply (VArr [VObj [("Table[Column]", VInt 1)]])))].

Definition demo_refreshable : DataFrame :=
  boolean_index demo_datasets [true; true; false].

Definition demo_named : DataFrame :=
  boolean_index demo_datasets [true; false; true].

(** A service that lists no workspace, one that answers 200 without a
    [value] key, and one that turns the client down. *)
Definition no_workspaces : Env := service [token_ok; (base_url, listing [])].

Definition no_value : Env :=
  service [token_ok; (users_url, ok_json (VObj [])); (gateway_base_url, ok_json (VObj []))].

Definition denied : Env := service [token_denied].

Definition users_query : point_query := Dataset_users_by_id (VStr "W1") (VStr "D1").

Definition tables_query : point_query := Dataset_tables_by_id (VStr "W1") (VStr "D1").

(** ** client.py: trigger actions *)

Section Actions.
Context (E : Env).

(** [execute_query] hands the response back as it is. *)
Definition execute_query (workspace_id dataset_id : value) (query : string)
  : M response :=
  let url := base_url +:+ "/" +:+ fmt E workspace_id +:+ "/datasets/"
             +:+ fmt E dataset_id +:+ "/executeQueries" in
  let body := info_body query in
  headers <~ get_header E ;;
  requests_post E url headers (Some body).

Definition refresh_dataflow (workspace_id dataflow_id : value) : M unit :=
  let url := base_url +:+ "/" +:+ fmt E workspace_id +:+ "/dataflows/"
             +:+ fmt E dataflow_id +:+ "/refreshes" in
  headers <~ get_header E ;;
  result <~ requests_post E url headers None ;;
  if bool_decide (status_code result = 200)
  then print ("Start refreshing dataflow " +:+ fmt E dataflow_id)
  else print ("Failed to refresh dataflow " +:+ fmt E dataflow_id
              +:+ ". Status code: " +:+ pretty (status_code result)).

(** [body] defaults to [None], which [requests] sends as no body. *)
Definition refresh_dataset (workspace_id dataset_id : value) (body : option value)
  : M unit :=
  let url := base_url +:+ "/" +:+ fmt E workspace_id +:+ "/datasets/"
             +:+ fmt E dataset_id +:+ "/refreshes" in
  headers <~ get_header E ;;
  result <~ requests_post E url headers body ;;
  if bool_decide (status_code result = 202)
  then print ("Start refreshing dataset " +:+ fmt E dataset_id)
  else print ("Failed to refresh dataset " +:+ fmt E dataset_id
              +:+ ". Status code: " +:+ pretty (status_code result)).

Definition refresh_tables_from_dataset (workspace_id dataset_id : value)
    (table_list : list value) : M unit :=
  let body := VObj [("objects", VArr ((λ table, VObj [("table", table)]) <$> table_list))] in
  refresh_dataset workspace_id dataset_id (Some body).

Definition refresh_objects_from_dataset (workspace_id dataset_id : value)
    (objects : value) : M unit :=
  let body := VObj [("objects", objects)] in
  refresh_dataset workspace_id dataset_id (Some body).

(** [parameters.items()] in the order of the dictionary. *)
Definition update_dataset_parameters (workspace_id dataset_id : value)
    (parameters : list (string * value)) : M response :=
  let url := base_url +:+ "/" +:+ fmt E workspace_id +:+ "/datasets/"
             +:+ fmt E dataset_id +:+ "/Default.UpdateParameters" in
  let body :=
    VObj [("updateDetails",
           VArr ((λ kv, VObj [("name", VStr kv.1); ("newValue", kv.2)]) <$> parameters))] in
  headers <~ get_header E ;;
  requests_post E url headers (Some body).

End Actions.

(** ** Reading traces and frames *)

(** The requests of a trace, in order, and a computation that sends
    none. *)
Definition requests_of (tr : list event) : list request :=
  tr ≫= (λ ev, match ev with EvRequest r => [r] | _ => [] end).

Definition quiet {A} (m : M A) : Prop := requests_of (snd m) = [].

(** The request of a dataset refresh. *)
Definition refresh_request (E : Env) (workspace_id dataset_id : value)
    (headers : list (string * string)) (body : option value) : request :=
  mk_request POST
    (base_url +:+ "/" +:+ fmt E workspace_id +:+ "/datasets/" +:+ fmt E dataset_id
     +:+ "/refreshes") headers body.

(** The point queries by what they make of a 200 reply. *)
Definition object_query (q : point_query) : bool :=
  match q with
  | Workspace_by_id _ | Dataset_by_id _ _ | Report_by_id _ _ | Dataflow_by_id _ _
  | Gateway_by_id _ | Gateway_datasource _ _ => true
  | _ => false
  end.

Definition plain_listing (q : point_query) : bool :=
  match q with
  | Dataset_refresh_history_by_id _ _ _ | Dataflow_refresh_history_by_id _ _
  | Workspace_users_by_id _ | Dataset_users_by_id _ _ => true
  | _ => false
  end.

Definition sources_query (q : point_query) : bool :=
  match q with
  | Dataset_sources_by_id _ _ | Dataflow_sources_by_id _ _
  | Report_sources_by_id _ _ => true
  | _ => false
  end.

Definition details_columns : list string :=
  ["server"; "database"; "connectionString"; "url"; "path"].

(** The bulk methods that walk the workspaces, and those that filter
    their parents first. *)
Definition per_workspace_op (op : bulk_op) : bool :=
  match op with
  | All_datasets | All_dataflows | All_reports => true
  | _ => false
  end.

Definition prefiltered (op : bulk_op) : bool :=
  match op with
  | All_dataset_refresh_history | All_dataset_users | All_dataset_sources => true
  | _ => false
  end.

(** The point query a pass of a bulk loop makes for the parent in
    workspace [w] with the id [i]; the three loops over the workspaces
    make none that goes through. *)
Definition child_query (op : bulk_op) (w i : value) : option point_query :=
  match op with
  | All_datasets | All_dataflows | All_reports => None
  | All_dataset_refresh_history => Some (Dataset_refresh_history_by_id w i 10)
  | All_dataflow_refresh_history => Some (Dataflow_refresh_history_by_id w i)
  | All_dataset_users => Some (Dataset_users_by_id w i)
  | All_dataset_sources => Some (Dataset_sources_by_id w i)
  | All_dataflow_sources => Some (Dataflow_sources_by_id w i)
  | All_report_sources => Some (Report_sources_by_id w i)
  | All_dataset_tables => Some (Dataset_tables_by_id w i)
  | All_dataset_columns => Some (Dataset_columns_by_id w i)
  | All_dataset_measures => Some (Dataset_measures_by_id w i)
  | All_dataset_calc_dependencies => Some (Dataset_calc_dependencies_by_id w i)
  end.

(** What Python raises for [self.f(a)] when [f] wants two arguments. *)
Definition missing_argument (fname second : string) : exn :=
  TypeError ("PowerBIClient." +:+ fname +:+
             "() missing 1 required positional argument: '" +:+ second +:+ "'").

Definition arity_error (op : bulk_op) : exn :=
  match op with
  | All_dataflows => missing_argument "get_dataflow_by_id" "dataflow_id"
  | All_reports => missing_argument "get_report_by_id" "report_id"
  | _ => missing_argument "get_dataset_by_id" "dataset_id"
  end.

(** The table a bulk method starts from: the workspaces, or what another
    bulk method returns. *)
Definition parent_op (op : bulk_op) : option bulk_op :=
  match op with
  | All_datasets | All_dataflows | All_reports => None
  | All_dataflow_refresh_history | All_dataflow_sources => Some All_dataflows
  | All_report_sources => Some All_reports
  | _ => Some All_datasets
  end.

Definition parents_of (E : Env) (op : bulk_op) : M DataFrame :=
  match parent_op op with
  | None => get_all_workspaces E
  | Some p => bulk E p
  end.

(** The bulk method whose loop walks the workspaces for [op]. *)
Definition root_op (op : bulk_op) : bulk_op :=
  match parent_op op with
  | None => op
  | Some p => p
  end.

(** The column a filtering pre-pass reads. *)
Definition filter_column (op : bulk_op) : string :=
  match op with
  | All_dataset_refresh_history => "isRefreshable"
  | _ => "name"
  end.

(** The rows the two pre-passes keep. *)
Definition named_outside_usage_metrics (r : gmap string value) : bool :=
  match cell r "name" with
  | VStr s => negb (contains "Usage Metrics" s)
  | _ => false
  end.

Definition flagged_refreshable (r : gmap string value) : bool :=
  eq_str "True" (cell r "isRefreshable").

(** The line a pass over a workspace prints in the three methods that
    walk the workspaces. *)
Definition arity_diagnostic (E : Env) (op : bulk_op) (workspace : Series) : event :=
  EvPrint (diagnostic E "workspace" (cell (cells workspace) "id") (arity_error op)).

(** The [objects] a list of table names is sent as. *)
Definition table_objects (table_list : list value) : value :=
  VArr ((λ table, VObj [("table", table)]) <$> table_list).

(** The request of a dataflow refresh. *)
Definition dataflow_refresh_request (E : Env) (workspace_id dataflow_id : value)
    (headers : list (string * string)) : request :=
  mk_request POST
    (base_url +:+ "/" +:+ fmt E workspace_id +:+ "/dataflows/" +:+ fmt E dataflow_id
     +:+ "/refreshes") headers None.

(** The request [execute_query] sends once it holds its headers. *)
Definition execute_query_request (E : Env) (workspace_id dataset_id : value)
    (query : string) (headers : list (string * string)) : request :=
  mk_request POST
    (base_url +:+ "/" +:+ fmt E workspace_id +:+ "/datasets/" +:+ fmt E dataset_id
     +:+ "/executeQueries") headers (Some (info_body query)).

(** ** Further services and tables *)

Definition workspace_url : string :=
  "https://api.powerbi.com/v1.0/myorg/groups//W1".

Definition sources_url : string :=
  "https://api.powerbi.com/v1.0/myorg/groups//W1/datasets/D1/datasources".

Definition refresh_url : string :=
  "https://api.powerbi.com/v1.0/myorg/groups//W1/datasets/D1/refreshes".

Definition dataflow_refresh_url : string :=
  "https://api.powerbi.com/v1.0/myorg/groups//W1/dataflows/F1/refreshes".

Definition finance : list (string * value) :=
  [("id", VStr "W1"); ("name", VStr "Finance")].

(** A workspace record whose id is a number. *)
Definition numbered : list (string * value) :=
  [("id", VInt 7); ("name", VStr "Sales")].

Definition sql_source : list (string * value) :=
  [("datasourceType", VStr "Sql"); ("connectionDetails", VStr "{'server': 'sql01'}")].

(** Two workspaces, the metadata and the one data source of a dataset of
    the first; dataset refreshes are accepted with 202, dataflow
    refreshes with 200. *)
Definition estate : Env :=
  service [token_ok;
           (base_url, listing [VObj finance; VObj numbered]);
           (workspace_url, ok_json (VObj finance));
           (sources_url, listing [VObj sql_source]);
           (refresh_url, Reply (mk_response 202 None));
           (dataflow_refresh_url, Reply (mk_response 200 None))].

(** Replies of another shape: a body that is not JSON, a query reply
    without results, an array where an object is expected. *)
Definition garbled : Env :=
  service [token_ok;
           (users_url, Reply (mk_response 200 None));
           (tables_url, ok_json (VObj [("results", VArr [])]));
           (gateway_base_url, ok_json (VArr []))].

Definition workspaces_table : DataFrame := from_records [finance; numbered].

Definition sales : list (string * value) :=
  [("id", VStr "W2"); ("name", VStr "Sales")].

Definition audit : list (string * value) :=
  [("id", VStr "W3"); ("name", VStr "Audit")].

Definition dataset_url (w d : string) : string :=
  "https://api.powerbi.com/v1.0/myorg/groups//" +:+ w +:+ "/datasets/" +:+ d.

(** Two workspaces; the dataset D1 of the first and its two refreshes
    can be fetched, and so can the dataset D2 of the second. *)
Definition fleet : Env :=
  service [token_ok;
           (base_url, listing [VObj finance; VObj sales]);
           (dataset_url "W1" "D1",
            ok_json (VObj (dataset_record "D1" "Sales" (VStr "True"))));
           (dataset_url "W2" "D2", ok_json (VObj [("id", VStr "D2"); ("name", VStr "Costs")]));
           (history_url "D1", listing [VObj [("status", VStr "Completed")];
                                       VObj [("status", VStr "Failed")]])].

(** Three workspaces; the dataset of the second cannot be reached. *)
Definition faulty : Env :=
  service [token_ok;
           (base_url, listing [VObj finance; VObj sales; VObj audit]);
           (dataset_url "W1" "D1",
            ok_json (VObj (dataset_record "D1" "Sales" (VStr "True"))));
           (dataset_url "W2" "D2", Fault (RequestException "connection refused"));
           (dataset_url "W3" "D3", ok_json (VObj [("id", VStr "D3"); ("name", VStr "Ledger")]))].

(** Two refreshes, the second without an id; two workspaces, the second
    without an id. *)
Definition refreshes : list (list (string * value)) :=
  [[("id", VInt 7); ("status", VStr "Completed")]; [("status", VStr "Failed")]].

Definition registered : list (list (string * value)) :=
  [[("id", VInt 7); ("name", VStr "Sales")]; [("name", VStr "Finance")]].

Definition registry : Env :=
  service [token_ok;
           (base_url, listing (VObj <$> registered));
           (history_url "D1", listing (VObj <$> refreshes))].

Definition history_query : point_query :=
  Dataset_refresh_history_by_id (VStr "W1") (VStr "D1") 10.

(** A datasets table without an [id] column. *)
Definition idless : DataFrame := from_records [[("name", VStr "Sales")]].

(** The frame a bulk run returns, when it returns one. *)
Definition result_of (m : M DataFrame) : DataFrame :=
  match fst m with
  | Ok out => out
  | Raise _ => no_frame
  end.

(** ** The monad *)

Lemma bind_ok {A B} (m : M A) (k : A → M B) a tr :
  m = (Ok a, tr) → bind m k = (fst (k a), tr ++ snd (k a)).
Proof. intros ->. simpl. by destruct (k a). Qed.

Lemma bind_raise {A B} (m : M A) (k : A → M B) e tr :
  m = (Raise e, tr) → bind m k = (Raise e, tr).
Proof. by intros ->. Qed.

Lemma bind_ret_l {A B} (a : A) (k : A → M B) : bind (ret a) k = k a.
Proof. unfold bind, ret. by destruct (k a). Qed.

Lemma bind_ok_nil {A B} (a : A) (k : A → M B) : bind (Ok a, []) k = k a.
Proof. apply bind_ret_l. Qed.

Lemma bind_inv_ok {A B} (m : M A) (k : A → M B) b tr :
  bind m k = (Ok b, tr) →
  ∃ a tr1 tr2, m = (Ok a, tr1) ∧ k a = (Ok b, tr2) ∧ tr = tr1 ++ tr2.
Proof.
  unfold bind. destruct m as [[a|e] tr1]; [|done].
  destruct (k a) as [r tr2] eqn:Hk. intros [= -> <-]. by exists a, tr1, tr2.
Qed.

Lemma bind_inv_raise {A B} (m : M A) (k : A → M B) e tr :
  bind m k = (Raise e, tr) →
  m = (Raise e, tr) ∨
  ∃ a tr1 tr2, m = (Ok a, tr1) ∧ k a = (Raise e, tr2) ∧ tr = tr1 ++ tr2.
Proof.
  unfold bind. destruct m as [[a|e'] tr1].
  - destruct (k a) as [r tr2] eqn:Hk. intros [= -> <-]. right. by exists a, tr1, tr2.
  - intros [= -> ->]. by left.
Qed.

(** ** extract_connection_details *)

(** What is stored of entries that are all [None], of a [None], of
    numbers with a gap, and of entries without a [None] that are not
    such numbers. *)
Lemma stored_all_None E vals v : forallb is_None vals = true → stored E vals v = v.
Proof. unfold stored. by intros ->. Qed.

Lemma stored_None_missing E vals : is_missing (stored E vals VNone) = true.
Proof.
  unfold stored, null_marker. simpl.
  destruct (forallb is_None vals); [done|].
  destruct (forallb numeric_or_missing vals && existsb forces_float vals);
    [destruct (forallb in_int64 vals); [done|]|]; by destruct (null_as_nan E vals).
Qed.

Lemma stored_missing E vals v :
  is_missing v = true → is_missing (stored E vals v) = true.
Proof.
  destruct v; try done; intros _; [apply stored_None_missing|].
  unfold stored.
  destruct (forallb is_None vals); [done|].
  destruct (forallb numeric_or_missing vals && existsb forces_float vals);
    [by destruct (forallb in_int64 vals)|done].
Qed.

Lemma stored_singleton E v : stored E [v] v = v.
Proof. unfold stored. by destruct v.
Qed.

Lemma stored_float64 E vals v :
  forallb is_None vals = false →
  forallb numeric_or_missing vals = true →
  existsb forces_float vals = true →
  forallb in_int64 vals = true →
  stored E vals v = as_float E v.
Proof. unfold stored. by intros -> -> -> ->. Qed.

Lemma stored_not_None E vals v :
  forallb numeric_or_missing vals && existsb forces_float vals = false →
  v ≠ VNone →
  stored E vals v = v.
Proof.
  unfold stored. intros -> Hv.
  destruct (forallb is_None vals); [done|]. by destruct v.
Qed.

Lemma extract_connection_details_fields E x :
  ∃ d tr,
    extract_connection_details E x = (Ok d, tr) ∧
    ∀ key, key ∈ details_columns → field d key = held_entry E x key.
Proof.
  unfold extract_connection_details, held_entry, lookups_of, entry_or_None,
    parsed_dict, details_columns.
  assert (Hnone : ∀ key, VNone = stored E [VNone; VNone; VNone; VNone; VNone] VNone)
    by done.
  assert (Hd : ∀ d key, key ∈ ["server"; "database"; "connectionString"; "url"; "path"] →
                 field (details_of E d) key =
                 stored E (lookups d) (default VNone (dict_get d key))).
  { intros d key Hkey.
    repeat (apply elem_of_cons in Hkey as [->|Hkey]); try done.
    by apply elem_of_nil in Hkey. }
  assert (Hn : ∀ key, key ∈ ["server"; "database"; "connectionString"; "url"; "path"] →
                 field no_details key = VNone).
  { intros key Hkey.
    repeat (apply elem_of_cons in Hkey as [->|Hkey]); try done.
    by apply elem_of_nil in Hkey. }
  destruct x as [| | | | |s| |d|]; simpl; try (by eexists _, _; split; [done|]; apply Hn).
  - destruct (literal_eval E s) as [[| | | | | | |d|]|e]; simpl;
      try (by eexists _, _; split; [done|]; apply Hn).
    eexists _, _. split; [done|]. apply Hd.
  - eexists _, _. split; [done|]. apply Hd.
Qed.


(** ** Point queries *)

Lemma send_reply E req r :
  http E req = Reply r → send E req = (Ok r, [EvRequest req]).
Proof. unfold send. simpl. by intros ->. Qed.

Lemma send_fault E req e :
  http E req = Fault e → send E req = (Raise e, [EvRequest req]).
Proof. unfold send. simpl. by intros ->. Qed.

(** Every point query has one anatomy: the header, one request, and a
    branch on the status code. *)
Lemma run_query_anatomy E q :
  run_query E q =
  (headers <~ get_header E ;;
   result <~ send E (query_request E q headers) ;;
   if bool_decide (status_code result = 200) then on_200 E q result
   else ret no_frame).
Proof. destruct q; reflexivity. Qed.

Lemma get_header_raise E e tr :
  get_header E = (Raise e, tr) →
  http E (token_request E) = Fault e ∨ ∃ r, http E (token_request E) = Reply r.
Proof.
  unfold get_header, get_token, requests_post. fold (token_request E).
  unfold send. simpl.
  destruct (http E (token_request E)) as [e'|r]; simpl.
  - intros [= -> _]. by left.
  - intros _. right. by exists r.
Qed.

(** C7, as amended.  Once a point query holds its authorization header, a
    reply to its request with any status other than 200 makes it return
    the empty frame, without raising.  It raises only when the token
    request or its own request meets a transport fault, when the token
    endpoint replies without a usable access token, or on a reply with
    status 200. *)
Theorem point_query_status_and_faults (E : Env) (q : point_query) :
  (∀ headers tr0 r,
     get_header E = (Ok headers, tr0) →
     http E (query_request E q headers) = Reply r →
     status_code r ≠ 200 →
     run_query E q = (Ok no_frame, tr0 ++ [EvRequest (query_request E q headers)])) ∧
  (∀ e tr,
     run_query E q = (Raise e, tr) →
     http E (token_request E) = Fault e ∨
     (∃ r, http E (token_request E) = Reply r ∧ get_header E = (Raise e, tr)) ∨
     ∃ headers tr0,
       get_header E = (Ok headers, tr0) ∧
       (http E (query_request E q headers) = Fault e ∨
        ∃ r, http E (query_request E q headers) = Reply r ∧ status_code r = 200)).
Proof.
  rewrite run_query_anatomy. split.
  - intros headers tr0 r Hh Hr Hs.
    rewrite (bind_ok _ _ _ _ Hh), (bind_ok _ _ _ _ (send_reply _ _ _ Hr)).
    by rewrite bool_decide_false.
  - intros e tr Hrun.
    destruct (get_header E) as [[headers|e'] tr0] eqn:Hh.
    + right. right. exists headers, tr0. split; [done|].
      apply bind_inv_raise in Hrun as [[=]|(h & t1 & t2 & [= <- <-] & Hk & ->)].
      destruct (http E (query_request E q headers)) as [e'|r] eqn:Hr.
      * rewrite (bind_raise _ _ _ _ (send_fault _ _ _ Hr)) in Hk.
        injection Hk as -> _. by left.
      * right. exists r. split; [done|].
        rewrite (bind_ok _ _ _ _ (send_reply _ _ _ Hr)) in Hk.
        by case_bool_decide.
    + rewrite (bind_raise _ _ _ _ eq_refl) in Hrun. injection Hrun as -> ->.
      destruct (get_header_raise _ _ _ Hh) as [?|[r ?]]; [by left|].
      right. left. by exists r.
Qed.

(** A per-parent call that raises is caught by the loop body: the
    accumulated frame is kept and one line is printed. *)
Lemma fan_out_step_raise E fetch context what id_key parent df_all e tr :
  fetch parent = (Raise e, tr) →
  id_key ∈ index parent →
  fan_out_step E fetch context what id_key parent df_all =
    (Ok df_all, tr ++ [EvPrint (diagnostic E what (cell (cells parent) id_key) e)]).
Proof.
  intros Hf Hk. unfold fan_out_step, try_except.
  rewrite (bind_raise _ _ _ _ Hf).
  unfold series_getitem. by rewrite bool_decide_true.
Qed.

(** The call a pass makes for a parent that has its workspace and its
    id is the point query on the two. *)
Lemma fetch_of_child_query E op parent q :
  child_query op (cell (cells parent) "workspaceId")
                 (cell (cells parent) (id_key_of op)) = Some q →
  "workspaceId" ∈ index parent →
  id_key_of op ∈ index parent →
  fetch_of E op parent = run_query E q.
Proof.
  intros Hq Hw Hi.
  destruct op; simpl in *; try discriminate Hq; injection Hq as <-;
    unfold per_child, series_getitem;
    rewrite !bool_decide_true by done; by rewrite !bind_ret_l.
Qed.

(** C8, as amended.  On a reply with status 200 whose JSON object has no
    [value] key, the listing fetchers of client.py raise [KeyError].  When
    the query is the call a bulk loop makes for a parent (the refresh
    histories, the dataset users and the three kinds of sources), the
    loop body catches it and turns it into one printed line, keeping its
    accumulated frame.  The listing fetchers of gateway_client.py, which
    read [.get("value", [])], return the empty frame instead. *)
Theorem listing_without_value (E : Env) (q : point_query) headers tr0 r d :
  get_header E = (Ok headers, tr0) →
  http E (query_request E q headers) = Reply r →
  status_code r = 200 →
  payload r = Some (VObj d) →
  dict_get d "value" = None →
  (client_listing q = true →
     run_query E q = (Raise (KeyError "value"),
                      tr0 ++ [EvRequest (query_request E q headers)]) ∧
     ∀ op parent df_all,
       child_query op (cell (cells parent) "workspaceId")
                      (cell (cells parent) (id_key_of op)) = Some q →
       "workspaceId" ∈ index parent →
       id_key_of op ∈ index parent →
       fan_out_step E (fetch_of E op) (context_of op) (what_of op) (id_key_of op)
                    parent df_all =
         (Ok df_all,
          (tr0 ++ [EvRequest (query_request E q headers)]) ++
          [EvPrint (diagnostic E (what_of op) (cell (cells parent) (id_key_of op))
                      (KeyError "value"))])) ∧
  (gateway_listing_query q = true →
     run_query E q = (Ok no_frame, tr0 ++ [EvRequest (query_request E q headers)])).
Proof.
  intros Hh Hr Hs Hp Hd.
  assert (Hrun : run_query E q =
                 (fst (on_200 E q r),
                  tr0 ++ [EvRequest (query_request E q headers)] ++ snd (on_200 E q r))).
  { rewrite run_query_anatomy.
    rewrite (bind_ok _ _ _ _ Hh), (bind_ok _ _ _ _ (send_reply _ _ _ Hr)).
    by rewrite bool_decide_true. }
  split.
  - intros Hq.
    assert (Hkey : run_query E q =
                   (Raise (KeyError "value"),
                    tr0 ++ [EvRequest (query_request E q headers)])).
    { rewrite Hrun.
      destruct q; try discriminate Hq; simpl;
        unfold listing_frame, sources_frame, workspaces_frame, json;
        rewrite Hp; simpl; rewrite Hd; simpl; by rewrite ?app_nil_r. }
    split; [done|].
    intros op parent df_all Hchild Hw Hi.
    apply fan_out_step_raise; [|done].
    by rewrite (fetch_of_child_query E op parent q Hchild Hw Hi).
  - intros Hq. rewrite Hrun.
    destruct q; try discriminate Hq; simpl;
      unfold gateway_listing_frame, json; rewrite Hp; simpl; rewrite Hd; simpl;
      by rewrite ?app_nil_r.
Qed.

(** Deleting a character leaves none of it, and brings in no other. *)
Lemma has_char_delete_same c s : has_char c (delete_char c s) = false.
Proof.
  induction s as [|a s IH]; [done|]. simpl.
  case_bool_decide as Ha; [done|]. simpl. by rewrite bool_decide_false.
Qed.

Lemma has_char_delete_other c c' s :
  has_char c s = false → has_char c (delete_char c' s) = false.
Proof.
  induction s as [|a s IH]; [done|]. simpl.
  intros [Ha Hs]%orb_false_iff.
  destruct (bool_decide (a = c')); [by apply IH|]. simpl. rewrite Ha. by apply IH.
Qed.

Lemma strip_brackets_clean col :
  has_char "[" (strip_brackets col) = false ∧
  has_char "]" (strip_brackets col) = false.
Proof.
  unfold strip_brackets. split.
  - apply has_char_delete_other, has_char_delete_same.
  - apply has_char_delete_same.
Qed.

Lemma record_labels_nil : record_labels [] = [].
Proof. done. Qed.

(** Inferring the dtypes keeps the labels and the number of rows. *)
Lemma infer_dtypes_empty E df :
  DataFrame_empty (infer_dtypes E df) = DataFrame_empty df.
Proof.
  unfold DataFrame_empty, infer_dtypes. simpl. f_equal.
  by destruct (rows df).
Qed.

(** C6, as amended.  A schema-introspection query that is answered 200
    with rows that are JSON objects returns a frame whose column names are
    the keys of those rows, in order of first appearance, with every ['[']
    and every [']'] deleted: [Table[Column]] comes back as [TableColumn],
    and no returned name holds a bracket. *)
Theorem schema_columns_stripped (E : Env) (q : point_query)
    headers tr0 r j items recs :
  schema_query q = true →
  get_header E = (Ok headers, tr0) →
  http E (query_request E q headers) = Reply r →
  status_code r = 200 →
  payload r = Some j →
  info_rows j = (Ok (VArr items), []) →
  mapM as_record items = Some recs →
  ∃ df,
    run_query E q = (Ok df, tr0 ++ [EvRequest (query_request E q headers)]) ∧
    columns df = strip_brackets <$> record_labels recs ∧
    Forall (λ c, has_char "[" c = false ∧ has_char "]" c = false) (columns df) ∧
    strip_brackets "Table[Column]" = "TableColumn".
Proof.
  intros Hq Hh Hr Hs Hp Hrows Hrecs.
  assert (Hcols : ∀ df, columns df = strip_brackets <$> record_labels recs →
                    Forall (λ c, has_char "[" c = false ∧ has_char "]" c = false)
                           (columns df)).
  { intros df ->. apply Forall_fmap, Forall_forall. intros c _.
    apply strip_brackets_clean. }
  assert (Hrun : run_query E q =
                 (fst (info_frame E r),
                  tr0 ++ [EvRequest (query_request E q headers)] ++ snd (info_frame E r))).
  { rewrite run_query_anatomy.
    rewrite (bind_ok _ _ _ _ Hh), (bind_ok _ _ _ _ (send_reply _ _ _ Hr)).
    rewrite bool_decide_true by done. by destruct q. }
  assert (Hframe : ∃ df, info_frame E r = (Ok df, []) ∧
                         columns df = strip_brackets <$> record_labels recs).
  { unfold info_frame, json. rewrite Hp, bind_ret_l.
    rewrite (bind_ok _ _ _ _ Hrows). simpl. rewrite Hrecs. simpl.
    rewrite infer_dtypes_empty.
    destruct (DataFrame_empty (from_records recs)) eqn:Hempty; simpl.
    - eexists. split; [done|]. simpl.
      unfold DataFrame_empty in Hempty. simpl in Hempty.
      apply orb_true_iff in Hempty as [Hc|Hr0].
      + apply bool_decide_eq_true in Hc. by rewrite Hc.
      + apply bool_decide_eq_true in Hr0. apply fmap_nil_inv in Hr0. by subst.
    - eexists. split; [done|]. done. }
  destruct Hframe as (df & Hdf & Hc). exists df.
  rewrite Hrun, Hdf. simpl. rewrite ?app_nil_r. eauto.
Qed.

(** ** Frames *)

Lemma merge_labels_l acc new c : c ∈ acc → c ∈ merge_labels acc new.
Proof.
  unfold merge_labels. revert acc.
  induction new as [|x new IH]; intros acc Hc; [done|]. simpl. apply IH.
  case_bool_decide; [done|]. apply elem_of_app. by left.
Qed.

Lemma merge_labels_r acc new c : c ∈ new → c ∈ merge_labels acc new.
Proof.
  unfold merge_labels. revert acc.
  induction new as [|x new IH]; intros acc Hc; [by apply elem_of_nil in Hc|].
  simpl. apply elem_of_cons in Hc as [->|Hc]; [|by apply IH].
  apply (merge_labels_l _ new). case_bool_decide; [done|].
  apply elem_of_app. right. by apply list_elem_of_singleton.
Qed.

Lemma add_label_same cols c : c ∈ add_label cols c.
Proof.
  unfold add_label. case_bool_decide; [done|].
  apply elem_of_app. right. by apply list_elem_of_singleton.
Qed.

Lemma add_label_keeps cols c c' : c' ∈ cols → c' ∈ add_label cols c.
Proof.
  unfold add_label. case_bool_decide; [done|]. intros. apply elem_of_app. by left.
Qed.

Lemma cell_insert_same r c v : cell (<[c := v]> r) c = v.
Proof. unfold cell. by rewrite lookup_insert_eq. Qed.

Lemma cell_insert_other (r : gmap string value) c c' v :
  c ≠ c' → cell (<[c := v]> r) c' = cell r c'.
Proof. intros. unfold cell. by rewrite lookup_insert_ne. Qed.

Lemma cell_reindex cols r c : c ∈ cols → cell (reindex cols r) c = cell r c.
Proof.
  unfold reindex. induction cols as [|x cols IH]; intros Hc.
  - by apply elem_of_nil in Hc.
  - simpl. destruct (decide (x = c)) as [->|Hne].
    + apply cell_insert_same.
    + rewrite cell_insert_other by done. apply IH.
      apply elem_of_cons in Hc as [?|?]; [congruence|done].
Qed.

(** Concatenation keeps every cell of both frames. *)
Lemma pd_concat_rows a b :
  Forall2 (λ r0 r, ∀ c, c ∈ columns a ∨ c ∈ columns b → cell r c = cell r0 c)
          (rows a ++ rows b) (rows (pd_concat a b)).
Proof.
  unfold pd_concat. simpl. apply Forall2_fmap_r, Forall_Forall2_diag, Forall_forall.
  intros r _ c Hc. apply cell_reindex.
  destruct Hc; [by apply merge_labels_l|by apply merge_labels_r].
Qed.

Lemma set_cells_rows c rs new :
  Forall2 (λ r r', ∀ c', c ≠ c' → cell r' c' = cell r c') rs (set_cells c rs new).
Proof.
  revert new. induction rs as [|r rs IH]; intros new; simpl; constructor.
  - intros c' Hne. by apply cell_insert_other.
  - apply IH.
Qed.

(** [df[c] = v] leaves no trace; when it goes through it adds the label
    [c], keeps every other cell, and a scalar [v] lands in every row. *)
Lemma setitem_trace E df c v : snd (setitem E df c v) = [].
Proof.
  unfold setitem. destruct (is_scalar v); [done|].
  unfold lift. simpl. by destruct (setitem_other E df c v).
Qed.

Lemma setitem_ok E df c v df' tr :
  setitem E df c v = (Ok df', tr) →
  columns df' = add_label (columns df) c ∧
  Forall2 (λ r r', (∀ c', c ≠ c' → cell r' c' = cell r c') ∧
                   (is_scalar v = true → cell r' c = v))
          (rows df) (rows df').
Proof.
  unfold setitem. destruct (is_scalar v) eqn:Hv.
  - intros [= <- _]. split; [done|]. simpl.
    apply Forall2_fmap_r, Forall_Forall2_diag, Forall_forall. intros r _. split.
    + intros c' Hne. by apply cell_insert_other.
    + intros _. apply cell_insert_same.
  - unfold lift. simpl. destruct (setitem_other E df c v) as [new|e]; [|done].
    simpl. intros [= <- _]. split; [done|]. simpl.
    eapply Forall2_impl; [apply set_cells_rows|]. intros r r' H. by split.
Qed.

Lemma setitem_scalar E df c v :
  is_scalar v = true → setitem E df c v = (Ok (assign_scalar df c v), []).
Proof. unfold setitem. by intros ->. Qed.

(** ** The loop *)

Lemma Forall2_compose {A B C} (R : A → B → Prop) (S : B → C → Prop)
    (T : A → C → Prop) l k m :
  (∀ x y z, R x y → S y z → T x z) →
  Forall2 R l k → Forall2 S k m → Forall2 T l m.
Proof.
  intros HT HR. revert m. induction HR; intros m HS; inversion HS; subst.
  - constructor.
  - constructor; eauto.
Qed.

Lemma Forall2_elem_of_r {A B} (R : A → B → Prop) l k y :
  Forall2 R l k → y ∈ k → ∃ x, x ∈ l ∧ R x y.
Proof.
  induction 1 as [|x y' l k HR _ IH]; intros Hy.
  - by apply elem_of_nil in Hy.
  - apply elem_of_cons in Hy as [->|Hy].
    + exists x. split; [apply elem_of_cons; by left|done].
    + destruct (IH Hy) as (x' & ? & ?). exists x'. split; [|done].
      apply elem_of_cons. by right.
Qed.


Section Loop.
Context (E : Env) (fetch : Series → M DataFrame)
        (context : list (string * string)) (what id_key : string).

Local Abbreviation step := (fan_out_step E fetch context what id_key).
Local Abbreviation add := (add E fetch context).
Local Abbreviation step_trace := (step_trace E fetch context what id_key).
Local Abbreviation step_escape := (step_escape E fetch context what id_key).
Local Abbreviation contributed := (contributed E fetch context).
Local Abbreviation contribution := (contribution E fetch context).

Lemma inject_trace parent : ∀ df, snd (inject E context parent df) = [].
Proof.
  induction context as [|[col key] rest IH]; intros df; [done|]. simpl.
  unfold series_getitem. case_bool_decide; [|done]. rewrite bind_ret_l.
  pose proof (setitem_trace E df col (cell (cells parent) key)) as Ht.
  destruct (setitem E df col (cell (cells parent) key)) as [[df'|e] tr].
  - simpl in Ht. subst tr. simpl. specialize (IH df').
    by destruct (inject E rest parent df').
  - simpl in Ht. by subst tr.
Qed.

Lemma step_eq parent df_all :
  step parent df_all =
    (match step_escape parent with
     | Some e => Raise e
     | None => Ok (add df_all parent)
     end, step_trace parent).
Proof.
  unfold step_escape, step_trace, add, contribution, fan_out_step, try_except.
  destruct (fetch parent) as [[df|e] trf]; simpl.
  - destruct (DataFrame_empty df); simpl; [done|].
    destruct (inject E context parent df) as [[df'|e] tri]; simpl; [done|].
    unfold series_getitem. by case_bool_decide.
  - unfold series_getitem. by case_bool_decide.
Qed.

Lemma for_rows_ok parents : ∀ df_all out tr,
  for_rows step parents df_all = (Ok out, tr) →
  out = foldl add df_all parents ∧ tr = parents ≫= step_trace.
Proof.
  induction parents as [|p ps IH]; intros df_all out tr; simpl.
  - by intros [= <- <-].
  - intros (df1 & t1 & t2 & Hs & Hrest & ->)%bind_inv_ok.
    rewrite step_eq in Hs. destruct (step_escape p); [done|].
    injection Hs as <- <-. destruct (IH _ _ _ Hrest) as [-> ->]. done.
Qed.

Lemma for_rows_total parents : ∀ df_all,
  Forall (λ p, step_escape p = None) parents →
  for_rows step parents df_all =
    (Ok (foldl add df_all parents), parents ≫= step_trace).
Proof.
  induction parents as [|p ps IH]; intros df_all Hall; [done|].
  inversion Hall as [|? ? Hp Hps]; subst. simpl.
  rewrite step_eq, Hp. simpl. by rewrite (IH _ Hps).
Qed.

Lemma for_rows_events parents : ∀ df_all ev,
  ev ∈ snd (for_rows step parents df_all) →
  ∃ p, p ∈ parents ∧ ev ∈ step_trace p.
Proof.
  induction parents as [|p ps IH]; intros df_all ev; simpl.
  - intros H. by apply elem_of_nil in H.
  - rewrite step_eq. destruct (step_escape p); simpl.
    + intros H. exists p. split; [apply elem_of_cons; by left|done].
    + destruct (for_rows step ps (add df_all p)) as [r tr] eqn:Hrest. simpl.
      intros [H|H]%elem_of_app.
      * exists p. split; [apply elem_of_cons; by left|done].
      * destruct (IH (add df_all p) ev) as (p' & ? & ?); [by rewrite Hrest|].
        exists p'. split; [apply elem_of_cons; by right|done].
Qed.

Lemma foldl_add_rows parents : ∀ df_all srcs,
  Forall2 (kept_in df_all) srcs (rows df_all) →
  Forall2 (kept_in (foldl add df_all parents))
          (srcs ++ contributed parents) (rows (foldl add df_all parents)).
Proof.
  induction parents as [|p ps IH]; intros df_all srcs Hinv.
  - simpl. by rewrite app_nil_r.
  - cbn [foldl]. unfold contributed. rewrite bind_cons, app_assoc. apply IH.
    unfold add. destruct (contribution p) as [df|]; [|by rewrite app_nil_r].
    unfold pd_concat. simpl. rewrite fmap_app. apply Forall2_app.
    + apply Forall2_fmap_r. eapply Forall2_impl; [exact Hinv|].
      intros src r Hk c Hc. destruct (Hk c Hc) as [Hin Hcell]. simpl. split.
      * by apply merge_labels_l.
      * rewrite cell_reindex; [done|by apply merge_labels_l].
    + apply Forall2_fmap, Forall_Forall2_diag, Forall_forall.
      intros r _ c Hc. simpl in *. split.
      * by apply merge_labels_r.
      * rewrite cell_reindex; [done|by apply merge_labels_r].
Qed.

Lemma fan_out_rows parents out tr :
  fan_out E parents fetch context what id_key = (Ok out, tr) →
  tr = iterrows parents ≫= step_trace ∧
  Forall2 (kept_in out) (contributed (iterrows parents)) (rows out).
Proof.
  unfold fan_out. intros [-> ->]%for_rows_ok. split; [done|].
  apply (foldl_add_rows _ no_frame []). constructor.
Qed.
End Loop.

(** The context assignments, when they all go through, add the context
    labels, keep every other cell, and put the parent's value under each
    context label it holds as a scalar. *)
Lemma inject_ok E context parent : ∀ df df' tr,
  inject E context parent df = (Ok df', tr) →
  (∀ c, c ∈ columns df → c ∈ columns df') ∧
  (∀ col, col ∈ context.*1 → col ∈ columns df') ∧
  Forall2 (λ r r',
     (∀ c, c ∉ context.*1 → cell r' c = cell r c) ∧
     (NoDup context.*1 → ∀ col key, (col, key) ∈ context →
        is_scalar (cell (cells parent) key) = true →
        cell r' col = cell (cells parent) key))
    (rows df) (rows df').
Proof.
  induction context as [|[col key] rest IH]; intros df df' tr.
  - intros [= <- _]. split; [done|]. split.
    + intros col H. by apply elem_of_nil in H.
    + apply Forall_Forall2_diag, Forall_forall. intros r _. split; [done|].
      intros _ col key H. by apply elem_of_nil in H.
  - simpl. intros (v & t1 & t2 & Hget & H & ->)%bind_inv_ok.
    unfold series_getitem in Hget. case_bool_decide; [|done].
    injection Hget as <- <-.
    apply bind_inv_ok in H as (df1 & t3 & t4 & Hset & Hrest & ->).
    apply setitem_ok in Hset as [Hc1 HF1].
    apply IH in Hrest as (Hc2 & Hc3 & HF2).
    split; [|split].
    + intros c Hc. apply Hc2. rewrite Hc1. by apply add_label_keeps.
    + intros col' [->|Hin]%elem_of_cons.
      * apply Hc2. rewrite Hc1. apply add_label_same.
      * by apply Hc3.
    + eapply Forall2_compose; [|exact HF1|exact HF2].
      intros r r1 r' [H1a H1b] [H2a H2b]. split.
      * intros c Hc. apply not_elem_of_cons in Hc as [Hne Hc].
        rewrite H2a by done. by apply H1a.
      * intros [Hnew Hnd]%NoDup_cons col' key' Hin Hsc.
        apply elem_of_cons in Hin as [[= -> ->]|Hin].
        -- rewrite H2a by done. by apply H1b.
        -- by apply H2b.
Qed.

Lemma inject_well_typed E context parent : ∀ df,
  well_typed context parent → ∃ df', inject E context parent df = (Ok df', []).
Proof.
  unfold well_typed.
  induction context as [|[col key] rest IH]; intros df Hwt; [by eexists|].
  apply Forall_cons in Hwt as [[Hkey Hsc] Hwt]. simpl in Hkey, Hsc.
  cbn [inject]. unfold series_getitem.
  rewrite bool_decide_true by done. rewrite bind_ret_l.
  rewrite setitem_scalar by done. rewrite bind_ok_nil. by apply IH.
Qed.


Section Outcomes.
Context (E : Env) (fetch : Series → M DataFrame)
        (context : list (string * string)) (what id_key : string).
Context (Hnodup : NoDup context.*1).

Local Abbreviation pass_trace := (pass_trace E fetch what id_key).
Local Abbreviation returned_rows := (returned_rows fetch).
Local Abbreviation annotates := (annotates context).

Lemma pass_well_typed parent :
  well_typed context parent → id_key ∈ index parent →
  step_escape E fetch context what id_key parent = None ∧
  step_trace E fetch context what id_key parent = pass_trace parent ∧
  Forall2 annotates (returned_rows [parent])
          (contributed E fetch context [parent]).
Proof.
  intros Hwt Hid.
  unfold step_escape, step_trace, pass_trace, returned_rows, contributed,
    contribution, child_rows, fan_out_step, try_except.
  rewrite !bind_singleton.
  destruct (fetch parent) as [[t|e] trf]; simpl.
  - destruct (DataFrame_empty t); simpl; [by rewrite app_nil_r|].
    destruct (inject_well_typed E context parent t Hwt) as [t' Hinj].
    rewrite Hinj. simpl. rewrite app_nil_r. split; [done|]. split; [done|].
    apply inject_ok in Hinj as (Hc1 & Hc2 & HF).
    apply Forall2_fmap. eapply Forall2_impl; [exact HF|].
    intros r0 r1 [Ha Hb]. repeat split; simpl; [done..|].
    intros col key Hin. apply Hb; [done..|].
    unfold well_typed in Hwt. rewrite Forall_forall in Hwt.
    by destruct (Hwt _ Hin).
  - unfold series_getitem. rewrite bool_decide_true by done. by simpl.
Qed.

Lemma passes_well_typed parents :
  Forall (well_typed context) parents →
  Forall (λ p, id_key ∈ index p) parents →
  Forall (λ p, step_escape E fetch context what id_key p = None) parents ∧
  parents ≫= step_trace E fetch context what id_key = parents ≫= pass_trace ∧
  Forall2 annotates (returned_rows parents) (contributed E fetch context parents).
Proof.
  induction parents as [|p ps IH]; intros Hwt Hid.
  - split; [constructor|]. split; [done|]. constructor.
  - apply Forall_cons in Hwt as [Hp Hwt]. apply Forall_cons in Hid as [Hi Hid].
    destruct (IH Hwt Hid) as (IH1 & IH2 & IH3).
    destruct (pass_well_typed p Hp Hi) as (H1 & H2 & H3).
    split; [by constructor|]. split.
    + rewrite !bind_cons. by rewrite H2, IH2.
    + unfold returned_rows, contributed in *.
      rewrite !bind_singleton in H3.
      rewrite !bind_cons. by apply Forall2_app.
Qed.

(** The loop over well-typed parents, whatever the calls do: it returns
    a frame, its trace is that of the calls with one printed line per
    call that raised, and its rows are, in order, the rows the other
    calls returned, each carrying its parent's identifiers. *)
Lemma fan_out_outcomes parents :
  Forall (well_typed context) (iterrows parents) →
  Forall (λ p, id_key ∈ index p) (iterrows parents) →
  ∃ out,
    fan_out E parents fetch context what id_key =
      (Ok out, iterrows parents ≫= pass_trace) ∧
    Forall2 (carries context) (returned_rows (iterrows parents)) (rows out).
Proof.
  intros Hwt Hid.
  destruct (passes_well_typed _ Hwt Hid) as (Hesc & Htr & Hann).
  pose proof (for_rows_total E fetch context what id_key _ no_frame Hesc) as Hrun.
  eexists. split.
  - unfold fan_out. rewrite Hrun. by rewrite Htr.
  - apply fan_out_rows in Hrun as [_ Hrows].
    eapply Forall2_compose; [|exact Hann|exact Hrows].
    intros src0 src1 r (Ha & Hb & Hc & Hd) Hk. split.
    + intros col key Hin.
      destruct (Hk col) as [_ ->].
      * apply Hb. apply list_elem_of_fmap. by exists (col, key).
      * by apply Hd.
    + intros c Hin Hnot. destruct (Hk c) as [_ ->]; [by apply Ha|].
      by apply Hc.
Qed.
End Outcomes.

(** ** The bulk methods *)

Lemma prefilter_trace op parents : snd (prefilter op parents) = [].
Proof.
  assert (Hdrop : snd (drop_usage_metrics parents) = []).
  { unfold drop_usage_metrics, getitem, not_str_contains.
    case_bool_decide; [|done]. rewrite bind_ret_l. by destruct (forallb _ _). }
  destruct op; try reflexivity; try exact Hdrop.
  simpl. unfold getitem. by case_bool_decide.
Qed.

(** Every bulk method, from its parent table on, is the pre-pass followed
    by the one loop. *)
Lemma bulk_of_eq E op parents :
  bulk_of E op parents =
  (kept <~ prefilter op parents ;;
   fan_out E kept (fetch_of E op) (context_of op) (what_of op) (id_key_of op)).
Proof.
  destruct op; cbv [bulk_of prefilter fetch_of context_of what_of id_key_of];
    rewrite ?bind_ret_l; try reflexivity.
  unfold get_all_dataset_refresh_history_of, getitem.
  case_bool_decide; [|done]. by rewrite !bind_ret_l.
Qed.

Lemma bulk_of_kept E op parents kept :
  prefilter op parents = (Ok kept, []) →
  bulk_of E op parents =
    fan_out E kept (fetch_of E op) (context_of op) (what_of op) (id_key_of op).
Proof. intros H. by rewrite bulk_of_eq, H, bind_ok_nil. Qed.

Lemma context_of_nodup op : NoDup (context_of op).*1.
Proof. destruct op; compute_done. Qed.

Lemma well_typed_id_key op parent :
  well_typed (context_of op) parent → id_key_of op ∈ index parent.
Proof.
  unfold well_typed. intros H.
  destruct op; apply Forall_cons in H as [[H _] _]; exact H.
Qed.

Lemma elem_of_select {A} (f : A → bool) (l : list A) x :
  x ∈ select (f <$> l) l → x ∈ l ∧ f x = true.
Proof.
  induction l as [|y l IH]; simpl.
  - intros H. by apply elem_of_nil in H.
  - destruct (f y) eqn:Hy.
    + intros [->|H]%elem_of_cons.
      * split; [apply elem_of_cons; by left|done].
      * destruct (IH H). split; [apply elem_of_cons; by right|done].
    + intros H. destruct (IH H). split; [apply elem_of_cons; by right|done].
Qed.

(** What the pre-pass of the users and sources aggregations keeps. *)
Lemma drop_usage_metrics_spec df :
  (∃ e, drop_usage_metrics df = (Raise e, [])) ∨
  ∃ kept, drop_usage_metrics df = (Ok kept, []) ∧
    ∀ p, p ∈ iterrows kept →
      p ∈ iterrows df ∧
      ∃ s, cell (cells p) "name" = VStr s ∧ contains "Usage Metrics" s = false.
Proof.
  unfold drop_usage_metrics, getitem, not_str_contains.
  case_bool_decide; [|left; by eexists].
  rewrite bind_ret_l.
  destruct (forallb _ _); [|left; by eexists].
  right. eexists. split; [by rewrite bind_ret_l|].
  intros p (r & -> & Hr)%list_elem_of_fmap. simpl in Hr.
  rewrite <- list_fmap_compose in Hr. apply elem_of_select in Hr as [Hr Hf].
  split; [by apply list_elem_of_fmap_2|]. simpl in *.
  destruct (cell r "name"); try done. eexists. split; [done|].
  by apply negb_true_iff.
Qed.

(** What the pre-pass of the refresh-history aggregation keeps. *)
Lemma refreshable_spec df :
  (∃ e, prefilter All_dataset_refresh_history df = (Raise e, [])) ∨
  ∃ kept, prefilter All_dataset_refresh_history df = (Ok kept, []) ∧
    ∀ p, p ∈ iterrows kept →
      p ∈ iterrows df ∧ cell (cells p) "isRefreshable" = VStr "True".
Proof.
  simpl. unfold getitem. case_bool_decide; [|left; by eexists].
  right. eexists. split; [by rewrite bind_ret_l|].
  intros p (r & -> & Hr)%list_elem_of_fmap. simpl in Hr.
  rewrite <- list_fmap_compose in Hr. apply elem_of_select in Hr as [Hr Hf].
  split; [by apply list_elem_of_fmap_2|]. simpl in *.
  destruct (cell r "isRefreshable"); try done. simpl in Hf.
  apply bool_decide_eq_true in Hf. by subst.
Qed.

(** Where a row of an aggregated frame comes from: a row of the frame
    returned for one of the parents, whose cells it keeps outside the
    context columns and whose identifiers it holds under them. *)
Lemma fan_out_row_origin E parents fetch context what id_key out tr r :
  NoDup context.*1 →
  fan_out E parents fetch context what id_key = (Ok out, tr) →
  r ∈ rows out →
  ∃ p t tr0 r0,
    p ∈ iterrows parents ∧ fetch p = (Ok t, tr0) ∧ r0 ∈ rows t ∧
    (∀ c, c ∈ columns t → c ∉ context.*1 → cell r c = cell r0 c) ∧
    (∀ col key, (col, key) ∈ context →
       is_scalar (cell (cells p) key) = true → cell r col = cell (cells p) key).
Proof.
  intros Hnd [_ Hrows]%fan_out_rows Hr.
  destruct (Forall2_elem_of_r _ _ _ _ Hrows Hr) as ([[p t'] r1] & Hsrc & Hk).
  unfold contributed in Hsrc. apply list_elem_of_bind in Hsrc as (p' & Hsrc & Hp).
  unfold contribution in Hsrc.
  destruct (fetch p') as [[t|e] tr0] eqn:Hfetch; [|by apply elem_of_nil in Hsrc].
  destruct (DataFrame_empty t); [by apply elem_of_nil in Hsrc|].
  destruct (inject E context p' t) as [[t''|e] tri] eqn:Hinj;
    [|by apply elem_of_nil in Hsrc].
  apply list_elem_of_fmap in Hsrc as (r1' & [= -> -> ->] & Hr1).
  apply inject_ok in Hinj as (Hc1 & Hc2 & HF).
  destruct (Forall2_elem_of_r _ _ _ _ HF Hr1) as (r0 & Hr0 & Ha & Hb).
  exists p', t, tr0, r0. repeat split; [done..| |].
  - intros c Hc Hnot. destruct (Hk c) as [_ ->]; [by apply Hc1|]. by apply Ha.
  - intros col key Hin Hsc. destruct (Hk col) as [_ ->].
    + apply Hc2. apply list_elem_of_fmap. by exists (col, key).
    + by apply Hb.
Qed.

(** C4.  In the dataset-users and dataset-sources aggregations, whatever
    the datasets table: every event of the run (so every request) belongs
    to the loop pass of a dataset of the table whose name is a string
    without ["Usage Metrics"] in it, and every row of the result holds
    such a name under [datasetName].  A dataset whose name contains
    ["Usage Metrics"] is gone before the loop starts. *)
Theorem usage_metrics_datasets_skipped (E : Env) (op : bulk_op)
    (df_datasets : DataFrame) :
  op = All_dataset_users ∨ op = All_dataset_sources →
  (∀ ev, ev ∈ snd (bulk_of E op df_datasets) →
     ∃ dataset s,
       dataset ∈ iterrows df_datasets ∧
       cell (cells dataset) "name" = VStr s ∧
       contains "Usage Metrics" s = false ∧
       ev ∈ step_trace E (fetch_of E op) (context_of op) (what_of op)
              (id_key_of op) dataset) ∧
  (∀ out r, fst (bulk_of E op df_datasets) = Ok out → r ∈ rows out →
     ∃ dataset s,
       dataset ∈ iterrows df_datasets ∧
       cell (cells dataset) "name" = VStr s ∧
       contains "Usage Metrics" s = false ∧
       cell r "datasetName" = VStr s).
Proof.
  intros Hop. rewrite bulk_of_eq.
  assert (Hpre : prefilter op df_datasets = drop_usage_metrics df_datasets)
    by (by destruct Hop as [-> | ->]).
  assert (Hctx : context_of op = dataset_context) by (by destruct Hop as [-> | ->]).
  rewrite Hpre.
  destruct (drop_usage_metrics_spec df_datasets) as [[e He]|(kept & Hk & Hkept)].
  - rewrite He. simpl. split.
    + intros ev H. by apply elem_of_nil in H.
    + done.
  - rewrite Hk, bind_ok_nil. split.
    + intros ev Hev. apply for_rows_events in Hev as (p & Hp & Hev).
      destruct (Hkept p Hp) as (Hin & s & Hs & Hum). by exists p, s.
    + intros out r Hfst Hr.
      destruct (fan_out E kept _ _ _ _) as [res tr] eqn:Hrun. simpl in Hfst. subst res.
      destruct (fan_out_row_origin _ _ _ _ _ _ _ _ _ (context_of_nodup op) Hrun Hr)
        as (p & t & tr0 & r0 & Hp & _ & _ & _ & Hid).
      destruct (Hkept p Hp) as (Hin & s & Hs & Hum). exists p, s.
      repeat split; [done..|].
      rewrite <- Hs. apply Hid; [|by rewrite Hs].
      rewrite Hctx. apply elem_of_cons. right. apply elem_of_cons. by left.
Qed.


(** ** Context injection *)

Lemma inject_scalar_eq E context parent : ∀ df,
  well_typed context parent →
  inject E context parent df =
    (Ok (mk_df (labelled context (columns df)) (writes context parent <$> rows df)), []).
Proof.
  unfold well_typed.
  induction context as [|[col key] rest IH]; intros df Hwt.
  - simpl. rewrite list_fmap_id. by destruct df.
  - apply Forall_cons in Hwt as [[Hkey Hsc] Hwt]. simpl in Hkey, Hsc.
    cbn [inject]. unfold series_getitem.
    rewrite bool_decide_true by done. rewrite bind_ret_l.
    rewrite setitem_scalar by done. rewrite bind_ok_nil.
    rewrite (IH _ Hwt). simpl. by rewrite <- list_fmap_compose.
Qed.

Lemma writes_lookup context parent : ∀ r c,
  writes context parent r !! c =
  match last_write context parent c with
  | Some v => Some v
  | None => r !! c
  end.
Proof.
  unfold writes. induction context as [|[col key] rest IH]; intros r c; [done|].
  simpl. rewrite IH. destruct (last_write rest parent c); [done|].
  case_bool_decide as Hc.
  - subst. apply lookup_insert_eq.
  - by apply lookup_insert_ne.
Qed.

Lemma writes_idempotent context parent r :
  writes context parent (writes context parent r) = writes context parent r.
Proof.
  apply map_eq. intros c. rewrite !writes_lookup.
  by destruct (last_write context parent c).
Qed.

Lemma labelled_keeps context : ∀ cols c, c ∈ cols → c ∈ labelled context cols.
Proof.
  unfold labelled. induction context as [|ck rest IH]; intros cols c Hc; [done|].
  simpl. apply IH. by apply add_label_keeps.
Qed.

Lemma labelled_has context : ∀ cols ck, ck ∈ context → ck.1 ∈ labelled context cols.
Proof.
  induction context as [|ck' rest IH]; intros cols ck Hin.
  - by apply elem_of_nil in Hin.
  - apply elem_of_cons in Hin as [->|Hin].
    + apply (labelled_keeps rest). apply add_label_same.
    + by apply (IH (add_label cols ck'.1)).
Qed.

Lemma labelled_fixed context : ∀ cols,
  (∀ ck, ck ∈ context → ck.1 ∈ cols) → labelled context cols = cols.
Proof.
  unfold labelled. induction context as [|ck rest IH]; intros cols Hall; [done|].
  simpl. unfold add_label at 2. rewrite bool_decide_true.
  - apply IH. intros ck' Hin. apply Hall. apply elem_of_cons. by right.
  - apply Hall. apply elem_of_cons. by left.
Qed.

(** C9.  The context assignments of a loop body are idempotent: for a
    parent that holds a scalar under each column they read, they go
    through on any frame, and applied again to the frame they produced --
    which already has the context columns, with the same values -- they
    give that frame back. *)
Theorem inject_idempotent (E : Env) (context : list (string * string))
    (parent : Series) (df : DataFrame) :
  well_typed context parent →
  ∃ df1,
    inject E context parent df = (Ok df1, []) ∧
    inject E context parent df1 = (Ok df1, []).
Proof.
  intros Hwt. eexists. split; [by apply inject_scalar_eq|].
  rewrite inject_scalar_eq by done. simpl.
  assert (Hc : labelled context (labelled context (columns df)) =
               labelled context (columns df)).
  { apply labelled_fixed. intros ck Hin. by apply labelled_has. }
  assert (Hr : writes context parent <$> (writes context parent <$> rows df) =
               writes context parent <$> rows df).
  { rewrite <- list_fmap_compose. apply list_fmap_ext.
    intros i r _. simpl. apply writes_idempotent. }
  by rewrite Hc, Hr.
Qed.

(** ** The empty parent collection *)

(** C3, on the code.  When the service lists no workspace (so that
    [get_all_workspaces], and with it [get_all_datasets], comes back with
    the empty frame), ten of the bulk methods return the empty frame, but
    the three with a filtering pre-pass raise [KeyError]: the frame
    [pd.DataFrame()] has no [isRefreshable] and no [name] column to
    filter on. *)
Theorem empty_parent_collection (E : Env) (tr : list event) :
  get_all_workspaces E = (Ok no_frame, tr) →
  get_all_datasets E = (Ok no_frame, tr) ∧
  get_all_dataset_refresh_history E = (Raise (KeyError "isRefreshable"), tr) ∧
  get_all_dataset_users E = (Raise (KeyError "name"), tr) ∧
  get_all_dataset_sources E = (Raise (KeyError "name"), tr) ∧
  ∀ op, op ≠ All_dataset_refresh_history → op ≠ All_dataset_users →
        op ≠ All_dataset_sources → bulk E op = (Ok no_frame, tr).
Proof.
  intros Hw.
  assert (Hd : get_all_datasets E = (Ok no_frame, tr)).
  { unfold get_all_datasets. rewrite (bind_ok _ _ _ _ Hw). simpl. by rewrite app_nil_r. }
  assert (Hf : get_all_dataflows E = (Ok no_frame, tr)).
  { unfold get_all_dataflows. rewrite (bind_ok _ _ _ _ Hw). simpl. by rewrite app_nil_r. }
  assert (Hr : get_all_reports E = (Ok no_frame, tr)).
  { unfold get_all_reports. rewrite (bind_ok _ _ _ _ Hw). simpl. by rewrite app_nil_r. }
  split; [done|]. split; [|split; [|split]].
  - unfold get_all_dataset_refresh_history. rewrite (bind_ok _ _ _ _ Hd).
    simpl. by rewrite app_nil_r.
  - unfold get_all_dataset_users. rewrite (bind_ok _ _ _ _ Hd).
    simpl. by rewrite app_nil_r.
  - unfold get_all_dataset_sources. rewrite (bind_ok _ _ _ _ Hd).
    simpl. by rewrite app_nil_r.
  - intros op H1 H2 H3. destruct op; try done; simpl;
      unfold get_all_dataflow_refresh_history, get_all_dataflow_sources,
        get_all_report_sources, get_all_dataset_tables, get_all_dataset_columns,
        get_all_dataset_measures, get_all_dataset_calc_dependencies;
      rewrite ?(bind_ok _ _ _ _ Hd), ?(bind_ok _ _ _ _ Hf), ?(bind_ok _ _ _ _ Hr);
      simpl; by rewrite app_nil_r.
Qed.

(** ** The calls with one argument *)

(** [get_all_datasets], [get_all_dataflows] and [get_all_reports] call a
    two-parameter point query with the workspace id alone: every pass
    raises [TypeError] and is caught, so over any workspaces table with an
    [id] column they return the empty frame. *)
Lemma one_argument_calls_fill_nothing E op parents :
  op = All_datasets ∨ op = All_dataflows ∨ op = All_reports →
  "id" ∈ columns parents →
  ∃ tr, bulk_of E op parents = (Ok no_frame, tr).
Proof.
  intros Hop Hid. rewrite bulk_of_eq.
  assert (Hpre : prefilter op parents = ret parents)
    by (by destruct Hop as [-> | [-> | ->]]).
  rewrite Hpre, bind_ret_l.
  assert (Hkey : id_key_of op = "id") by (by destruct Hop as [-> | [-> | ->]]).
  assert (Hnone : ∀ p, p ∈ iterrows parents →
            step_escape E (fetch_of E op) (context_of op) (what_of op) (id_key_of op) p = None ∧
            contribution E (fetch_of E op) (context_of op) p = None).
  { intros p (r & -> & _)%list_elem_of_fmap.
    unfold step_escape, contribution, fan_out_step, try_except. rewrite Hkey.
    destruct Hop as [-> | [-> | ->]]; simpl; unfold per_workspace, series_getitem; simpl;
      rewrite !bool_decide_true by done; by simpl. }
  unfold fan_out. rewrite for_rows_total.
  - eexists. f_equal. f_equal.
    induction (iterrows parents) as [|p ps IH]; [done|]. simpl.
    unfold add at 2. destruct (Hnone p) as [_ ->]; [apply elem_of_cons; by left|].
    apply IH. intros p' Hp'. apply Hnone. apply elem_of_cons. by right.
  - apply Forall_forall. intros p Hp. by destruct (Hnone p Hp).
Qed.

(** ** Authentication and the requests of a point query *)

Lemma requests_of_app tr1 tr2 :
  requests_of (tr1 ++ tr2) = requests_of tr1 ++ requests_of tr2.
Proof. apply bind_app. Qed.

Lemma quiet_nil {A} (m : M A) : snd m = [] → quiet m.
Proof. unfold quiet. by intros ->. Qed.

Lemma quiet_bind {A B} (m : M A) (k : A → M B) :
  quiet m → (∀ a, quiet (k a)) → quiet (bind m k).
Proof.
  unfold quiet. destruct m as [[a|e] tr]; simpl; [|done].
  intros Hm Hk. specialize (Hk a). destruct (k a) as [r tr']. simpl in *.
  by rewrite requests_of_app, Hm, Hk.
Qed.

Lemma json_trace r : snd (json r) = [].
Proof. unfold json. by destruct (payload r). Qed.

Lemma subscript_trace v key : snd (subscript v key) = [].
Proof. destruct v; simpl; try done. by destruct (dict_get _ _). Qed.

Lemma subscript0_trace v : snd (subscript0 v) = [].
Proof. destruct v as [| | | | |[|a s]|[|x l]| |]; done. Qed.

Lemma get_or_trace v key dflt : snd (get_or v key dflt) = [].
Proof. by destruct v. Qed.

Lemma pd_DataFrame_trace E v : snd (pd_DataFrame E v) = [].
Proof. destruct v; simpl; try done. by destruct (mapM _ _). Qed.

Lemma getitem_trace df c : snd (getitem df c) = [].
Proof. unfold getitem. by case_bool_decide. Qed.

(** What [extract_connection_details] returns and what it prints. *)
Lemma extract_connection_details_eq E x :
  extract_connection_details E x =
    (Ok (match parsed_dict E x with Some d => details_of E d | None => no_details end),
     match x with
     | VStr s =>
         match literal_eval E s with
         | Ok (VObj _) => []
         | Ok _ => [EvPrint ("Error parsing connectionDetails: " +:+
                       str_exn E (AttributeError "object has no attribute 'get'"))]
         | Raise e => [EvPrint ("Error parsing connectionDetails: " +:+ str_exn E e)]
         end
     | _ => []
     end).
Proof.
  unfold extract_connection_details, parsed_dict.
  destruct x as [| | | | |s| |d|]; simpl; try done.
  by destruct (literal_eval E s) as [[| | | | | | |d|]|e].
Qed.

Lemma extract_connection_details_quiet E x : quiet (extract_connection_details E x).
Proof.
  unfold quiet. rewrite extract_connection_details_eq. simpl.
  destruct x as [| | | | |s| |d|]; try done.
  by destruct (literal_eval E s) as [[| | | | | | |d|]|e].
Qed.

Lemma for_each_quiet {A B} (f : A → M B) l :
  (∀ x, quiet (f x)) → quiet (for_each f l).
Proof.
  intros Hf. induction l as [|x l IH]; [done|]. simpl.
  apply quiet_bind; [done|]. intros y. apply quiet_bind; [done|]. by intros ys.
Qed.

Lemma on_200_quiet E q r : quiet (on_200 E q r).
Proof.
  assert (Hj : quiet (json r)) by apply quiet_nil, json_trace.
  assert (Hs : ∀ v key, quiet (subscript v key))
    by (intros; apply quiet_nil, subscript_trace).
  assert (Hs0 : ∀ v, quiet (subscript0 v))
    by (intros; apply quiet_nil, subscript0_trace).
  assert (Hpd : ∀ v, quiet (pd_DataFrame E v))
    by (intros; apply quiet_nil, pd_DataFrame_trace).
  assert (Hget : ∀ df c, quiet (getitem df c))
    by (intros; apply quiet_nil, getitem_trace).
  destruct q; simpl;
    unfold object_frame, listing_frame, sources_frame, info_frame, workspaces_frame,
      gateway_listing_frame, info_rows, apply_connection_details, ids_as_str;
    repeat first
      [ done
      | apply quiet_bind; [|intros ?]
      | apply quiet_nil, get_or_trace
      | apply for_each_quiet, extract_connection_details_quiet
      | match goal with |- quiet (if ?b then _ else _) => destruct b end ].
Qed.

Lemma get_header_requests E :
  requests_of (snd (get_header E)) = [token_request E].
Proof.
  unfold get_header, get_token, requests_post. fold (token_request E).
  unfold send. simpl.
  destruct (http E (token_request E)) as [e|r]; simpl; [done|].
  unfold json. destruct (payload r) as [v|]; simpl; [|done].
  destruct v; simpl; try done. by destruct (dict_get _ _).
Qed.

Lemma run_query_requests E q headers tr0 :
  get_header E = (Ok headers, tr0) →
  requests_of (snd (run_query E q)) = [token_request E; query_request E q headers].
Proof.
  intros Hhd. rewrite run_query_anatomy. pose proof (get_header_requests E) as Hh.
  rewrite Hhd in *. simpl in *. unfold send. simpl.
  destruct (http E (query_request E q headers)) as [e|r]; simpl.
  - by rewrite requests_of_app, Hh.
  - pose proof (on_200_quiet E q r) as Hq. unfold quiet in Hq.
    case_bool_decide; simpl.
    + destruct (on_200 E q r) as [res tr]. simpl in *.
      rewrite requests_of_app, Hh. simpl. by rewrite Hq.
    + by rewrite requests_of_app, Hh.
Qed.

(** X1.  Every point query authenticates anew: the first request of its
    run is the token request.  Holding the headers it sends exactly one
    more request, its own, whatever it then makes of the reply; when the
    headers cannot be had it raises what [get_header] raised and its own
    request is never sent. *)
Theorem point_query_requests (E : Env) (q : point_query) :
  match get_header E with
  | (Ok headers, _) =>
      requests_of (snd (run_query E q)) =
        [token_request E; query_request E q headers]
  | (Raise e, tr) =>
      run_query E q = (Raise e, tr) ∧ requests_of tr = [token_request E]
  end.
Proof.
  pose proof (get_header_requests E) as Hh.
  destruct (get_header E) as [[headers|e] tr0] eqn:Hhd.
  - by apply (run_query_requests E q headers tr0).
  - split; [|done]. rewrite run_query_anatomy. by apply bind_raise.
Qed.

(** X2.  [get_token] never looks at the status of the token reply: when
    the reply is a JSON object the run is decided by its [access_token]
    entry alone.  With the entry, [get_header] records the token and
    hands back the bearer header; without it (the body of a refusal, say)
    [get_header] raises [KeyError], and so does every point query, having
    sent nothing but the token request. *)
Theorem token_reply_decides_header (E : Env) (r : response)
    (d : list (string * value)) :
  http E (token_request E) = Reply r →
  payload r = Some (VObj d) →
  match dict_get d "access_token" with
  | Some token =>
      get_header E =
        (Ok [("Content-Type", "application/json");
             ("Authorization", "Bearer " +:+ fmt E token)],
         [EvRequest (token_request E); EvSetToken token])
  | None =>
      get_header E = (Raise (KeyError "access_token"), [EvRequest (token_request E)]) ∧
      ∀ q, run_query E q =
             (Raise (KeyError "access_token"), [EvRequest (token_request E)])
  end.
Proof.
  intros Hr Hp.
  assert (Hh : get_header E =
    match dict_get d "access_token" with
    | Some token =>
        (Ok [("Content-Type", "application/json");
             ("Authorization", "Bearer " +:+ fmt E token)],
         [EvRequest (token_request E); EvSetToken token])
    | None => (Raise (KeyError "access_token"), [EvRequest (token_request E)])
    end).
  { unfold get_header, get_token, requests_post. fold (token_request E).
    unfold send. simpl. rewrite Hr. simpl. unfold json. rewrite Hp. simpl.
    by destruct (dict_get d "access_token"). }
  destruct (dict_get d "access_token") as [token|]; [done|].
  split; [done|]. intros q. rewrite run_query_anatomy. by apply bind_raise.
Qed.

(** X3.  A reply with status 200 whose body is not JSON makes every
    point query raise [JSONDecodeError]: the status is checked, the body
    is not. *)
Theorem body_not_json_raises (E : Env) (q : point_query) headers tr0 r :
  get_header E = (Ok headers, tr0) →
  http E (query_request E q headers) = Reply r →
  status_code r = 200 →
  payload r = None →
  run_query E q =
    (Raise JSONDecodeError, tr0 ++ [EvRequest (query_request E q headers)]).
Proof.
  intros Hh Hr Hs Hp. rewrite run_query_anatomy.
  rewrite (bind_ok _ _ _ _ Hh), (bind_ok _ _ _ _ (send_reply _ _ _ Hr)).
  rewrite bool_decide_true by done.
  destruct q; simpl;
    unfold object_frame, listing_frame, sources_frame, info_frame, workspaces_frame,
      gateway_listing_frame, json; rewrite Hp; simpl; by rewrite ?app_nil_r.
Qed.

(** ** extract_connection_details, continued *)

(** X4.  [extract_connection_details] prints exactly when it is given a
    [str] that does not parse to a [dict], and then one line, made from
    the exception it caught; on a [dict], on a [str] that parses to one,
    and on anything else ([None], a number, NaN) it prints nothing. *)
Theorem extract_connection_details_prints (E : Env) (x : value) :
  (is_str x = true ∧ parsed_dict E x = None ∧
   ∃ e, snd (extract_connection_details E x) =
          [EvPrint ("Error parsing connectionDetails: " +:+ str_exn E e)]) ∨
  ((is_str x = false ∨ is_Some (parsed_dict E x)) ∧
   snd (extract_connection_details E x) = []).
Proof.
  rewrite extract_connection_details_eq. unfold parsed_dict. simpl.
  destruct x as [| | | | |s| |d|]; simpl; try (right; split; [by left|done]).
  - destruct (literal_eval E s) as [[| | | | | | |d|]|e];
      try (left; split; [done|split; [done|by eexists]]).
    right. split; [right; by eexists|done].
Qed.

(** ** Column names, continued *)

Lemma delete_char_absent c s : has_char c s = false → delete_char c s = s.
Proof.
  induction s as [|a s IH]; [done|]. simpl.
  intros [Ha Hs]%orb_false_iff. rewrite Ha. by rewrite IH.
Qed.

(** X5.  Stripping the brackets changes a column name exactly when it
    holds one, and stripping twice is stripping once. *)
Theorem strip_brackets_fixed_points (col : string) :
  (strip_brackets col = col ↔
   has_char "[" col = false ∧ has_char "]" col = false) ∧
  strip_brackets (strip_brackets col) = strip_brackets col.
Proof.
  assert (Hfix : ∀ c, has_char "[" c = false ∧ has_char "]" c = false →
                      strip_brackets c = c).
  { intros c [H1 H2]. unfold strip_brackets.
    rewrite (delete_char_absent _ _ H1). by apply delete_char_absent. }
  split; [split|].
  - intros <-. apply strip_brackets_clean.
  - apply Hfix.
  - apply Hfix, strip_brackets_clean.
Qed.

(** ** Frames from records *)

Lemma run_query_200 E q headers tr0 r :
  get_header E = (Ok headers, tr0) →
  http E (query_request E q headers) = Reply r →
  status_code r = 200 →
  run_query E q =
    (fst (on_200 E q r),
     tr0 ++ [EvRequest (query_request E q headers)] ++ snd (on_200 E q r)).
Proof.
  intros Hh Hr Hs. rewrite run_query_anatomy.
  rewrite (bind_ok _ _ _ _ Hh), (bind_ok _ _ _ _ (send_reply _ _ _ Hr)).
  by rewrite bool_decide_true.
Qed.

Lemma elem_of_merge_labels acc new c :
  c ∈ merge_labels acc new ↔ c ∈ acc ∨ c ∈ new.
Proof.
  split; [|intros [?|?]; [by apply merge_labels_l|by apply merge_labels_r]].
  unfold merge_labels. revert acc.
  induction new as [|x new IH]; intros acc; simpl; [by left|].
  intros [Hc|Hc]%IH.
  - case_bool_decide; [by left|].
    apply elem_of_app in Hc as [?|Hx%list_elem_of_singleton]; [by left|].
    subst. right. apply elem_of_cons. by left.
  - right. apply elem_of_cons. by right.
Qed.

Lemma elem_of_record_labels recs c :
  c ∈ record_labels recs ↔ ∃ rec, rec ∈ recs ∧ c ∈ rec.*1.
Proof.
  unfold record_labels.
  assert (H : ∀ acc, c ∈ foldl (λ acc rec, merge_labels acc rec.*1) acc recs ↔
                     c ∈ acc ∨ ∃ rec : list (string * value), rec ∈ recs ∧ c ∈ rec.*1).
  { induction recs as [|rec recs IH]; intros acc; simpl.
    - split; [by left|]. intros [?|(rec & Hin & _)]; [done|].
      by apply elem_of_nil in Hin.
    - rewrite IH, elem_of_merge_labels. split.
      + intros [[?|?]|(rec' & ? & ?)]; [by left| |].
        * right. exists rec. split; [apply elem_of_cons; by left|done].
        * right. exists rec'. split; [apply elem_of_cons; by right|done].
      + intros [?|(rec' & [Hx|?]%elem_of_cons & ?)]; [by left; left| |].
        * subst. by left; right.
        * right. by exists rec'. }
  rewrite H. split; [|by right]. intros [Hc|?]; [|done]. by apply elem_of_nil in Hc.
Qed.

Lemma dict_get_is_Some (d : list (string * value)) k :
  is_Some (dict_get d k) ↔ k ∈ d.*1.
Proof.
  induction d as [|[k' v] d IH]; simpl.
  - split; [by intros [? ?]|]. intros H. by apply elem_of_nil in H.
  - case_bool_decide as Hk.
    + subst. split; [|by eexists]. intros _. apply elem_of_cons. by left.
    + rewrite IH. split; [intros; apply elem_of_cons; by right|].
      intros [?|?]%elem_of_cons; [congruence|done].
Qed.

Lemma list_to_map_dict_get (rec : list (string * value)) c :
  (list_to_map rec : gmap string value) !! c = dict_get rec c.
Proof.
  induction rec as [|[k v] rec IH]; simpl; [done|].
  case_bool_decide as Hk.
  - subst. apply lookup_insert_eq.
  - by rewrite lookup_insert_ne.
Qed.

(** [pd.DataFrame(records)] has a row per record, in order, holding the
    record's entries, and [NaN] where the record lacks the label. *)
Lemma from_records_rows recs :
  Forall2 (λ rec row, ∀ c, c ∈ record_labels recs →
                        cell row c = default VNaN (dict_get rec c))
          recs (rows (from_records recs)).
Proof.
  unfold from_records. simpl.
  apply Forall2_fmap_r, Forall_Forall2_diag, Forall_forall.
  intros rec _ c Hc. rewrite cell_reindex by done.
  unfold cell. by rewrite list_to_map_dict_get.
Qed.

Lemma from_records_empty recs :
  DataFrame_empty (from_records recs) = bool_decide (record_labels recs = []).
Proof.
  unfold DataFrame_empty, from_records. simpl.
  destruct recs as [|rec recs]; [done|]. simpl.
  by rewrite orb_false_r.
Qed.

Lemma cell_foldr_insert (f : string → value) cols c :
  c ∈ cols → cell (foldr (λ c m, <[c := f c]> m) ∅ cols) c = f c.
Proof.
  induction cols as [|x cols IH]; intros Hc.
  - by apply elem_of_nil in Hc.
  - simpl. destruct (decide (x = c)) as [->|Hne].
    + apply cell_insert_same.
    + rewrite cell_insert_other by done. apply IH.
      apply elem_of_cons in Hc as [?|?]; [congruence|done].
Qed.

(** Every cell of a frame whose dtypes were inferred is the cell it was
    given, as its column stores it. *)
Lemma infer_dtypes_rows E df :
  Forall2 (λ r r', ∀ c, c ∈ columns df →
                     cell r' c = stored E (column_cells df c) (cell r c))
          (rows df) (rows (infer_dtypes E df)).
Proof.
  unfold infer_dtypes. simpl.
  apply Forall2_fmap_r, Forall_Forall2_diag, Forall_forall.
  intros r _ c Hc.
  by rewrite (cell_foldr_insert (λ c, stored E (column_cells df c) (cell r c))).
Qed.

Lemma Forall2_fmap_eq {A B C} (f : A → C) (g : B → C) l k :
  Forall2 (λ a b, f a = g b) l k → f <$> l = g <$> k.
Proof.
  induction 1 as [|a b l k Hab _ IH]; [done|]. cbn [fmap list_fmap].
  f_equal; done.
Qed.

Lemma Forall2_and_l {A B} (P : A → B → Prop) (Q : A → Prop) l k :
  Forall2 P l k → Forall Q l → Forall2 (λ a b, P a b ∧ Q a) l k.
Proof.
  induction 1 as [|a b l k Hab _ IH]; intros HQ; [constructor|].
  apply Forall_cons in HQ as [Ha HQ]. constructor; auto.
Qed.

Lemma from_records_column recs c :
  c ∈ record_labels recs → column_cells (from_records recs) c = decoded_column recs c.
Proof.
  intros Hc. unfold column_cells, decoded_column. symmetry.
  apply Forall2_fmap_eq. eapply Forall2_impl; [apply from_records_rows|].
  intros rec row Hrow. simpl. by rewrite Hrow.
Qed.

(** [pd.DataFrame(records)] has a row per record, in order, holding under
    each label the record's entry, or NaN, as the column stores it. *)
Lemma records_frame_rows E recs :
  Forall2 (λ rec row, ∀ c, c ∈ record_labels recs →
                        cell row c = listing_cell E recs rec c)
          recs (rows (infer_dtypes E (from_records recs))).
Proof.
  eapply Forall2_compose; [|apply from_records_rows|apply infer_dtypes_rows].
  intros rec r r' H1 H2 c Hc. simpl in *.
  rewrite H2 by done. rewrite from_records_column by done.
  unfold listing_cell. by rewrite H1.
Qed.

(** X6.  The metadata fetchers, answered 200 with a JSON object, return
    a frame of exactly one row: its columns are the keys of the object
    and its cells the entries.  The object without any key gives a row
    without a column, a frame pandas reports [empty]. *)
Theorem object_fetchers_one_row (E : Env) (q : point_query) headers tr0 r d :
  object_query q = true →
  get_header E = (Ok headers, tr0) →
  http E (query_request E q headers) = Reply r →
  status_code r = 200 →
  payload r = Some (VObj d) →
  ∃ df row,
    run_query E q = (Ok df, tr0 ++ [EvRequest (query_request E q headers)]) ∧
    rows df = [row] ∧
    (∀ k, k ∈ columns df ↔ is_Some (dict_get d k)) ∧
    (∀ k v, dict_get d k = Some v → cell row k = v) ∧
    (DataFrame_empty df = true ↔ d = []).
Proof.
  intros Hq Hh Hr Hs Hp. rewrite (run_query_200 _ _ _ _ _ Hh Hr Hs).
  assert (Hon : on_200 E q r = (Ok (infer_dtypes E (from_records [d])), [])).
  { destruct q; try discriminate Hq; simpl; unfold object_frame, json;
      by rewrite Hp. }
  rewrite Hon. simpl. rewrite ?app_nil_r.
  assert (Hcols : ∀ k, k ∈ record_labels [d] ↔ is_Some (dict_get d k)).
  { intros k. rewrite elem_of_record_labels, dict_get_is_Some. split.
    - intros (rec & Hx%list_elem_of_singleton & ?). by subst.
    - intros. exists d. split; [by apply list_elem_of_singleton|done]. }
  eexists _, _. split; [done|]. split; [done|]. split; [exact Hcols|]. split.
  - intros k v Hk. pose proof (records_frame_rows E [d]) as HF.
    apply Forall2_cons_1 in HF as [HF _]. rewrite HF.
    + unfold listing_cell, decoded_column. simpl. rewrite Hk. simpl.
      apply stored_singleton.
    + apply Hcols. by eexists.
  - rewrite infer_dtypes_empty, from_records_empty. rewrite bool_decide_eq_true. split.
    + intros Hnil. destruct d as [|[k v] d]; [done|].
      assert (Hin : k ∈ record_labels [(k, v) :: d]).
      { apply Hcols. simpl. rewrite bool_decide_true by done. by eexists. }
      rewrite Hnil in Hin. by apply elem_of_nil in Hin.
    + by intros ->.
Qed.

(** X7.  The listing fetchers that frame the [value] array as it is (the
    refresh histories and user listings of client.py, the listings of
    gateway_client.py), answered 200 with an array of JSON objects,
    return one row per object, in order.  The columns are the keys that
    occur in some object, and a row holds under each its object's entry,
    NaN where the object has none, as the dtype inferred for the column
    stores it: as it was decoded, unless it is a null, in a column that
    is not one of numbers with a float, a gap or a null among them; and
    in such a column of numbers (integers within 64 bits, floats), not
    all of it null, an integer as the float of that integer and a null
    as NaN. *)
Theorem listing_rows (E : Env) (q : point_query) headers tr0 r d items recs :
  plain_listing q = true ∨ gateway_listing_query q = true →
  get_header E = (Ok headers, tr0) →
  http E (query_request E q headers) = Reply r →
  status_code r = 200 →
  payload r = Some (VObj d) →
  dict_get d "value" = Some (VArr items) →
  mapM as_record items = Some recs →
  ∃ df,
    run_query E q = (Ok df, tr0 ++ [EvRequest (query_request E q headers)]) ∧
    (∀ c, c ∈ columns df ↔ ∃ rec, rec ∈ recs ∧ is_Some (dict_get rec c)) ∧
    Forall2 (λ rec row, ∀ c, c ∈ columns df →
               cell row c = listing_cell E recs rec c ∧
               (forallb numeric_or_missing (decoded_column recs c) &&
                  existsb forces_float (decoded_column recs c) = false →
                default VNaN (dict_get rec c) ≠ VNone →
                cell row c = default VNaN (dict_get rec c)) ∧
               (forallb is_None (decoded_column recs c) = false →
                forallb numeric_or_missing (decoded_column recs c) = true →
                existsb forces_float (decoded_column recs c) = true →
                forallb in_int64 (decoded_column recs c) = true →
                cell row c = as_float E (default VNaN (dict_get rec c))))
            recs (rows df).
Proof.
  intros Hq Hh Hr Hs Hp Hv Hrecs. rewrite (run_query_200 _ _ _ _ _ Hh Hr Hs).
  assert (Hon : on_200 E q r = (Ok (infer_dtypes E (from_records recs)), [])).
  { destruct Hq as [Hq|Hq]; destruct q; try discriminate Hq; simpl;
      unfold listing_frame, gateway_listing_frame, json; rewrite Hp; simpl;
      rewrite Hv; simpl; by rewrite Hrecs. }
  rewrite Hon. simpl. rewrite ?app_nil_r.
  eexists. split; [done|]. split.
  { intros c. simpl. rewrite elem_of_record_labels.
    by setoid_rewrite dict_get_is_Some. }
  assert (Hmem : Forall (λ rec, ∀ c, default VNaN (dict_get rec c) ∈ decoded_column recs c)
                        recs).
  { apply Forall_forall. intros rec Hrec c. unfold decoded_column.
    apply list_elem_of_fmap. by exists rec. }
  eapply Forall2_impl;
    [exact (Forall2_and_l _ _ _ _ (records_frame_rows E recs) Hmem)|].
  intros rec row [Hrow Hin] c Hc. simpl in *.
  rewrite (Hrow c Hc). unfold listing_cell. split; [done|]. split.
  - intros H1 H2. by apply stored_not_None.
  - intros H0 H1 H2 H3. by apply stored_float64.
Qed.

(** ** get_all_workspaces *)

Lemma set_cells_fmap c rs (g : gmap string value → value) :
  Forall2 (λ r0 r', cell r' c = g r0 ∧ ∀ c', c ≠ c' → cell r' c' = cell r0 c')
          rs (set_cells c rs (g <$> rs)).
Proof.
  induction rs as [|r rs IH]; simpl; constructor; [|done]. split.
  - apply cell_insert_same.
  - intros c' Hne. by apply cell_insert_other.
Qed.

Lemma forallb_false_elem {A} (f : A → bool) l x :
  x ∈ l → f x = false → forallb f l = false.
Proof.
  induction l as [|y l IH]; simpl; intros Hx Hf; [by apply elem_of_nil in Hx|].
  apply elem_of_cons in Hx as [->|Hx]; [by rewrite Hf|].
  rewrite (IH Hx Hf). apply andb_false_r.
Qed.

Lemma forallb_true_elem {A} (f : A → bool) l x :
  forallb f l = true → x ∈ l → f x = true.
Proof.
  induction l as [|y l IH]; simpl; intros Hl Hx; [by apply elem_of_nil in Hx|].
  apply andb_true_iff in Hl as [Hy Hl].
  apply elem_of_cons in Hx as [->|Hx]; [done|by apply IH].
Qed.

(** A column of strings is kept as it is. *)
Lemma stored_strings E vals v :
  forallb is_str vals = true → v ∈ vals → stored E vals v = v.
Proof.
  intros Hall Hv. pose proof (forallb_true_elem _ _ _ Hall Hv) as Hs.
  unfold stored.
  rewrite (forallb_false_elem is_None vals v Hv) by (by destruct v).
  rewrite (forallb_false_elem numeric_or_missing vals v Hv) by (by destruct v).
  by destruct v.
Qed.

(** X8.  [get_all_workspaces], answered 200 with workspace records of
    which at least one has an [id], returns one row per record with the
    records' columns.  Every [id] cell is what [astype(str)] makes of the
    id as the [id] column stores it -- so when every record has a string
    for its id, each id is kept as it is, while an integer id next to a
    record without one is stored as a float before it is turned into a
    string -- and every other cell is the record's entry as its column
    stores it.  When the records have keys but none has an [id], it
    raises [KeyError] instead. *)
Theorem workspace_ids_become_strings (E : Env) headers tr0 r d items recs :
  get_header E = (Ok headers, tr0) →
  http E (query_request E All_workspaces headers) = Reply r →
  status_code r = 200 →
  payload r = Some (VObj d) →
  dict_get d "value" = Some (VArr items) →
  mapM as_record items = Some recs →
  record_labels recs ≠ [] →
  if bool_decide ("id" ∈ record_labels recs) then
    ∃ df,
      get_all_workspaces E =
        (Ok df, tr0 ++ [EvRequest (query_request E All_workspaces headers)]) ∧
      columns df = record_labels recs ∧
      Forall2 (λ rec row,
                 cell row "id" = astype_str E (listing_cell E recs rec "id") ∧
                 (forallb is_str (decoded_column recs "id") = true →
                  cell row "id" = default VNaN (dict_get rec "id")) ∧
                 (forallb is_None (decoded_column recs "id") = false →
                  forallb numeric_or_missing (decoded_column recs "id") = true →
                  existsb forces_float (decoded_column recs "id") = true →
                  forallb in_int64 (decoded_column recs "id") = true →
                  cell row "id" =
                    astype_str E (as_float E (default VNaN (dict_get rec "id")))) ∧
                 ∀ c, c ∈ columns df → c ≠ "id" →
                      cell row c = listing_cell E recs rec c)
              recs (rows df)
  else
    get_all_workspaces E =
      (Raise (KeyError "id"),
       tr0 ++ [EvRequest (query_request E All_workspaces headers)]).
Proof.
  intros Hh Hr Hs Hp Hv Hrecs Hne.
  change (get_all_workspaces E) with (run_query E All_workspaces).
  rewrite (run_query_200 _ _ _ _ _ Hh Hr Hs).
  change (on_200 E All_workspaces r) with (workspaces_frame E r).
  assert (Hon : workspaces_frame E r =
                if bool_decide ("id" ∈ record_labels recs)
                then ids_as_str E (infer_dtypes E (from_records recs))
                else (Raise (KeyError "id"), [])).
  { unfold workspaces_frame, json. rewrite Hp, bind_ret_l.
    cbn [subscript]. rewrite Hv, bind_ret_l.
    cbn [pd_DataFrame]. rewrite Hrecs, bind_ret_l.
    rewrite infer_dtypes_empty, from_records_empty, bool_decide_false by done.
    cbn [negb].
    case_bool_decide as Hid; [done|].
    unfold ids_as_str, getitem. cbn [columns infer_dtypes from_records].
    by rewrite bool_decide_false. }
  rewrite Hon. case_bool_decide as Hid; [|done].
  unfold ids_as_str, getitem. cbn [columns infer_dtypes from_records].
  rewrite bool_decide_true by done. rewrite bind_ret_l. cbn [fst snd ret].
  rewrite app_nil_r.
  eexists. split; [done|]. split.
  - simpl. unfold add_label. by rewrite bool_decide_true.
  - cbn [rows assign_cells]. rewrite <- list_fmap_compose.
    assert (Hmem : Forall (λ rec, default VNaN (dict_get rec "id")
                                    ∈ decoded_column recs "id") recs).
    { apply Forall_forall. intros rec Hrec. unfold decoded_column.
      apply list_elem_of_fmap. by exists rec. }
    pose proof (Forall2_and_l _ _ _ _ (records_frame_rows E recs) Hmem) as HF.
    pose proof (set_cells_fmap "id" (rows (infer_dtypes E (from_records recs)))
                  (astype_str E ∘ (λ r0, cell r0 "id"))) as Hboth.
    eapply Forall2_compose; [|exact HF|exact Hboth].
    intros rec r0 r' [H0 Hin] [H1 H2]. simpl in *.
    assert (Hcell : cell r' "id" = astype_str E (listing_cell E recs rec "id"))
      by (by rewrite H1, H0).
    split; [done|]. split; [|split].
    + intros Hstr. rewrite Hcell. unfold listing_cell.
      rewrite stored_strings by done.
      pose proof (forallb_true_elem _ _ _ Hstr Hin) as Hisstr.
      by destruct (default VNaN (dict_get rec "id")).
    + intros Ha Hb Hc Hd. rewrite Hcell. unfold listing_cell.
      by rewrite stored_float64.
    + intros c Hc Hcid. rewrite H2 by done. apply H0.
      unfold add_label in Hc. by rewrite bool_decide_true in Hc.
Qed.

(** ** The data-source fetchers *)

Lemma for_each_extract E col :
  ∃ tr, for_each (extract_connection_details E) col = (Ok (details E <$> col), tr).
Proof.
  induction col as [|x col [tr IH]]; [by eexists|]. simpl.
  rewrite extract_connection_details_eq, IH. simpl. by eexists.
Qed.

Lemma field_details E x key :
  key ∈ details_columns → field (details E x) key = held_entry E x key.
Proof.
  unfold details_columns, details, held_entry, lookups_of, entry_or_None.
  intros Hkey.
  destruct (parsed_dict E x) as [d|];
    repeat (apply elem_of_cons in Hkey as [->|Hkey]);
    try (by apply elem_of_nil in Hkey); done.
Qed.

Lemma set_details_field r dd key :
  key ∈ details_columns → cell (set_details r dd) key = field dd key.
Proof.
  unfold details_columns, set_details, cell. intros Hkey.
  repeat (apply elem_of_cons in Hkey as [->|Hkey]);
    [..|by apply elem_of_nil in Hkey];
    rewrite ?(lookup_insert_ne (M := gmap string)) by done;
    by rewrite lookup_insert_eq.
Qed.

Lemma set_details_others r dd c :
  c ∉ details_columns → cell (set_details r dd) c = cell r c.
Proof.
  unfold details_columns, set_details. intros Hc.
  rewrite !cell_insert_other; [done|..]; intros <-; apply Hc;
    repeat first [apply elem_of_cons; by left | apply elem_of_cons; right].
Qed.

(** The frame [Series.apply] makes of the Series it got: each field as
    its column stores it. *)
Lemma frame_details_fields E ds :
  Forall2 (λ d d', ∀ key, key ∈ details_columns →
                     field d' key = stored E ((λ d0, field d0 key) <$> ds) (field d key))
          ds (frame_details E ds).
Proof.
  unfold frame_details. apply Forall2_fmap_r, Forall_Forall2_diag, Forall_forall.
  intros d _ key Hkey. unfold details_columns in Hkey.
  repeat (apply elem_of_cons in Hkey as [->|Hkey]);
    [..|by apply elem_of_nil in Hkey]; reflexivity.
Qed.

Lemma bind_ok_ret {A B} (a : A) tr (f : A → B) :
  bind (Ok a, tr) (λ x, ret (f x)) = (Ok (f a), tr).
Proof. simpl. by rewrite app_nil_r. Qed.

Lemma Forall2_zip_with {A B C D} (f : B → C → D)
    (P : A → B → Prop) (Q : A → C → Prop) l k m :
  Forall2 P l k → Forall2 Q l m →
  Forall2 (λ a d, ∃ b c, P a b ∧ Q a c ∧ d = f b c) l (zip_with f k m).
Proof.
  intros HP. revert m. induction HP as [|a b l k Hab _ IH]; intros m HQ;
    inversion HQ; subst; simpl; constructor; eauto.
Qed.

(** X9.  The data-source fetchers, answered 200 with records that have
    a [connectionDetails] column, return one row per record and five
    more columns.  Under each of [server], [database],
    [connectionString], [url], [path] a row holds the entry of its
    parsed connection details as stored twice over: by the Series
    [extract_connection_details] returned for the row, and by the
    column that [apply] stacks those Series into.  A detail that is
    absent for a row reads as missing, [None] or NaN.  Every other cell is
    the record's entry as its column stores it.  Records with keys but
    without [connectionDetails] make the fetcher raise [KeyError]. *)
Theorem sources_spread_connection_details (E : Env) (q : point_query)
    headers tr0 r d items recs :
  sources_query q = true →
  get_header E = (Ok headers, tr0) →
  http E (query_request E q headers) = Reply r →
  status_code r = 200 →
  payload r = Some (VObj d) →
  dict_get d "value" = Some (VArr items) →
  mapM as_record items = Some recs →
  record_labels recs ≠ [] →
  if bool_decide ("connectionDetails" ∈ record_labels recs) then
    ∃ df tr,
      run_query E q = (Ok df, tr) ∧
      requests_of tr = [token_request E; query_request E q headers] ∧
      columns df = merge_labels (record_labels recs) details_columns ∧
      Forall2 (λ rec row,
                 (∀ key, key ∈ details_columns →
                    cell row key = detail_cell E recs rec key ∧
                    (entry_or_None E (listing_cell E recs rec "connectionDetails") key
                       = VNone →
                     is_missing (cell row key) = true)) ∧
                 (∀ c, c ∈ record_labels recs → c ∉ details_columns →
                    cell row c = listing_cell E recs rec c))
              recs (rows df)
  else
    run_query E q =
      (Raise (KeyError "connectionDetails"),
       tr0 ++ [EvRequest (query_request E q headers)]).
Proof.
  intros Hq Hh Hr Hs Hp Hv Hrecs Hne.
  pose proof (run_query_requests E q _ _ Hh) as Hreq.
  rewrite (run_query_200 _ _ _ _ _ Hh Hr Hs) in *.
  set (df0 := infer_dtypes E (from_records recs)) in *.
  assert (Hon : on_200 E q r =
                if bool_decide ("connectionDetails" ∈ record_labels recs)
                then apply_connection_details E df0
                else (Raise (KeyError "connectionDetails"), [])).
  { assert (Hf : on_200 E q r = sources_frame E r)
      by (destruct q; try discriminate Hq; reflexivity).
    rewrite Hf. unfold sources_frame, json. rewrite Hp, bind_ret_l.
    cbn [subscript]. rewrite Hv, bind_ret_l.
    cbn [pd_DataFrame]. rewrite Hrecs, bind_ret_l. fold df0.
    unfold df0 at 1.
    rewrite infer_dtypes_empty, from_records_empty, bool_decide_false by done.
    cbn [negb].
    case_bool_decide as Hid; [done|].
    unfold apply_connection_details, getitem, df0.
    cbn [columns infer_dtypes from_records].
    by rewrite bool_decide_false. }
  rewrite Hon in *. case_bool_decide as Hid; [|by rewrite app_nil_r].
  unfold apply_connection_details, getitem in *.
  assert (Hcols : columns df0 = record_labels recs) by done.
  rewrite Hcols in *.
  rewrite bool_decide_true in * by done. rewrite bind_ret_l in *.
  destruct (for_each_extract E ((λ r0, cell r0 "connectionDetails") <$> rows df0))
    as [tr Hfor].
  rewrite Hfor in *. rewrite bind_ok_ret in *. cbn [fst snd] in *.
  eexists _, _. split; [done|]. split; [exact Hreq|]. split; [done|].
  cbn [rows].
  set (ds := details E <$> ((λ r0, cell r0 "connectionDetails") <$> rows df0)).
  pose proof (records_frame_rows E recs) as Hrows. fold df0 in Hrows.
  assert (Hds : Forall2 (λ rec dd, ∀ key, key ∈ details_columns →
                  field dd key =
                    held_entry E (listing_cell E recs rec "connectionDetails") key)
                  recs ds).
  { unfold ds. rewrite <- list_fmap_compose. apply Forall2_fmap_r.
    eapply Forall2_impl; [exact Hrows|]. intros rec row Hrow key Hkey. simpl.
    rewrite field_details by done. by rewrite (Hrow _ Hid). }
  assert (Hcol : ∀ key, key ∈ details_columns →
            (λ d0, field d0 key) <$> ds =
            (λ rec', held_entry E (listing_cell E recs rec' "connectionDetails") key)
              <$> recs).
  { intros key Hkey. symmetry. apply Forall2_fmap_eq.
    eapply Forall2_impl; [exact Hds|]. intros rec dd Hdd. simpl.
    by rewrite (Hdd key Hkey). }
  assert (Hframed : Forall2 (λ rec dd', ∀ key, key ∈ details_columns →
                      field dd' key = detail_cell E recs rec key)
                      recs (frame_details E ds)).
  { eapply Forall2_compose; [|exact Hds|apply frame_details_fields].
    intros rec dd dd' H1 H2 key Hkey. simpl in *.
    rewrite (H2 key Hkey), (Hcol key Hkey), (H1 key Hkey). done. }
  eapply Forall2_impl; [exact (Forall2_zip_with set_details _ _ _ _ _ Hrows Hframed)|].
  intros rec row' (row & dd' & Hrow & Hdd & ->). simpl. split.
  - intros key Hkey. rewrite set_details_field by done.
    rewrite (Hdd key Hkey). split; [done|].
    intros Hnone. unfold detail_cell, held_entry. rewrite Hnone.
    apply stored_missing, stored_None_missing.
  - intros c Hc Hnot. rewrite set_details_others by done. by apply Hrow.
Qed.

(** ** The bulk methods, continued *)

Lemma per_workspace_contribution E op p :
  per_workspace_op op = true →
  contribution E (fetch_of E op) (context_of op) p = None.
Proof.
  intros Hop. unfold contribution.
  destruct op; try discriminate Hop; simpl;
    unfold per_workspace, series_getitem; by case_bool_decide.
Qed.

Lemma foldl_add_none E fetch context ps : ∀ df,
  (∀ p, p ∈ ps → contribution E fetch context p = None) →
  foldl (add E fetch context) df ps = df.
Proof.
  induction ps as [|p ps IH]; intros df Hnone; [done|]. simpl.
  unfold add at 2. rewrite Hnone by (apply elem_of_cons; by left).
  apply IH. intros p' Hp'. apply Hnone. apply elem_of_cons. by right.
Qed.

Lemma per_workspace_bulk_of E op parents out tr :
  per_workspace_op op = true →
  bulk_of E op parents = (Ok out, tr) → out = no_frame.
Proof.
  intros Hop. rewrite bulk_of_eq.
  assert (Hpre : prefilter op parents = ret parents)
    by (by destruct op; try discriminate Hop).
  rewrite Hpre, bind_ret_l. unfold fan_out. intros [-> _]%for_rows_ok.
  apply foldl_add_none. intros p _. by apply per_workspace_contribution.
Qed.

Lemma for_rows_const (body : Series → DataFrame → M DataFrame)
    (f : Series → event) ps : ∀ df,
  (∀ p, p ∈ ps → ∀ df, body p df = (Ok df, [f p])) →
  for_rows body ps df = (Ok df, f <$> ps).
Proof.
  induction ps as [|p ps IH]; intros df Hbody; [done|]. simpl.
  rewrite (bind_ok _ _ _ _ (Hbody p ltac:(apply elem_of_cons; by left) df)).
  rewrite IH; [done|]. intros p' Hp'. apply Hbody. apply elem_of_cons. by right.
Qed.

(** The loop of the three methods that walk the workspaces, over a table
    with an [id] column. *)
Lemma per_workspace_passes E op parents :
  per_workspace_op op = true →
  "id" ∈ columns parents →
  bulk_of E op parents = (Ok no_frame, arity_diagnostic E op <$> iterrows parents).
Proof.
  intros Hop Hid. rewrite bulk_of_eq.
  assert (Hpre : prefilter op parents = ret parents)
    by (by destruct op; try discriminate Hop).
  rewrite Hpre, bind_ret_l. unfold fan_out. apply for_rows_const.
  intros p (r & -> & _)%list_elem_of_fmap df.
  unfold fan_out_step, try_except, arity_diagnostic.
  destruct op; try discriminate Hop; simpl;
    unfold per_workspace, series_getitem; simpl;
    rewrite !bool_decide_true by done; reflexivity.
Qed.

(** X10.  [get_all_datasets], [get_all_dataflows] and [get_all_reports]
    call a two-parameter fetcher with the workspace id alone.  Over any
    workspaces table with an [id] column the call of every pass raises
    [TypeError] before any request is sent, the loop catches it, and the
    method returns the empty frame having printed one line per workspace
    and nothing else. *)
Theorem one_argument_calls (E : Env) (op : bulk_op) (parents : DataFrame) :
  per_workspace_op op = true →
  "id" ∈ columns parents →
  bulk_of E op parents = (Ok no_frame, arity_diagnostic E op <$> iterrows parents).
Proof.
  intros Hop Hid. rewrite bulk_of_eq.
  assert (Hpre : prefilter op parents = ret parents)
    by (by destruct op; try discriminate Hop).
  rewrite Hpre, bind_ret_l. unfold fan_out. apply for_rows_const.
  intros p (r & -> & _)%list_elem_of_fmap df.
  unfold fan_out_step, try_except, arity_diagnostic.
  destruct op; try discriminate Hop; simpl;
    unfold per_workspace, series_getitem; simpl;
    rewrite !bool_decide_true by done; reflexivity.
Qed.

Lemma bulk_eq E op : bulk E op = (parents <~ parents_of E op ;; bulk_of E op parents).
Proof. by destruct op. Qed.

Lemma bulk_of_no_frame E op :
  bulk_of E op no_frame =
    if prefiltered op then (Raise (KeyError (filter_column op)), [])
    else (Ok no_frame, []).
Proof. by destruct op. Qed.

Lemma per_workspace_bulk E op out tr :
  per_workspace_op op = true → bulk E op = (Ok out, tr) → out = no_frame.
Proof.
  intros Hop. rewrite bulk_eq.
  intros (parents & t1 & t2 & _ & Hof & _)%bind_inv_ok.
  by apply (per_workspace_bulk_of E op parents out t2).
Qed.

Lemma parent_op_per_workspace op p :
  parent_op op = Some p → per_workspace_op p = true.
Proof. destruct op; simpl; by intros [= <-]. Qed.

(** X11.  No bulk method ever returns a row.  The three that walk the
    workspaces hand back the empty frame, as their calls have an argument
    too few; the ten built on them therefore start from the empty frame,
    and return it or raise.  So on every service each of the thirteen
    either returns the empty frame or raises. *)
Theorem bulk_methods_return_no_row (E : Env) (op : bulk_op) :
  (∃ tr, bulk E op = (Ok no_frame, tr)) ∨ (∃ e tr, bulk E op = (Raise e, tr)).
Proof.
  destruct (bulk E op) as [[out|e] tr] eqn:Hrun; [|right; by eexists _, _].
  left. exists tr. f_equal. f_equal.
  destruct (parent_op op) as [p|] eqn:Hp.
  - rewrite bulk_eq in Hrun. unfold parents_of in Hrun. rewrite Hp in Hrun.
    apply bind_inv_ok in Hrun as (parents & t1 & t2 & Hpar & Hof & _).
    apply per_workspace_bulk in Hpar; [|by eapply parent_op_per_workspace].
    subst parents. rewrite bulk_of_no_frame in Hof.
    destruct (prefiltered op); [done|]. by injection Hof.
  - apply (per_workspace_bulk E op out tr); [|done]. by destruct op.
Qed.

(** X12.  The refresh-history, dataset-users and dataset-sources
    aggregations never return at all: either [get_all_datasets] raises
    and they raise the same, or it hands back the empty frame, as it
    always does, and the filtering pre-pass raises [KeyError] on the
    column it reads. *)
Theorem prefiltered_bulk_never_returns (E : Env) (op : bulk_op) :
  prefiltered op = true →
  ∃ e tr,
    bulk E op = (Raise e, tr) ∧
    (get_all_datasets E = (Raise e, tr) ∨
     (get_all_datasets E = (Ok no_frame, tr) ∧ e = KeyError (filter_column op))).
Proof.
  intros Hop. rewrite bulk_eq.
  assert (Hpar : parents_of E op = get_all_datasets E)
    by (by destruct op; try discriminate Hop).
  rewrite Hpar.
  destruct (get_all_datasets E) as [[parents|e] tr] eqn:Hd.
  - assert (parents = no_frame) as ->
      by (by apply (per_workspace_bulk E All_datasets parents tr)).
    exists (KeyError (filter_column op)), tr. split; [|by right].
    rewrite (bind_ok _ _ _ _ eq_refl), bulk_of_no_frame, Hop. simpl.
    by rewrite app_nil_r.
  - exists e, tr. split; [done|by left].
Qed.

Lemma fst_ok {A} (m : M A) a : fst m = Ok a → m = (Ok a, snd m).
Proof. destruct m as [r tr]. simpl. by intros ->. Qed.

(** X13.  An aggregated frame with at least one row has every context
    column of its method: a frame is only concatenated after all the
    context assignments went through, and concatenation keeps columns. *)
Theorem aggregated_rows_have_context_columns (E : Env) (op : bulk_op)
    (parents out : DataFrame) :
  fst (bulk_of E op parents) = Ok out →
  rows out ≠ [] →
  ∀ col, col ∈ (context_of op).*1 → col ∈ columns out.
Proof.
  intros Hrun%fst_ok Hrows col Hcol. rewrite bulk_of_eq in Hrun.
  apply bind_inv_ok in Hrun as (kept & t1 & t2 & _ & Hfan & _).
  apply fan_out_rows in Hfan as [_ HF].
  destruct (rows out) as [|row rest] eqn:Hout; [done|].
  destruct (contributed E (fetch_of E op) (context_of op) (iterrows kept))
    as [|[[p t'] r1] srcs] eqn:Hsrc; [by apply Forall2_nil_cons_inv in HF|].
  apply Forall2_cons_1 in HF as [Hk _].
  assert (Hin : (p, t', r1) ∈ contributed E (fetch_of E op) (context_of op)
                                 (iterrows kept))
    by (rewrite Hsrc; apply elem_of_cons; by left).
  unfold contributed in Hin. apply list_elem_of_bind in Hin as (p' & Hin & _).
  unfold contribution in Hin.
  destruct (fetch_of E op p') as [[t|e] tr0]; [|by apply elem_of_nil in Hin].
  destruct (DataFrame_empty t); [by apply elem_of_nil in Hin|].
  destruct (inject E (context_of op) p' t) as [[t''|e] tri] eqn:Hinj;
    [|by apply elem_of_nil in Hin].
  apply list_elem_of_fmap in Hin as (r1' & [= -> -> ->] & _).
  apply inject_ok in Hinj as (_ & Hc2 & _).
  by destruct (Hk col (Hc2 col Hcol)).
Qed.

(** X14.  The [except] handler of a loop body reads the parent's id to
    build its line.  When the parent table has rows but no id column, the
    call of the first pass raises [KeyError], the handler raises
    [KeyError] in its turn, and this one escapes: the method raises, no
    line is printed, no request is sent and the other parents are never
    visited. *)
Theorem missing_id_column_escapes (E : Env) (op : bulk_op)
    (parents kept : DataFrame) :
  prefilter op parents = (Ok kept, []) →
  id_key_of op ∉ columns kept →
  rows kept ≠ [] →
  bulk_of E op parents = (Raise (KeyError (id_key_of op)), []).
Proof.
  intros Hpre Hid Hrows. rewrite (bulk_of_kept _ _ _ _ Hpre).
  unfold fan_out, iterrows. destruct (rows kept) as [|r rs]; [done|].
  cbn [fmap list_fmap for_rows]. apply bind_raise.
  unfold fan_out_step, try_except.
  assert (Hfetch : ∃ e, fetch_of E op (mk_series (columns kept) r) = (Raise e, [])).
  { destruct op; simpl in *; unfold per_workspace, per_child, series_getitem; simpl;
      rewrite ?(bool_decide_false _ Hid); try by eexists.
    all: case_bool_decide; simpl; by eexists. }
  destruct Hfetch as [e Hfetch]. rewrite (bind_raise _ _ _ _ Hfetch).
  unfold series_getitem. simpl. by rewrite (bool_decide_false _ Hid).
Qed.


(** ** The filtering pre-passes, continued *)

Lemma select_fmap {A} (f : A → bool) (l : list A) :
  select (f <$> l) l = List.filter f l.
Proof.
  induction l as [|x l IH]; [done|]. simpl.
  destruct (f x); [f_equal|]; exact IH.
Qed.

(** X16.  The pre-pass of the users and sources aggregations, on a
    datasets table whose names are all strings, keeps the columns and
    exactly the rows whose name does not contain ["Usage Metrics"], in
    their order: no other row is lost. *)
Theorem drop_usage_metrics_exact (df : DataFrame) :
  "name" ∈ columns df →
  Forall (λ r, is_str (cell r "name") = true) (rows df) →
  drop_usage_metrics df =
    (Ok (mk_df (columns df) (List.filter named_outside_usage_metrics (rows df))), []).
Proof.
  intros Hname Hstr. unfold drop_usage_metrics, getitem, not_str_contains.
  rewrite bool_decide_true by done. rewrite bind_ret_l.
  assert (Hall : forallb is_str ((λ r, cell r "name") <$> rows df) = true).
  { clear Hname. induction Hstr as [|r rs Hr _ IH]; [done|]. simpl. by rewrite Hr. }
  rewrite Hall, bind_ret_l. unfold boolean_index.
  rewrite <- list_fmap_compose. by rewrite select_fmap.
Qed.

(** X17.  The pre-pass of the refresh-history aggregation keeps the
    columns and exactly the rows whose [isRefreshable] cell is the string
    ["True"], in their order.  A row whose flag is the boolean [True], as
    a JSON [true] is decoded, is not among them. *)
Theorem refreshable_filter_exact (df : DataFrame) :
  "isRefreshable" ∈ columns df →
  prefilter All_dataset_refresh_history df =
    (Ok (mk_df (columns df) (List.filter flagged_refreshable (rows df))), []) ∧
  ∀ r, cell r "isRefreshable" = VBool true →
       r ∉ List.filter flagged_refreshable (rows df).
Proof.
  intros Hcol. split.
  - simpl. unfold getitem. rewrite bool_decide_true by done. rewrite bind_ret_l.
    unfold boolean_index. rewrite <- list_fmap_compose. by rewrite select_fmap.
  - intros r Hr Hin. apply list_elem_of_In, filter_In in Hin as [_ Hf].
    unfold flagged_refreshable in Hf. by rewrite Hr in Hf.
Qed.

(** ** Trigger actions *)

(** X18.  [refresh_tables_from_dataset] is [refresh_objects_from_dataset]
    on one [{"table": t}] object per table, in order, and both go
    through [refresh_dataset]: one POST carrying the objects, then
    exactly one printed line, whatever the status of the reply.  The line
    announces the refresh when the status is 202 and reports the status
    otherwise; nothing is raised and nothing is returned. *)
Theorem refresh_tables_outcome (E : Env) (workspace_id dataset_id : value)
    (table_list : list value) headers tr0 r :
  get_header E = (Ok headers, tr0) →
  http E (refresh_request E workspace_id dataset_id headers
            (Some (VObj [("objects", table_objects table_list)]))) = Reply r →
  refresh_tables_from_dataset E workspace_id dataset_id table_list =
    refresh_objects_from_dataset E workspace_id dataset_id (table_objects table_list) ∧
  refresh_tables_from_dataset E workspace_id dataset_id table_list =
    (Ok tt,
     tr0 ++ [EvRequest (refresh_request E workspace_id dataset_id headers
                          (Some (VObj [("objects", table_objects table_list)])));
             EvPrint (if bool_decide (status_code r = 202)
                      then "Start refreshing dataset " +:+ fmt E dataset_id
                      else "Failed to refresh dataset " +:+ fmt E dataset_id +:+
                           ". Status code: " +:+ pretty (status_code r))]).
Proof.
  intros Hh Hr. split; [done|].
  unfold refresh_tables_from_dataset, refresh_dataset, requests_post.
  fold (table_objects table_list).
  fold (refresh_request E workspace_id dataset_id headers
          (Some (VObj [("objects", table_objects table_list)]))).
  rewrite (bind_ok _ _ _ _ Hh), (bind_ok _ _ _ _ (send_reply _ _ _ Hr)).
  by case_bool_decide.
Qed.

(** X19.  [refresh_dataflow] posts without a body and prints exactly one
    line, whatever the status of the reply: it announces the refresh
    when the status is 200 -- not 202, the status [refresh_dataset]
    waits for -- and reports the status otherwise. *)
Theorem refresh_dataflow_outcome (E : Env) (workspace_id dataflow_id : value)
    headers tr0 r :
  get_header E = (Ok headers, tr0) →
  http E (dataflow_refresh_request E workspace_id dataflow_id headers) = Reply r →
  refresh_dataflow E workspace_id dataflow_id =
    (Ok tt,
     tr0 ++ [EvRequest (dataflow_refresh_request E workspace_id dataflow_id headers);
             EvPrint (if bool_decide (status_code r = 200)
                      then "Start refreshing dataflow " +:+ fmt E dataflow_id
                      else "Failed to refresh dataflow " +:+ fmt E dataflow_id +:+
                           ". Status code: " +:+ pretty (status_code r))]).
Proof.
  intros Hh Hr. unfold refresh_dataflow, requests_post.
  fold (dataflow_refresh_request E workspace_id dataflow_id headers).
  rewrite (bind_ok _ _ _ _ Hh), (bind_ok _ _ _ _ (send_reply _ _ _ Hr)).
  by case_bool_decide.
Qed.

(** ** Replies of another shape *)

(** X20.  A schema fetcher answered 200 reads
    [result.json()["results"][0]["tables"][0]["rows"]] without a check:
    a JSON object without [results] makes it raise [KeyError], one whose
    [results] is the empty array [IndexError]. *)
Theorem schema_reply_without_results (E : Env) (q : point_query)
    headers tr0 r d :
  schema_query q = true →
  get_header E = (Ok headers, tr0) →
  http E (query_request E q headers) = Reply r →
  status_code r = 200 →
  payload r = Some (VObj d) →
  (dict_get d "results" = None →
   run_query E q =
     (Raise (KeyError "results"), tr0 ++ [EvRequest (query_request E q headers)])) ∧
  (dict_get d "results" = Some (VArr []) →
   run_query E q =
     (Raise (IndexError "list index out of range"),
      tr0 ++ [EvRequest (query_request E q headers)])).
Proof.
  intros Hq Hh Hr Hs Hp. rewrite (run_query_200 _ _ _ _ _ Hh Hr Hs).
  assert (Hf : on_200 E q r = info_frame E r)
    by (destruct q; try discriminate Hq; reflexivity).
  rewrite Hf. unfold info_frame, info_rows, json. rewrite Hp, bind_ret_l.
  cbn [subscript].
  split; intros ->; simpl; by rewrite ?app_nil_r.
Qed.

(** X21.  A listing answered 200 with a JSON array in place of the
    object: the fetchers of client.py, which subscript it with
    ["value"], raise [TypeError]; those of gateway_client.py, which call
    [.get] on it, raise [AttributeError]. *)
Theorem listing_body_not_an_object (E : Env) (q : point_query)
    headers tr0 r items :
  get_header E = (Ok headers, tr0) →
  http E (query_request E q headers) = Reply r →
  status_code r = 200 →
  payload r = Some (VArr items) →
  (client_listing q = true →
   run_query E q =
     (Raise (TypeError "object is not subscriptable by a string key"),
      tr0 ++ [EvRequest (query_request E q headers)])) ∧
  (gateway_listing_query q = true →
   run_query E q =
     (Raise (AttributeError "object has no attribute 'get'"),
      tr0 ++ [EvRequest (query_request E q headers)])).
Proof.
  intros Hh Hr Hs Hp. rewrite (run_query_200 _ _ _ _ _ Hh Hr Hs).
  split; intros Hq; destruct q; try discriminate Hq; simpl;
    unfold listing_frame, sources_frame, workspaces_frame, gateway_listing_frame, json;
    rewrite Hp; simpl; by rewrite ?app_nil_r.
Qed.

(** ** The requests of a bulk method *)

Lemma for_rows_quiet (body : Series → DataFrame → M DataFrame) ps : ∀ df,
  (∀ p df, quiet (body p df)) → quiet (for_rows body ps df).
Proof.
  induction ps as [|p ps IH]; intros df Hbody; [done|]. simpl.
  apply quiet_bind; [done|]. intros df'. by apply IH.
Qed.

Lemma per_workspace_bulk_of_quiet E op parents :
  per_workspace_op op = true → quiet (bulk_of E op parents).
Proof.
  intros Hop. rewrite bulk_of_eq.
  assert (Hpre : prefilter op parents = ret parents)
    by (by destruct op; try discriminate Hop).
  rewrite Hpre, bind_ret_l. unfold fan_out. apply for_rows_quiet.
  intros p df. unfold quiet, fan_out_step, try_except.
  destruct op; try discriminate Hop; simpl;
    unfold per_workspace, series_getitem; by case_bool_decide.
Qed.

Lemma snd_bind {A B} (m : M A) (k : A → M B) :
  snd (bind m k) =
    snd m ++ match fst m with Ok a => snd (k a) | Raise _ => [] end.
Proof.
  destruct m as [[a|e] tr]; simpl; [by destruct (k a)|by rewrite app_nil_r].
Qed.

Lemma per_workspace_bulk_requests E op :
  per_workspace_op op = true →
  requests_of (snd (bulk E op)) = requests_of (snd (get_all_workspaces E)).
Proof.
  intros Hop. rewrite bulk_eq.
  assert (Hpar : parents_of E op = get_all_workspaces E)
    by (by destruct op; try discriminate Hop).
  rewrite Hpar, snd_bind, requests_of_app.
  destruct (fst (get_all_workspaces E)) as [parents|e]; [|by rewrite app_nil_r].
  rewrite (per_workspace_bulk_of_quiet E op parents Hop). by rewrite app_nil_r.
Qed.

(** X22.  A bulk method sends the requests of its one call of
    [get_all_workspaces] and no other: the token request, then the
    workspace listing when the headers were obtained.  No fetcher is ever
    called with a request to send, in any of the thirteen. *)
Theorem bulk_methods_requests (E : Env) (op : bulk_op) :
  requests_of (snd (bulk E op)) = requests_of (snd (get_all_workspaces E)) ∧
  (requests_of (snd (bulk E op)) = [token_request E] ∨
   ∃ headers,
     requests_of (snd (bulk E op)) =
       [token_request E; query_request E All_workspaces headers]).
Proof.
  assert (Hreq : requests_of (snd (bulk E op)) =
                 requests_of (snd (get_all_workspaces E))).
  { destruct (parent_op op) as [p|] eqn:Hp.
    - rewrite <- (per_workspace_bulk_requests E p)
        by (by eapply parent_op_per_workspace).
      rewrite bulk_eq. unfold parents_of. rewrite Hp, snd_bind.
      destruct (bulk E p) as [[parents|e] tr] eqn:Hrun; simpl;
        [|by rewrite app_nil_r].
      apply per_workspace_bulk in Hrun; [|by eapply parent_op_per_workspace].
      subst parents. rewrite bulk_of_no_frame.
      destruct (prefiltered op); simpl; by rewrite app_nil_r.
    - apply per_workspace_bulk_requests. by destruct op. }
  split; [done|]. rewrite Hreq.
  change (get_all_workspaces E) with (run_query E All_workspaces).
  pose proof (get_header_requests E) as Hh.
  destruct (get_header E) as [[headers|e] tr0] eqn:Hhd.
  - right. exists headers. by apply (run_query_requests E _ headers tr0).
  - left. rewrite run_query_anatomy, (bind_raise _ _ _ _ Hhd). exact Hh.
Qed.

(** ** The bulk methods over listed workspaces *)

Lemma per_workspace_run E op df tr :
  per_workspace_op op = true →
  get_all_workspaces E = (Ok df, tr) →
  "id" ∈ columns df →
  bulk E op = (Ok no_frame, tr ++ (arity_diagnostic E op <$> iterrows df)).
Proof.
  intros Hop Hw Hid. rewrite bulk_eq.
  assert (Hpar : parents_of E op = get_all_workspaces E)
    by (by destruct op; try discriminate Hop).
  rewrite Hpar, (bind_ok _ _ _ _ Hw).
  by rewrite (per_workspace_passes E op df Hop Hid).
Qed.

(** C1, on the code.  Whenever the service lists workspaces (a table with
    an [id] column comes back from [get_all_workspaces]), and whatever
    it would answer to any other request, no bulk method returns a row.
    [get_all_datasets], [get_all_dataflows] and [get_all_reports] call
    their fetcher with the workspace id alone, so every pass raises
    [TypeError] and is caught: they return the empty frame after one
    diagnostic per workspace.  The methods built on them start from that
    empty frame: the three with a filtering pre-pass raise [KeyError] on
    the column they filter on, the other seven return the empty frame. *)
Theorem listed_workspaces_add_no_row (E : Env) (df : DataFrame) (tr : list event) :
  get_all_workspaces E = (Ok df, tr) →
  "id" ∈ columns df →
  ∀ op,
    bulk E op =
      (if prefiltered op then Raise (KeyError (filter_column op)) else Ok no_frame,
       tr ++ (arity_diagnostic E (root_op op) <$> iterrows df)).
Proof.
  intros Hw Hid op. unfold root_op.
  destruct (parent_op op) as [p|] eqn:Hp.
  - rewrite bulk_eq. unfold parents_of. rewrite Hp.
    rewrite (bind_ok _ _ _ _ (per_workspace_run E p df tr
                                (parent_op_per_workspace op p Hp) Hw Hid)).
    rewrite bulk_of_no_frame. destruct (prefiltered op); simpl; by rewrite app_nil_r.
  - assert (Hop : per_workspace_op op = true) by (by destruct op).
    rewrite (per_workspace_run E op df tr Hop Hw Hid).
    by destruct op.
Qed.

(** C2, on the code.  In [get_all_datasets], [get_all_dataflows] and
    [get_all_reports] over listed workspaces the loop sends no request
    at all, so a fault of the service on the requests for one workspace
    is never met: every workspace, not only that one, gets a diagnostic,
    for the [TypeError] of the call with one argument, and the method
    returns the empty frame. *)
Theorem workspace_faults_never_met (E : Env) (op : bulk_op)
    (df : DataFrame) (tr : list event) :
  per_workspace_op op = true →
  get_all_workspaces E = (Ok df, tr) →
  "id" ∈ columns df →
  ∃ trace,
    bulk E op = (Ok no_frame, tr ++ trace) ∧
    requests_of trace = [] ∧
    Forall2 (λ workspace ev,
               ev = EvPrint (diagnostic E "workspace" (cell (cells workspace) "id")
                               (arity_error op)))
            (iterrows df) trace.
Proof.
  intros Hop Hw Hid. exists (arity_diagnostic E op <$> iterrows df).
  split; [by apply per_workspace_run|]. split.
  - unfold requests_of. induction (iterrows df) as [|p ps IH]; [done|].
    rewrite fmap_cons, bind_cons. by rewrite IH.
  - apply Forall2_fmap_r, Forall_Forall2_diag, Forall_forall. by intros p _.
Qed.

(** ** execute_query *)

Lemma string_length_app (s t : string) :
  String.length (s +:+ t) = (String.length s + String.length t)%nat.
Proof. induction s as [|a s IH]; [done|]. simpl. by rewrite IH. Qed.

(** X23.  [execute_query] returns the reply as it is, whatever its
    status.  Its request has the method, headers and body of the schema
    fetchers' request for the same query, but not the URL: it builds it
    from [base_url], which ends in a slash, and the fetchers build
    theirs with one slash less. *)
Theorem execute_query_request_differs (E : Env) (workspace_id dataset_id : value)
    (query : string) headers tr0 r :
  get_header E = (Ok headers, tr0) →
  http E (execute_query_request E workspace_id dataset_id query headers) = Reply r →
  execute_query E workspace_id dataset_id query =
    (Ok r, tr0 ++ [EvRequest (execute_query_request E workspace_id dataset_id
                                query headers)]) ∧
  execute_query_request E workspace_id dataset_id query headers ≠
    mk_request POST (info_url E workspace_id dataset_id) headers
               (Some (info_body query)) ∧
  req_url (execute_query_request E workspace_id dataset_id query headers) =
    "https://api.powerbi.com/v1.0/myorg/groups//" +:+ fmt E workspace_id +:+
    "/datasets/" +:+ fmt E dataset_id +:+ "/executeQueries".
Proof.
  intros Hh Hr. split; [|split; [|done]].
  - unfold execute_query, requests_post, execute_query_request in *.
    rewrite (bind_ok _ _ _ _ Hh). by rewrite (send_reply _ _ _ Hr).
  - intros Heq. apply (f_equal req_url) in Heq.
    apply (f_equal String.length) in Heq. revert Heq.
    unfold execute_query_request, info_url, base_url. cbn [req_url].
    rewrite !string_length_app. simpl. lia.
Qed.

(** ** Concrete runs *)

Lemma demo_refreshable_rows :
  iterrows demo_refreshable =
  [demo_series "D1" "Sales" (VStr "True");
   demo_series "D2" "Usage Metrics Report" (VStr "True")].
Proof. vm_compute. reflexivity. Qed.

Lemma demo_named_rows :
  iterrows demo_named =
  [demo_series "D1" "Sales" (VStr "True")] ++
  demo_series "D3" "Costs" (VBool true) :: [].
Proof. vm_compute. reflexivity. Qed.

(** The empty collection on a concrete service. *)
Lemma empty_parent_collection_witness :
  get_all_datasets no_workspaces = (Ok no_frame, snd (get_all_workspaces no_workspaces)) ∧
  get_all_dataset_refresh_history no_workspaces =
    (Raise (KeyError "isRefreshable"), snd (get_all_workspaces no_workspaces)) ∧
  get_all_dataset_users no_workspaces =
    (Raise (KeyError "name"), snd (get_all_workspaces no_workspaces)) ∧
  get_all_dataset_sources no_workspaces =
    (Raise (KeyError "name"), snd (get_all_workspaces no_workspaces)) ∧
  ∀ op, op ≠ All_dataset_refresh_history → op ≠ All_dataset_users →
        op ≠ All_dataset_sources →
        bulk no_workspaces op = (Ok no_frame, snd (get_all_workspaces no_workspaces)).
Proof.
  apply (empty_parent_collection no_workspaces (snd (get_all_workspaces no_workspaces))).
  vm_compute. reflexivity.
Defined.

(** Sales is queried for its users, the usage report is not. *)
Lemma usage_metrics_datasets_skipped_witness :
  ∃ out r,
    fst (bulk_of demo All_dataset_users demo_datasets) = Ok out ∧
    rows out = [r] ∧
    ∃ dataset s,
      dataset ∈ iterrows demo_datasets ∧
      cell (cells dataset) "name" = VStr s ∧
      contains "Usage Metrics" s = false ∧
      cell r "datasetName" = VStr s.
Proof.
  destruct (fst (bulk_of demo All_dataset_users demo_datasets)) as [out|e] eqn:Hrun;
    [|vm_compute in Hrun; discriminate Hrun].
  destruct (rows out) as [|r [|r' rs]] eqn:Hrows.
  - exfalso. revert Hrows. vm_compute in Hrun. injection Hrun as <-. discriminate.
  - exists out, r. split; [done|]. split; [done|].
    apply (proj2 (usage_metrics_datasets_skipped demo All_dataset_users demo_datasets
                    (or_introl eq_refl)) out r Hrun).
    rewrite Hrows. apply elem_of_cons. by left.
  - exfalso. revert Hrows. vm_compute in Hrun. injection Hrun as <-. discriminate.
Defined.


(** The tables of D1: the one column [Table[Column]] comes back as
    [TableColumn]. *)
Lemma schema_columns_stripped_witness :
  ∃ df,
    run_query demo tables_query =
      (Ok df, snd (get_header demo) ++
              [EvRequest (query_request demo tables_query bearer_t0)]) ∧
    columns df = strip_brackets <$> record_labels [[("Table[Column]", VInt 1)]] ∧
    Forall (λ c, has_char "[" c = false ∧ has_char "]" c = false) (columns df) ∧
    strip_brackets "Table[Column]" = "TableColumn".
Proof.
  apply (schema_columns_stripped demo tables_query bearer_t0 (snd (get_header demo))
           (mk_response 200 (Some (query_reply (VArr [VObj [("Table[Column]", VInt 1)]]))))
           (query_reply (VArr [VObj [("Table[Column]", VInt 1)]]))
           [VObj [("Table[Column]", VInt 1)]]
           [[("Table[Column]", VInt 1)]]).
  all: vm_compute; reflexivity.
Defined.

(** C6, as stated, fails: the brackets are deleted, no dot is put in. *)
Lemma brackets_deleted_without_dot :
  ∃ df tr,
    run_query demo tables_query = (Ok df, tr) ∧
    columns df = ["TableColumn"] ∧
    columns df ≠ ["Table.Column"].
Proof.
  do 2 eexists. split; [vm_compute; reflexivity|]. split; [by vm_compute|].
  vm_compute. discriminate.
Qed.

(** A gateway that does not exist: 404, the empty frame, no exception. *)
Lemma point_query_status_and_faults_witness :
  run_query demo (Gateway_by_id (VStr "G1")) =
    (Ok no_frame,
     snd (get_header demo) ++
     [EvRequest (query_request demo (Gateway_by_id (VStr "G1")) bearer_t0)]).
Proof.
  apply (proj1 (point_query_status_and_faults demo (Gateway_by_id (VStr "G1")))
           bearer_t0 (snd (get_header demo)) (mk_response 404 None)).
  - vm_compute. reflexivity.
  - vm_compute. reflexivity.
  - simpl. lia.
Defined.

(** C7, as stated, fails.  When the token endpoint answers 401, every
    reply the client meets has a status other than 200 and nothing fails
    in transport, yet the point query raises [KeyError].  When the
    listing is answered 200 without a [value] key, again nothing fails in
    transport and the point query raises [KeyError]. *)
Lemma point_query_raises_without_transport_fault :
  (run_query denied users_query =
     (Raise (KeyError "access_token"), [EvRequest (token_request denied)]) ∧
   ∀ req, ∃ r, http denied req = Reply r ∧ status_code r ≠ 200) ∧
  (fst (run_query no_value users_query) = Raise (KeyError "value") ∧
   ∀ req, ∃ r, http no_value req = Reply r).
Proof.
  split; split.
  - vm_compute. reflexivity.
  - intros req. simpl. case_bool_decide; eexists; (split; [done|]); simpl; lia.
  - vm_compute. reflexivity.
  - intros req. simpl. repeat case_bool_decide; by eexists.
Qed.

(** The users of D1 and the gateways, both answered 200 with the JSON
    object [{}]: the pass of the users aggregation for D1 prints its
    line and keeps the frame. *)
Lemma listing_without_value_witness :
  (run_query no_value users_query =
     (Raise (KeyError "value"),
      snd (get_header no_value) ++
      [EvRequest (query_request no_value users_query bearer_t0)]) ∧
   fan_out_step no_value (fetch_of no_value All_dataset_users) dataset_context
                "dataset users" "id" (demo_series "D1" "Sales" (VStr "True")) no_frame =
     (Ok no_frame,
      (snd (get_header no_value) ++
       [EvRequest (query_request no_value users_query bearer_t0)]) ++
      [EvPrint (diagnostic no_value "dataset users" (VStr "D1") (KeyError "value"))])) ∧
  run_query no_value All_gateways =
    (Ok no_frame,
     snd (get_header no_value) ++
     [EvRequest (query_request no_value All_gateways bearer_t0)]).
Proof.
  split.
  - destruct (listing_without_value no_value users_query bearer_t0
                (snd (get_header no_value)) (mk_response 200 (Some (VObj []))) [])
      as [Hclient _]; try (vm_compute; reflexivity).
    destruct Hclient as [Hrun Hstep]; [reflexivity|].
    split; [exact Hrun|].
    apply (Hstep All_dataset_users (demo_series "D1" "Sales" (VStr "True")) no_frame).
    + vm_compute. reflexivity.
    + vm_compute. do 3 (apply elem_of_cons; right). apply elem_of_cons. by left.
    + vm_compute. apply elem_of_cons. by left.
  - apply (listing_without_value no_value All_gateways bearer_t0
             (snd (get_header no_value)) (mk_response 200 (Some (VObj []))) []);
      try (vm_compute; reflexivity).
Defined.

(** C8, as stated, fails for the gateway listing fetchers: answered 200
    with a JSON object without a [value] key, [get_all_gateways] returns
    the empty frame and raises nothing. *)
Lemma gateway_listing_does_not_raise :
  http no_value (query_request no_value All_gateways bearer_t0) =
    Reply (mk_response 200 (Some (VObj []))) ∧
  dict_get [] "value" = None ∧
  fst (get_all_gateways no_value) = Ok no_frame ∧
  ∀ e, fst (get_all_gateways no_value) ≠ Raise e.
Proof.
  split; [vm_compute; reflexivity|]. split; [done|].
  split; [vm_compute; reflexivity|]. intros e. vm_compute. discriminate.
Qed.

(** The four context columns of D1 on a frame of one row. *)
Lemma inject_idempotent_witness :
  ∃ df1,
    inject demo dataset_context (demo_series "D1" "Sales" (VStr "True"))
      (from_records [[("status", VStr "Completed")]]) = (Ok df1, []) ∧
    inject demo dataset_context (demo_series "D1" "Sales" (VStr "True")) df1
      = (Ok df1, []).
Proof.
  apply (inject_idempotent demo dataset_context
           (demo_series "D1" "Sales" (VStr "True"))
           (from_records [[("status", VStr "Completed")]])).
  unfold well_typed. compute_done.
Defined.

(** ** Concrete runs, continued *)

(** The token endpoint answers 401 with an error object: [KeyError],
    from [get_header] and from every point query. *)
Lemma token_reply_decides_header_witness :
  get_header denied =
    (Raise (KeyError "access_token"), [EvRequest (token_request denied)]) ∧
  ∀ q, run_query denied q =
         (Raise (KeyError "access_token"), [EvRequest (token_request denied)]).
Proof.
  apply (token_reply_decides_header denied
           (mk_response 401 (Some (VObj [("error", VStr "invalid_client")])))
           [("error", VStr "invalid_client")]).
  all: vm_compute; reflexivity.
Defined.

(** The users of D1, answered 200 with a body that is not JSON. *)
Lemma body_not_json_raises_witness :
  run_query garbled users_query =
    (Raise JSONDecodeError,
     snd (get_header garbled) ++
     [EvRequest (query_request garbled users_query bearer_t0)]).
Proof.
  apply (body_not_json_raises garbled users_query bearer_t0 (snd (get_header garbled))
           (mk_response 200 None)).
  all: vm_compute; reflexivity.
Defined.

(** The metadata of workspace W1: one row, two columns. *)
Lemma object_fetchers_one_row_witness :
  ∃ df row,
    run_query estate (Workspace_by_id (VStr "W1")) =
      (Ok df, snd (get_header estate) ++
              [EvRequest (query_request estate (Workspace_by_id (VStr "W1")) bearer_t0)]) ∧
    rows df = [row] ∧
    (∀ k, k ∈ columns df ↔ is_Some (dict_get finance k)) ∧
    (∀ k v, dict_get finance k = Some v → cell row k = v) ∧
    (DataFrame_empty df = true ↔ finance = []).
Proof.
  apply (object_fetchers_one_row estate (Workspace_by_id (VStr "W1")) bearer_t0
           (snd (get_header estate)) (mk_response 200 (Some (VObj finance))) finance).
  all: vm_compute; reflexivity.
Defined.

(** Two refreshes, the second without an id: the id of the first reads
    back as a float, that of the second as NaN, the statuses as decoded. *)
Lemma listing_rows_witness :
  ∃ df,
    run_query registry history_query =
      (Ok df, snd (get_header registry) ++
              [EvRequest (query_request registry history_query bearer_t0)]) ∧
    Forall2 (λ rec row,
               cell row "id" = as_float registry (default VNaN (dict_get rec "id")) ∧
               cell row "status" = default VNaN (dict_get rec "status"))
            refreshes (rows df) ∧
    as_float registry (VInt 7) = VFloat "7.0".
Proof.
  destruct (listing_rows registry history_query bearer_t0 (snd (get_header registry))
              (mk_response 200 (Some (VObj [("value", VArr (VObj <$> refreshes))])))
              [("value", VArr (VObj <$> refreshes))]
              (VObj <$> refreshes) refreshes) as (df & Hrun & Hcols & Hrows);
    [by left|vm_compute; reflexivity..|].
  exists df. split; [exact Hrun|]. split; [|reflexivity].
  eapply Forall2_impl;
    [apply (Forall2_and_l _ (λ rec, default VNaN (dict_get rec "status") ≠ VNone)
              _ _ Hrows); repeat constructor; discriminate|].
  intros rec row [Hrow Hstatus]. split.
  - apply (Hrow "id"); [|vm_compute; reflexivity..].
    apply Hcols. exists [("id", VInt 7); ("status", VStr "Completed")].
    split; [apply elem_of_cons; by left|by eexists].
  - apply (Hrow "status"); [|vm_compute; reflexivity|exact Hstatus].
    apply Hcols. exists [("id", VInt 7); ("status", VStr "Completed")].
    split; [apply elem_of_cons; by left|by eexists].
Defined.

(** Two workspaces, the second without an id: the id of the first is
    stored as a float and comes back as its text. *)
Lemma workspace_ids_become_strings_witness :
  ∃ df,
    get_all_workspaces registry =
      (Ok df, snd (get_header registry) ++
              [EvRequest (query_request registry All_workspaces bearer_t0)]) ∧
    columns df = record_labels registered ∧
    Forall2 (λ rec row,
               cell row "id" =
                 astype_str registry
                   (as_float registry (default VNaN (dict_get rec "id"))))
            registered (rows df) ∧
    astype_str registry (as_float registry (VInt 7)) = VStr "7.0".
Proof.
  pose proof (workspace_ids_become_strings registry bearer_t0 (snd (get_header registry))
                (mk_response 200 (Some (VObj [("value", VArr (VObj <$> registered))])))
                [("value", VArr (VObj <$> registered))]
                (VObj <$> registered) registered) as H.
  destruct H as (df & Hrun & Hcols & Hrows);
    [vm_compute; reflexivity..|vm_compute; discriminate|].
  exists df. split; [exact Hrun|]. split; [exact Hcols|]. split; [|reflexivity].
  eapply Forall2_impl; [exact Hrows|]. intros rec row (_ & _ & Hid & _).
  apply Hid; vm_compute; reflexivity.
Defined.

(** The one data source of D1, its connection details a string that
    parses to a dictionary with a [server] alone: the other four details
    read as missing. *)
Lemma sources_spread_connection_details_witness :
  ∃ df tr,
    run_query estate (Dataset_sources_by_id (VStr "W1") (VStr "D1")) = (Ok df, tr) ∧
    requests_of tr =
      [token_request estate;
       query_request estate (Dataset_sources_by_id (VStr "W1") (VStr "D1")) bearer_t0] ∧
    columns df = merge_labels (record_labels [sql_source]) details_columns ∧
    Forall2 (λ rec row,
               cell row "server" = detail_cell estate [sql_source] rec "server" ∧
               is_missing (cell row "database") = true ∧
               cell row "datasourceType" =
                 listing_cell estate [sql_source] rec "datasourceType")
            [sql_source] (rows df) ∧
    detail_cell estate [sql_source] sql_source "server" = VStr "sql01".
Proof.
  pose proof (sources_spread_connection_details estate
                (Dataset_sources_by_id (VStr "W1") (VStr "D1")) bearer_t0
                (snd (get_header estate))
                (mk_response 200 (Some (VObj [("value", VArr [VObj sql_source])])))
                [("value", VArr [VObj sql_source])] [VObj sql_source] [sql_source]) as H.
  destruct H as (df & tr & Hrun & Hreq & Hcols & Hrows);
    [vm_compute; reflexivity..|vm_compute; discriminate|].
  exists df, tr. split; [exact Hrun|]. split; [exact Hreq|]. split; [exact Hcols|].
  split; [|vm_compute; reflexivity].
  destruct (rows df) as [|row rest]; [by apply Forall2_cons_nil_inv in Hrows|].
  apply Forall2_cons_1 in Hrows as [[Hdetails Hothers] Hrest].
  apply Forall2_nil_inv_l in Hrest as ->.
  constructor; [|constructor]. split; [|split].
  - apply Hdetails. apply elem_of_cons. by left.
  - apply Hdetails; [|vm_compute; reflexivity].
    apply elem_of_cons. right. apply elem_of_cons. by left.
  - apply Hothers.
    + vm_compute. apply elem_of_cons. by left.
    + vm_compute. intros Hin.
      repeat (apply elem_of_cons in Hin as [Hin|Hin]; [discriminate Hin|]).
      by apply elem_of_nil in Hin.
Defined.

(** Two workspaces: two diagnostics, no row. *)
Lemma one_argument_calls_witness :
  bulk_of estate All_datasets workspaces_table =
    (Ok no_frame, arity_diagnostic estate All_datasets <$> iterrows workspaces_table).
Proof.
  apply (one_argument_calls estate All_datasets workspaces_table).
  - reflexivity.
  - vm_compute. apply elem_of_cons. by left.
Defined.

(** [get_all_dataset_users] over the two workspaces. *)
Lemma prefiltered_bulk_never_returns_witness :
  ∃ e tr,
    bulk estate All_dataset_users = (Raise e, tr) ∧
    (get_all_datasets estate = (Raise e, tr) ∨
     (get_all_datasets estate = (Ok no_frame, tr) ∧
      e = KeyError (filter_column All_dataset_users))).
Proof.
  apply (prefiltered_bulk_never_returns estate All_dataset_users). reflexivity.
Defined.

(** The refresh histories of the demo datasets: three rows, with the
    four context columns. *)
Lemma aggregated_rows_have_context_columns_witness :
  Forall (λ col, col ∈ columns (result_of (bulk_of demo All_dataset_refresh_history
                                             demo_datasets)))
         dataset_context.*1.
Proof.
  apply Forall_forall.
  apply (aggregated_rows_have_context_columns demo All_dataset_refresh_history
           demo_datasets
           (result_of (bulk_of demo All_dataset_refresh_history demo_datasets))).
  - vm_compute. reflexivity.
  - vm_compute. discriminate.
Defined.

(** A datasets table without ids: the tables aggregation raises. *)
Lemma missing_id_column_escapes_witness :
  bulk_of demo All_dataset_tables idless = (Raise (KeyError "id"), []).
Proof.
  apply (missing_id_column_escapes demo All_dataset_tables idless idless).
  - reflexivity.
  - vm_compute. intros H. apply list_elem_of_singleton in H. discriminate H.
  - vm_compute. discriminate.
Defined.


(** Of the three demo datasets the usage report goes. *)
Lemma drop_usage_metrics_exact_witness :
  drop_usage_metrics demo_datasets =
    (Ok (mk_df (columns demo_datasets)
               (List.filter named_outside_usage_metrics (rows demo_datasets))), []).
Proof.
  apply (drop_usage_metrics_exact demo_datasets).
  - vm_compute. apply elem_of_cons. right. apply elem_of_cons. by left.
  - repeat constructor.
Defined.

(** Of the three demo datasets the one flagged with a boolean goes. *)
Lemma refreshable_filter_exact_witness :
  prefilter All_dataset_refresh_history demo_datasets =
    (Ok (mk_df (columns demo_datasets)
               (List.filter flagged_refreshable (rows demo_datasets))), []) ∧
  ∀ r, cell r "isRefreshable" = VBool true →
       r ∉ List.filter flagged_refreshable (rows demo_datasets).
Proof.
  apply (refreshable_filter_exact demo_datasets).
  vm_compute. do 2 (apply elem_of_cons; right). apply elem_of_cons. by left.
Defined.

(** A refresh of the table Sales of D1, accepted with 202. *)
Lemma refresh_tables_outcome_witness :
  refresh_tables_from_dataset estate (VStr "W1") (VStr "D1") [VStr "Sales"] =
    refresh_objects_from_dataset estate (VStr "W1") (VStr "D1")
      (table_objects [VStr "Sales"]) ∧
  refresh_tables_from_dataset estate (VStr "W1") (VStr "D1") [VStr "Sales"] =
    (Ok tt,
     snd (get_header estate) ++
     [EvRequest (refresh_request estate (VStr "W1") (VStr "D1") bearer_t0
                   (Some (VObj [("objects", table_objects [VStr "Sales"])])));
      EvPrint "Start refreshing dataset D1"]).
Proof.
  apply (refresh_tables_outcome estate (VStr "W1") (VStr "D1") [VStr "Sales"]
           bearer_t0 (snd (get_header estate)) (mk_response 202 None)).
  all: vm_compute; reflexivity.
Defined.

(** A refresh of dataflow F1, accepted with 200, and one of dataflow F2,
    which the service does not know. *)
Lemma refresh_dataflow_outcome_witness :
  refresh_dataflow estate (VStr "W1") (VStr "F1") =
    (Ok tt,
     snd (get_header estate) ++
     [EvRequest (dataflow_refresh_request estate (VStr "W1") (VStr "F1") bearer_t0);
      EvPrint "Start refreshing dataflow F1"]) ∧
  refresh_dataflow estate (VStr "W1") (VStr "F2") =
    (Ok tt,
     snd (get_header estate) ++
     [EvRequest (dataflow_refresh_request estate (VStr "W1") (VStr "F2") bearer_t0);
      EvPrint "Failed to refresh dataflow F2. Status code: 404"]).
Proof.
  split.
  - apply (refresh_dataflow_outcome estate (VStr "W1") (VStr "F1") bearer_t0
             (snd (get_header estate)) (mk_response 200 None)).
    all: vm_compute; reflexivity.
  - apply (refresh_dataflow_outcome estate (VStr "W1") (VStr "F2") bearer_t0
             (snd (get_header estate)) (mk_response 404 None)).
    all: vm_compute; reflexivity.
Defined.

(** The tables of D1, answered 200 with no result. *)
Lemma schema_reply_without_results_witness :
  run_query garbled tables_query =
    (Raise (IndexError "list index out of range"),
     snd (get_header garbled) ++
     [EvRequest (query_request garbled tables_query bearer_t0)]).
Proof.
  refine (proj2 (schema_reply_without_results garbled tables_query bearer_t0
                   (snd (get_header garbled))
                   (mk_response 200 (Some (VObj [("results", VArr [])])))
                   [("results", VArr [])] _ _ _ _ _) _).
  all: vm_compute; reflexivity.
Defined.

(** The gateways, answered 200 with an array. *)
Lemma listing_body_not_an_object_witness :
  run_query garbled All_gateways =
    (Raise (AttributeError "object has no attribute 'get'"),
     snd (get_header garbled) ++
     [EvRequest (query_request garbled All_gateways bearer_t0)]).
Proof.
  refine (proj2 (listing_body_not_an_object garbled All_gateways bearer_t0
                   (snd (get_header garbled)) (mk_response 200 (Some (VArr []))) []
                   _ _ _ _) _).
  all: vm_compute; reflexivity.
Defined.

(** A DAX query to D1 of W1, which this service does not route. *)
Lemma execute_query_request_differs_witness :
  execute_query estate (VStr "W1") (VStr "D1") "EVALUATE INFO.VIEW.TABLES()" =
    (Ok (mk_response 404 None),
     snd (get_header estate) ++
     [EvRequest (execute_query_request estate (VStr "W1") (VStr "D1")
                   "EVALUATE INFO.VIEW.TABLES()" bearer_t0)]) ∧
  execute_query_request estate (VStr "W1") (VStr "D1")
      "EVALUATE INFO.VIEW.TABLES()" bearer_t0 ≠
    mk_request POST (info_url estate (VStr "W1") (VStr "D1")) bearer_t0
               (Some (info_body "EVALUATE INFO.VIEW.TABLES()")) ∧
  req_url (execute_query_request estate (VStr "W1") (VStr "D1")
             "EVALUATE INFO.VIEW.TABLES()" bearer_t0) =
    "https://api.powerbi.com/v1.0/myorg/groups//" +:+ fmt estate (VStr "W1") +:+
    "/datasets/" +:+ fmt estate (VStr "D1") +:+ "/executeQueries".
Proof.
  apply (execute_query_request_differs estate (VStr "W1") (VStr "D1")
           "EVALUATE INFO.VIEW.TABLES()" bearer_t0 (snd (get_header estate))
           (mk_response 404 None)).
  all: vm_compute; reflexivity.
Defined.

(** Two workspaces with a dataset each, one of them with two refreshes:
    the fetchers return their rows when called with both ids, and the
    bulk methods return none. *)
Lemma listed_workspaces_add_no_row_witness :
  (length (rows (result_of (get_dataset_by_id fleet (VStr "W1") (VStr "D1")))) = 1%nat ∧
   length (rows (result_of (get_dataset_by_id fleet (VStr "W2") (VStr "D2")))) = 1%nat ∧
   length (rows (result_of (get_dataset_refresh_history_by_id fleet (VStr "W1")
                              (VStr "D1") 10))) = 2%nat) ∧
  get_all_datasets fleet =
    (Ok no_frame,
     snd (get_all_workspaces fleet) ++
     (arity_diagnostic fleet All_datasets <$>
        iterrows (result_of (get_all_workspaces fleet)))) ∧
  get_all_dataset_refresh_history fleet =
    (Raise (KeyError "isRefreshable"),
     snd (get_all_workspaces fleet) ++
     (arity_diagnostic fleet All_datasets <$>
        iterrows (result_of (get_all_workspaces fleet)))).
Proof.
  split; [by vm_compute|].
  assert (Hw : get_all_workspaces fleet =
               (Ok (result_of (get_all_workspaces fleet)), snd (get_all_workspaces fleet)))
    by (vm_compute; reflexivity).
  assert (Hid : "id" ∈ columns (result_of (get_all_workspaces fleet)))
    by (vm_compute; apply elem_of_cons; by left).
  split.
  - exact (listed_workspaces_add_no_row fleet _ _ Hw Hid All_datasets).
  - exact (listed_workspaces_add_no_row fleet _ _ Hw Hid All_dataset_refresh_history).
Defined.

(** Three workspaces, the dataset of the second out of reach: three
    diagnostics, none of them for the fault, and no row. *)
Lemma workspace_faults_never_met_witness :
  fst (get_dataset_by_id faulty (VStr "W2") (VStr "D2")) =
    Raise (RequestException "connection refused") ∧
  length (rows (result_of (get_dataset_by_id faulty (VStr "W1") (VStr "D1")))) = 1%nat ∧
  ∃ trace,
    get_all_datasets faulty = (Ok no_frame, snd (get_all_workspaces faulty) ++ trace) ∧
    requests_of trace = [] ∧
    Forall2 (λ workspace ev,
               ev = EvPrint (diagnostic faulty "workspace" (cell (cells workspace) "id")
                               (arity_error All_datasets)))
            (iterrows (result_of (get_all_workspaces faulty))) trace ∧
    length trace = 3%nat.
Proof.
  split; [by vm_compute|]. split; [by vm_compute|].
  destruct (workspace_faults_never_met faulty All_datasets
              (result_of (get_all_workspaces faulty)) (snd (get_all_workspaces faulty)))
    as (trace & Hrun & Hreq & Htrace).
  - reflexivity.
  - vm_compute. reflexivity.
  - vm_compute. apply elem_of_cons. by left.
  - exists trace. split; [exact Hrun|]. split; [exact Hreq|]. split; [exact Htrace|].
    rewrite <- (Forall2_length _ _ _ Htrace). by vm_compute.
Defined.


